(** * Verification of the RAG chatbot query pipeline

    A shallow embedding of the Python sources: conversation memory
    ([graph/memory.py]), the score validator
    ([retrieval/score_threshold.py]), the retriever and auto-ingestor
    ([retrieval/retriever.py]), the Gemini client ([llm/gemini_llm.py]),
    the graph nodes and the orchestrator ([graph/nodes.py],
    [graph/build_graph.py], [main.py]) and the streaming dispatcher
    ([chatbot_service_sse.py]).

    Conventions.
    - A Python [str] is the list of its Unicode code points ([list N]).
    - A similarity score (a Python float) is a rational; only order
      comparisons against thresholds are made on it (NaN is not modelled).
    - External collaborators (embedding model, vector index, generative
      model, clock) are consumed through their outcomes.  An exception is
      an [Err] outcome; every call to a collaborator is logged in a trace. *)

From Stdlib Require Import ZArith NArith QArith List Bool Lia.
From stdpp Require Import gmap list strings.

Open Scope Z_scope.

(** ** Python strings *)

Abbreviation pystr := (list N) (only parsing).

Module Py.

(** An ASCII literal as a Python string. *)
Definition lit (s : string) : pystr :=
  map Ascii.N_of_ascii (String.list_ascii_of_string s).

Definition LF : N := 10%N.

(** [str.isspace] on one code point; also the class [\s] of [re] for
    [str] patterns (characters whose bidirectional type is WS, B or S, or
    whose category is Zs). *)
Definition isspace (c : N) : bool :=
  ((9 <=? c) && (c <=? 13) || (28 <=? c) && (c <=? 32)
   || (c =? 133) || (c =? 160) || (c =? 5760)
   || (8192 <=? c) && (c <=? 8202)
   || (c =? 8232) || (c =? 8233) || (c =? 8239) || (c =? 8287)
   || (c =? 12288))%N.

(** Only whitespace, or empty. *)
Definition blank (s : pystr) : bool := forallb isspace s.

(** [s.lstrip()], [s.rstrip()], [s.strip()]. *)
Fixpoint lstrip (s : pystr) : pystr :=
  match s with
  | c :: s' => if isspace c then lstrip s' else s
  | [] => []
  end.

Definition rstrip (s : pystr) : pystr := rev (lstrip (rev s)).

Definition strip (s : pystr) : pystr := rstrip (lstrip s).

(** [s.startswith(p)]. *)
Fixpoint startswith (p s : pystr) : bool :=
  match p, s with
  | [], _ => true
  | a :: p', b :: s' => (a =? b)%N && startswith p' s'
  | _ :: _, [] => false
  end.

(** [s.split(sep)] for a one-character separator: always at least one
    piece. *)
Fixpoint split (sep : N) (s : pystr) : list pystr :=
  match s with
  | [] => [[]]
  | c :: s' =>
      if (c =? sep)%N then [] :: split sep s'
      else match split sep s' with
           | piece :: rest => (c :: piece) :: rest
           | [] => [[c]]
           end
  end.

(** [sep.join(parts)]. *)
Fixpoint join (sep : pystr) (parts : list pystr) : pystr :=
  match parts with
  | [] => []
  | [p] => p
  | p :: rest => p ++ sep ++ join sep rest
  end.

(** [s.replace(old, new)] for a non-empty [old]: leftmost,
    non-overlapping occurrences.  [skip] counts the characters of an
    occurrence that are still to be dropped. *)
Fixpoint replace_from (old new : pystr) (skip : nat) (s : pystr) : pystr :=
  match s with
  | [] => []
  | c :: s' =>
      match skip with
      | S k => replace_from old new k s'
      | O =>
          if startswith old s
          then new ++ replace_from old new (length old - 1) s'
          else c :: replace_from old new O s'
      end
  end.

Definition replace (old new s : pystr) : pystr := replace_from old new O s.

(** Truthiness of a string: [if s:]. *)
Definition truthy (s : pystr) : bool :=
  match s with [] => false | _ => true end.

(** The slice [l[start:]] with Python's treatment of a negative start. *)
Definition slice_from {A} (start : Z) (l : list A) : list A :=
  if start <? 0
  then drop (Z.to_nat (Z.max 0 (Z.of_nat (length l) + start))) l
  else drop (Z.to_nat start) l.

(** [needle in hay] for strings. *)
Fixpoint contains (needle hay : pystr) : bool :=
  startswith needle hay
  || match hay with
     | [] => false
     | _ :: hay' => contains needle hay'
     end.

(** [s.split()]: the maximal runs of non-whitespace characters.  [word]
    is the run being read, in reverse. *)
Fixpoint split_ws_from (word : pystr) (s : pystr) : list pystr :=
  match s with
  | [] => match word with [] => [] | _ => [rev word] end
  | c :: s' =>
      if isspace c
      then match word with
           | [] => split_ws_from [] s'
           | _ => rev word :: split_ws_from [] s'
           end
      else split_ws_from (c :: word) s'
  end.

Definition split_ws (s : pystr) : list pystr := split_ws_from [] s.

End Py.

Notation "'py' s" := (Py.lit s%string) (at level 9, s at level 0, only parsing).

(** ** Conversation memory ([graph/memory.py]) *)

Module Memory.

Record Message := mkMessage {
  role : pystr;
  content : pystr;
  timestamp : pystr
}.

(** [redis_client = false] is the state after a failed connection in
    [__init__]: [self.redis_client = None] and the in-process dictionary
    [_fallback_storage] is used.  [storage] is that dictionary, or the
    Redis key space (whose values are the JSON of the message lists;
    [json.loads] of [json.dumps] gives the list back).  Expiry of a key
    after its time-to-live is not modelled. *)
Record ConversationMemory := mkMemory {
  max_history : Z;
  redis_client : bool;
  storage : gmap (list N) (list Message)
}.

(** [ConversationMemory(max_history)]: an empty store; [connected] says
    whether the ping of the constructor succeeded. *)
Definition new (max_history : Z) (connected : bool) : ConversationMemory :=
  mkMemory max_history connected ∅.

Definition _get_redis_key (user_id session_id : pystr) : pystr :=
  py "chatbot:" ++ user_id ++ py ":" ++ session_id.

(** [get_ok]: the Redis [GET] does not raise. *)
Definition _load_state (m : ConversationMemory) (get_ok : bool)
    (redis_key : pystr) : list Message :=
  if negb (redis_client m) then default [] (storage m !! redis_key)
  else if get_ok then
         match storage m !! redis_key with
         | Some data => data
         | None => []
         end
       else [].

(** [set_ok]: the Redis [SETEX] does not raise. *)
Definition _save_state (m : ConversationMemory) (set_ok : bool)
    (redis_key : pystr) (messages : list Message) : ConversationMemory :=
  if negb (redis_client m)
  then mkMemory (max_history m) (redis_client m) (<[redis_key := messages]> (storage m))
  else if set_ok
       then mkMemory (max_history m) (redis_client m) (<[redis_key := messages]> (storage m))
       else m.

Definition add_message (m : ConversationMemory) (get_ok set_ok : bool)
    (user_id session_id role content now : pystr) : ConversationMemory :=
  let redis_key := _get_redis_key user_id session_id in
  let messages := _load_state m get_ok redis_key in
  let message := mkMessage role content now in
  let messages := messages ++ [message] in
  let messages :=
    if Z.of_nat (length messages) >? max_history m * 2
    then Py.slice_from (- (max_history m * 2)) messages
    else messages in
  _save_state m set_ok redis_key messages.

(** The trimming step of [add_message]: the list handed to [_save_state]. *)
Definition trimmed (m : ConversationMemory) (messages : list Message) : list Message :=
  if Z.of_nat (length messages) >? max_history m * 2
  then Py.slice_from (- (max_history m * 2)) messages
  else messages.

(** The simplified entries returned by [get_history]. *)
Record Turn := mkTurn { turn_role : pystr; turn_content : pystr }.

Definition get_history (m : ConversationMemory) (get_ok : bool)
    (user_id session_id : pystr) : list Turn :=
  let redis_key := _get_redis_key user_id session_id in
  let messages := _load_state m get_ok redis_key in
  map (fun msg => mkTurn (role msg) (content msg)) messages.

Definition get_formatted_history (m : ConversationMemory) (get_ok : bool)
    (user_id session_id : pystr) : pystr :=
  let history := get_history m get_ok user_id session_id in
  match history with
  | [] => []
  | _ =>
      Py.join [Py.LF]
        (map (fun msg =>
                (if decide (turn_role msg = py "user") then py "User" else py "Assistant")
                  ++ py ": " ++ turn_content msg)
             history)
  end.

(** [del_ok]: the Redis [DEL] does not raise. *)
Definition clear_session (m : ConversationMemory) (del_ok : bool)
    (user_id session_id : pystr) : ConversationMemory :=
  let redis_key := _get_redis_key user_id session_id in
  if negb (redis_client m)
  then match storage m !! redis_key with
       | Some _ => mkMemory (max_history m) (redis_client m) (delete redis_key (storage m))
       | None => m
       end
  else if del_ok
       then mkMemory (max_history m) (redis_client m) (delete redis_key (storage m))
       else m.

(** [get_last_exchange]: [None] is the empty dictionary, otherwise the
    contents of the last two entries under the keys ["user"] and
    ["assistant"]. *)
Definition get_last_exchange (m : ConversationMemory) (get_ok : bool)
    (user_id session_id : pystr) : option (list N * list N) :=
  let history := get_history m get_ok user_id session_id in
  if (length history <? 2)%nat then None
  else Some (from_option turn_content [] (history !! (length history - 2)%nat),
             from_option turn_content [] (history !! (length history - 1)%nat)).

Definition has_context (m : ConversationMemory) (get_ok : bool)
    (user_id session_id : pystr) : bool :=
  let history := get_history m get_ok user_id session_id in
  (0 <? length history)%nat.

(** One [add_message] call together with the outcomes of its two Redis
    commands. *)
Record Append := mkAppend {
  a_user : pystr;
  a_session : pystr;
  a_role : pystr;
  a_content : pystr;
  a_now : pystr;
  a_get_ok : bool;
  a_set_ok : bool
}.

Definition apply_append (m : ConversationMemory) (a : Append) : ConversationMemory :=
  add_message m (a_get_ok a) (a_set_ok a)
    (a_user a) (a_session a) (a_role a) (a_content a) (a_now a).

Definition run_appends (m : ConversationMemory) (ops : list Append) : ConversationMemory :=
  fold_left apply_append ops m.

(** Every stored history has at most [2 * max_history] entries. *)
Definition within_limit (m : ConversationMemory) : Prop :=
  forall k msgs, storage m !! k = Some msgs ->
    Z.of_nat (length msgs) <= 2 * max_history m.

(** The [n] most recent entries of [l]. *)
Definition most_recent {A} (n : nat) (l : list A) : list A :=
  drop (length l - n) l.

End Memory.

(** ** Outcomes of calls that may raise, and the call trace *)

Inductive outcome (A : Type) : Type :=
| Ok (a : A)
| Raise.
Arguments Ok {A} a.
Arguments Raise {A}.

Abbreviation Payload := (gmap (list N) (list N)) (only parsing).

(** A stored point of the vector collection. *)
Record Point := mkPoint {
  pt_id : pystr;
  pt_vector : list Q;
  pt_payload : Payload
}.

(** A search hit ([ScoredPoint]): payload and similarity score. *)
Record ScoredPoint := mkScored {
  sp_payload : Payload;
  sp_score : Q
}.

(** [Filter(must=[FieldCondition(key, MatchValue(value)), ...])]. *)
Abbreviation QueryFilter := (list (list N * list N)) (only parsing).

(** The calls made to the collaborators, in program order.  [EnterIngest]
    marks an invocation of [Retriever.ingest_qa_pair]. *)
Inductive Call :=
| CallPreprocess (query : pystr)
| CallEmbed (text : pystr)
| CallSearch (vector : list Q) (limit : Z) (query_filter : option QueryFilter)
| CallUpsert (point : Point)
| CallGenerate (prompt : pystr)
| EnterIngest (question answer : pystr).

(** [process_query]'s dictionary, as far as [retrieve] reads it. *)
Record Processed := mkProcessed {
  normalized : pystr;
  keyword_query : pystr
}.

(** *** The Gemini HTTP exchange ([requests.post] and [response.json()]) *)

Record Part := mkPart { text : option pystr }.
Record Content := mkContent { parts : option (list Part) }.
Record Candidate := mkCandidate {
  cand_content : option Content;
  finishReason : option pystr
}.

(** The parsed body: a falsy value, or a non-empty object with or without
    the key [candidates]. *)
Inductive Body :=
| BodyFalsy
| BodyObject (candidates : option (list Candidate)).

(** What the [try] block of [_call_api] meets: one of the exceptions it
    handles, or a response with its status code and parsed body. *)
Inductive ApiResult :=
| ApiTimeout
| ApiRequestException
| ApiKeyError
| ApiOtherException
| ApiResponse (status_code : Z) (result : Body).

(** The collaborators of one process.  [process_query] is
    [QueryProcessor.process_query] and [classify_intent] is
    [IntentRouter.classify_intent], both consumed through their results.
    [query_points] and [upsert_ok] see the current collection; [uuid4] is
    indexed by the number of calls logged so far, [utcnow] and [redis_ok]
    by the number of memory operations issued.  [GEMINI_SYSTEM_PROMPT] is
    the constant of [llm/prompts.py].  [unicode_isalnum] is the
    interpreter's [str.isalnum] table, consulted for code points above 127
    only. *)
Record Env := mkEnv {
  process_query : pystr -> outcome Processed;
  generate_embedding : pystr -> outcome (list Q);
  query_points : list Point -> list Q -> Z -> option QueryFilter -> outcome (list ScoredPoint);
  upsert_ok : list Point -> Point -> bool;
  uuid4 : nat -> pystr;
  http_post : pystr -> ApiResult;
  classify_intent : pystr -> pystr;
  utcnow : nat -> pystr;
  redis_ok : nat -> bool;
  GEMINI_SYSTEM_PROMPT : pystr;
  unicode_isalnum : N -> bool
}.

(** The mutable world: the vector collection, the conversation memory, the
    trace and the count of Redis commands issued. *)
Record Store := mkStore {
  collection : list Point;
  memory : Memory.ConversationMemory;
  calls : list Call;
  redis_ops : nat
}.

(** Computations over the store that may raise. *)
Definition M (A : Type) : Type := Store -> outcome A * Store.

Definition ret {A} (a : A) : M A := fun st => (Ok a, st).

Definition bind {A B} (m : M A) (k : A -> M B) : M B :=
  fun st =>
    match m st with
    | (Ok a, st') => k a st'
    | (Raise, st') => (Raise, st')
    end.

Definition raise {A} : M A := fun st => (Raise, st).

(** [try: body except Exception: handler]. *)
Definition try_except {A} (body handler : M A) : M A :=
  fun st =>
    match body st with
    | (Ok a, st') => (Ok a, st')
    | (Raise, st') => handler st'
    end.

Definition log (c : Call) : M unit :=
  fun st => (Ok tt, mkStore (collection st) (memory st) (calls st ++ [c]) (redis_ops st)).

Definition lift {A} (o : outcome A) : M A := fun st => (o, st).

Declare Scope m_scope.
Delimit Scope m_scope with M.
Notation "x <- m ;; k" := (bind m (fun x => k))
  (at level 92, m at level 91, right associativity) : m_scope.
Notation "m ;;; k" := (bind m (fun _ => k))
  (at level 92, right associativity) : m_scope.
Open Scope m_scope.

(** ** Configuration ([config/settings.py]) *)

Module Settings.
Definition TOP_K_RESULTS : Z := 5.
Definition SIMILARITY_THRESHOLD : Q := (50 # 100)%Q.
Definition EXACT_MATCH_THRESHOLD : Q := (90 # 100)%Q.
(** [int(os.getenv("MAX_CONVERSATION_HISTORY", "10"))] with the variable
    unset. *)
Definition MAX_CONVERSATION_HISTORY : Z := 10.
End Settings.

(** ** Score validator ([retrieval/score_threshold.py]) *)

Record Doc := mkDoc {
  doc_content : pystr;
  metadata : Payload;
  similarity_score : Q
}.

Module ScoreThreshold.

Record t := mk { threshold : Q }.

(** [ScoreThreshold(threshold: float = 0.55)]. *)
Definition init (threshold : option Q) : t :=
  mk (default (55 # 100)%Q threshold).

Definition filter_by_threshold (self : t) (retrieved_docs : list Doc) : list Doc :=
  match retrieved_docs with
  | [] => []
  | _ => List.filter (fun doc => Qle_bool (threshold self) (similarity_score doc)) retrieved_docs
  end.

Definition validate_retrieval (self : t) (retrieved_docs : list Doc) : bool :=
  let filtered_docs := filter_by_threshold self retrieved_docs in
  (0 <? length filtered_docs)%nat.

(** [sorted(docs, key=similarity_score, reverse=True)]: a stable sort in
    descending order; documents of equal score keep their order. *)
Fixpoint insert_desc (doc : Doc) (sorted : list Doc) : list Doc :=
  match sorted with
  | [] => [doc]
  | d :: rest =>
      if Qle_bool (similarity_score d) (similarity_score doc)
      then doc :: d :: rest
      else d :: insert_desc doc rest
  end.

Definition sorted_desc (docs : list Doc) : list Doc := foldr insert_desc [] docs.

(** [get_best_match]: [None] is the empty dictionary. *)
Definition get_best_match (self : t) (retrieved_docs : list Doc) : option Doc :=
  let filtered_docs := filter_by_threshold self retrieved_docs in
  match filtered_docs with
  | [] => None
  | _ => head (sorted_desc filtered_docs)
  end.

Definition get_confidence_level (self : t) (similarity_score : Q) : pystr :=
  if Qle_bool (9 # 10) similarity_score then py "very_high"
  else if Qle_bool (8 # 10) similarity_score then py "high"
  else if Qle_bool (7 # 10) similarity_score then py "medium"
  else if Qle_bool (threshold self) similarity_score then py "low"
  else py "below_threshold".

End ScoreThreshold.

(** ** Retriever and auto-ingestor ([retrieval/retriever.py]) *)

Module Retriever.

Record t := mk { top_k : Z }.

Definition preprocess (env : Env) (query : pystr) : M Processed :=
  log (CallPreprocess query) ;;; lift (process_query env query).

Definition embed (env : Env) (text : pystr) : M (list Q) :=
  log (CallEmbed text) ;;; lift (generate_embedding env text).

Definition search (env : Env) (vector : list Q) (limit : Z)
    (query_filter : option QueryFilter) : M (list ScoredPoint) :=
  log (CallSearch vector limit query_filter) ;;;
  (fun st => (query_points env (collection st) vector limit query_filter, st)).

(** The collection after [upsert(points=[p])]: a point with the same id is
    replaced, a new id is added. *)
Fixpoint upsert_point (p : Point) (c : list Point) : list Point :=
  match c with
  | [] => [p]
  | q :: c' =>
      if decide (pt_id q = pt_id p) then p :: c' else q :: upsert_point p c'
  end.

Definition upsert (env : Env) (p : Point) : M unit :=
  log (CallUpsert p) ;;;
  (fun st =>
     if upsert_ok env (collection st) p
     then (Ok tt, mkStore (upsert_point p (collection st)) (memory st) (calls st) (redis_ops st))
     else (Raise, st)).

(** One search hit as a retrieved document: [content] is popped from the
    payload, the remaining fields are the metadata. *)
Definition format_result (result : ScoredPoint) : Doc :=
  let payload := sp_payload result in
  let content := default [] (payload !! py "content") in
  mkDoc content (delete (py "content") payload) (sp_score result).

Definition retrieve (env : Env) (self : t) (query : pystr)
    (top_k_arg : option Z) (filter_by : option QueryFilter) : M (list Doc) :=
  if negb (Py.truthy query) then ret []
  else
    let k := default (top_k self) top_k_arg in
    try_except
      (processed <- preprocess env query ;;
       let normalized_query := normalized processed in
       let keyword_query := keyword_query processed in
       let search_query :=
         if Py.truthy keyword_query then keyword_query else normalized_query in
       query_embedding <- embed env search_query ;;
       let query_filter :=
         match filter_by with
         | Some (_ :: _ as conditions) => Some conditions
         | _ => None
         end in
       search_results <- search env query_embedding k query_filter ;;
       ret (map format_result search_results))
      (ret []).

Definition format_chunk (doc : Doc) : pystr :=
  let company := default (py "Unknown") (metadata doc !! py "company") in
  let doc_type := default (py "Unknown") (metadata doc !! py "document_type") in
  let source := default (py "Unknown") (metadata doc !! py "source") in
  py "[Company]: " ++ company ++ [Py.LF] ++
  py "[Document Type]: " ++ doc_type ++ [Py.LF] ++
  py "[Source]: " ++ source ++ [Py.LF] ++ [Py.LF] ++
  py "Content:" ++ [Py.LF] ++ doc_content doc ++ [Py.LF].

Definition format_retrieved_context (retrieved_docs : list Doc) : pystr :=
  match retrieved_docs with
  | [] => []
  | _ => Py.join ([Py.LF] ++ py "---" ++ [Py.LF]) (map format_chunk retrieved_docs)
  end.

Definition GENERATED_QA : pystr := py "Generated Q&A".

(** The default of [similarity_threshold]. *)
Definition DEDUP_THRESHOLD : Q := (95 # 100)%Q.

Definition qa_filter : QueryFilter := [(py "document_type", GENERATED_QA)].

Definition qa_payload (question answer : pystr) : Payload :=
  let content := py "Question: " ++ question ++ [Py.LF; Py.LF] ++ py "Answer: " ++ answer in
  <[py "content" := content]>
    (<[py "document_type" := GENERATED_QA]>
       (<[py "company" := py "General Knowledge"]>
          (<[py "source" := py "Gemini LLM"]>
             (<[py "question" := question]>
                (<[py "answer" := answer]> ∅))))).

(** The loop over the hits of the duplicate check: [true] when some hit
    reaches the threshold (the loop then returns [True]). *)
Fixpoint duplicate_found (similarity_threshold : Q) (search_results : list ScoredPoint) : bool :=
  match search_results with
  | [] => false
  | result :: rest =>
      if Qle_bool similarity_threshold (sp_score result) then true
      else duplicate_found similarity_threshold rest
  end.

Definition ingest_qa_pair (env : Env) (self : t) (question answer : pystr)
    (similarity_threshold : option Q) : M bool :=
  let similarity_threshold := default DEDUP_THRESHOLD similarity_threshold in
  log (EnterIngest question answer) ;;;
  if negb (Py.truthy question) || negb (Py.truthy answer) then ret false
  else
    try_except
      (embedding <- embed env question ;;
       duplicate <-
         try_except
           (search_results <- search env embedding 5 (Some qa_filter) ;;
            ret (duplicate_found similarity_threshold search_results))
           (ret false) ;;
       if duplicate : bool then ret true
       else
         id <- (fun st => (Ok (uuid4 env (length (calls st))), st)) ;;
         let point := mkPoint id embedding (qa_payload question answer) in
         upsert env point ;;;
         ret true)
      (ret false).

End Retriever.

(** ** Gemini client ([llm/gemini_llm.py]) *)

Module GeminiLLM.

Definition MSG_HTTP_ERROR : pystr :=
  py "Oops! I'm having trouble connecting to my knowledge base right now. "
  ++ [129300%N] ++ py " Could you try asking again in a moment?".
Definition MSG_BLANK : pystr :=
  py "Hmm, I got a blank response. Let me try to help you differently - could you rephrase your question?".
Definition MSG_NO_CANDIDATES : pystr :=
  py "I'm having a bit of trouble processing that right now. "
  ++ [128517%N] ++ py " Mind trying a different question?".
Definition MSG_NO_CONTENT : pystr :=
  py "I encountered an issue processing that. Could you try rephrasing your question?".
Definition MSG_MAX_TOKENS : pystr :=
  py "The response was too long. Could you ask a more specific question?".
Definition MSG_SAFETY : pystr :=
  py "I cannot provide that information due to safety guidelines. Please rephrase your question.".
Definition MSG_NO_PARTS : pystr :=
  py "I encountered an issue generating a response. Could you try rephrasing your question?".
Definition MSG_EMPTY_PARTS : pystr :=
  py "I got your question but couldn't generate a response. Could you try asking differently?".
Definition MSG_EMPTY_TEXT : pystr :=
  py "I got your question but couldn't generate a good answer. "
  ++ [129335%N] ++ py " Want to try asking something else?".
Definition MSG_TIMEOUT : pystr :=
  py "Whoa, that's taking too long! " ++ [9200%N]
  ++ py " The connection timed out. Mind trying again?".
Definition MSG_NETWORK : pystr :=
  py "I'm having network issues connecting to my brain! " ++ [127760%N]
  ++ py " Try again in a sec?".
Definition MSG_KEY_ERROR : pystr :=
  py "Got a weird response format! " ++ [129320%N]
  ++ py " Let me know if this keeps happening, but for now, try another question?".
Definition MSG_UNEXPECTED : pystr :=
  py "Something unexpected happened! " ++ [128556%N]
  ++ py " But don't worry - try asking me something else!".

(** The body of [_call_api] after the request: the text returned for each
    outcome of the exchange. *)
Definition response_text (r : ApiResult) : pystr :=
  match r with
  | ApiTimeout => MSG_TIMEOUT
  | ApiRequestException => MSG_NETWORK
  | ApiKeyError => MSG_KEY_ERROR
  | ApiOtherException => MSG_UNEXPECTED
  | ApiResponse status_code result =>
      if negb (status_code =? 200) then MSG_HTTP_ERROR
      else
        match result with
        | BodyFalsy => MSG_BLANK
        | BodyObject None | BodyObject (Some []) => MSG_NO_CANDIDATES
        | BodyObject (Some (candidate :: _)) =>
            match cand_content candidate with
            | None => MSG_NO_CONTENT
            | Some content =>
                match parts content with
                | None =>
                    let finish_reason := default (py "UNKNOWN") (finishReason candidate) in
                    if decide (finish_reason = py "MAX_TOKENS") then MSG_MAX_TOKENS
                    else if decide (finish_reason = py "SAFETY") then MSG_SAFETY
                    else MSG_NO_PARTS
                | Some [] => MSG_EMPTY_PARTS
                | Some (part :: _) =>
                    let text := Py.strip (default [] (text part)) in
                    if negb (Py.truthy text) then MSG_EMPTY_TEXT else text
                end
            end
        end
  end.

Definition _call_api (env : Env) (prompt : pystr) : M pystr :=
  log (CallGenerate prompt) ;;;
  ret (response_text (http_post env prompt)).

Definition response_prompt (env : Env) (question conversation_history : pystr) : pystr :=
  if Py.truthy conversation_history
  then GEMINI_SYSTEM_PROMPT env ++ [Py.LF; Py.LF] ++ conversation_history
       ++ [Py.LF; Py.LF] ++ py "User Question: " ++ question
       ++ [Py.LF; Py.LF] ++ py "Assistant:"
  else GEMINI_SYSTEM_PROMPT env ++ [Py.LF; Py.LF] ++ py "User Question: " ++ question
       ++ [Py.LF; Py.LF] ++ py "Assistant:".

Definition generate_response (env : Env) (question conversation_history : pystr) : M pystr :=
  _call_api env (response_prompt env question conversation_history).

Definition rag_prompt (env : Env) (context question conversation_history : pystr) : pystr :=
  if Py.truthy conversation_history
  then GEMINI_SYSTEM_PROMPT env ++ [Py.LF; Py.LF] ++ conversation_history
       ++ [Py.LF; Py.LF] ++ py "Relevant Context:" ++ [Py.LF] ++ context
       ++ [Py.LF; Py.LF] ++ py "User Question: " ++ question
       ++ [Py.LF; Py.LF] ++ py "Assistant:"
  else GEMINI_SYSTEM_PROMPT env ++ [Py.LF; Py.LF] ++ py "Relevant Context:" ++ [Py.LF] ++ context
       ++ [Py.LF; Py.LF] ++ py "User Question: " ++ question
       ++ [Py.LF; Py.LF] ++ py "Assistant:".

Definition generate_rag_answer (env : Env) (context question conversation_history : pystr) : M pystr :=
  _call_api env (rag_prompt env context question conversation_history).

Definition generate_with_context (env : Env) (question context : pystr) : M pystr :=
  let prompt := context ++ [Py.LF; Py.LF] ++ py "Question: " ++ question in
  generate_response env prompt [].

End GeminiLLM.

(** ** Final sanitation of the answer ([ChatbotGraph._clean_response]) *)

Module Clean.

Definition is_ascii_lower (c : N) : bool := ((97 <=? c) && (c <=? 122))%N.

(** One pattern character against one subject character under
    [re.IGNORECASE] for a [str] pattern.  The pattern letters used here are
    those of "intent" and "entity"; besides the two ASCII cases, the
    engine lets [i] match U+0130 and U+0131. *)
Definition ci_char (p c : N) : bool :=
  if is_ascii_lower p
  then ((c =? p) || (c =? p - 32)
        || ((p =? 105) && ((c =? 304) || (c =? 305))))%N
  else (c =? p)%N.

Fixpoint ci_startswith (p s : pystr) : bool :=
  match p, s with
  | [], _ => true
  | a :: p', b :: s' => ci_char a b && ci_startswith p' s'
  | _ :: _, [] => false
  end.

(** [(Intent|Entity):] at the head of [s]. *)
Definition label_at (s : pystr) : bool :=
  ci_startswith (py "intent:") s || ci_startswith (py "entity:") s.

(** [re.match(r'^\s*(Intent|Entity):\s*', line, re.IGNORECASE)]. *)
Definition is_label_line (line : pystr) : bool := label_at (Py.lstrip line).

(** The class [\w] on one code point. *)
Definition isword (env : Env) (c : N) : bool :=
  if (c <? 128)%N
  then ((48 <=? c) && (c <=? 57) || (65 <=? c) && (c <=? 90)
        || (97 <=? c) && (c <=? 122) || (c =? 95))%N
  else unicode_isalnum env c.

(** [\b] between the previous character (if any) and the next one (if
    any). *)
Definition word_boundary (env : Env) (prev cur : option N) : bool :=
  xorb (from_option (isword env) false prev) (from_option (isword env) false cur).

(** [[^\n]+\n?] at the head of [r]: the number of characters matched. *)
Fixpoint line_rest (r : pystr) : nat :=
  match r with
  | c :: r' => if (c =? Py.LF)%N then O else S (line_rest r')
  | [] => O
  end.

Definition body_len (r : pystr) : option nat :=
  let n := line_rest r in
  match n with
  | O => None
  | _ => match drop n r with
         | c :: _ => if (c =? Py.LF)%N then Some (S n) else Some n
         | [] => Some n
         end
  end.

(** [\s*[^\n]+\n?] at the head of [r], with the greedy star giving
    characters back when the rest fails. *)
Fixpoint spaces_then_body (r : pystr) : option nat :=
  match r with
  | c :: r' =>
      if Py.isspace c
      then match spaces_then_body r' with
           | Some n => Some (S n)
           | None => body_len r
           end
      else body_len r
  | [] => None
  end.

(** [\b(Intent|Entity):\s*[^\n]+\n?] at the head of [s], [prev] being the
    character before it: the length of the match. *)
Definition label_match (env : Env) (prev : option N) (s : pystr) : option nat :=
  if label_at s && word_boundary env prev (head s)
  then match spaces_then_body (drop 7 s) with
       | Some n => Some (7 + n)%nat
       | None => None
       end
  else None.

(** [re.sub(r'\b(Intent|Entity):\s*[^\n]+\n?', '', s, flags=re.IGNORECASE)]:
    a left-to-right scan; [skip] counts the characters of the current match
    still to be dropped. *)
Fixpoint sub_labels (env : Env) (prev : option N) (skip : nat) (s : pystr) : pystr :=
  match s with
  | [] => []
  | c :: s' =>
      match skip with
      | S k => sub_labels env (Some c) k s'
      | O =>
          match label_match env prev s with
          | Some n => sub_labels env (Some c) (n - 1) s'
          | None => c :: sub_labels env (Some c) O s'
          end
      end
  end.

(** [re.sub(r'\n{3,}', '\n\n', s)]: [run] is the length of the run of
    newlines just read. *)
Fixpoint collapse_newlines (run : nat) (s : pystr) : pystr :=
  match s with
  | [] => []
  | c :: s' =>
      if (c =? Py.LF)%N
      then if (run <? 2)%nat then c :: collapse_newlines (S run) s'
           else collapse_newlines (S run) s'
      else c :: collapse_newlines O s'
  end.

Definition _clean_response (env : Env) (response : option pystr) : option pystr :=
  match response with
  | None => None
  | Some [] => Some []
  | Some response =>
      let lines := Py.split Py.LF response in
      let cleaned_lines := List.filter (fun line => negb (is_label_line line)) lines in
      let cleaned := Py.strip (Py.join [Py.LF] cleaned_lines) in
      let cleaned := sub_labels env None O cleaned in
      let cleaned := collapse_newlines O cleaned in
      Some (Py.strip cleaned)
  end.

(** No position of [s] starts a label. *)
Fixpoint label_free (s : pystr) : bool :=
  match s with
  | [] => true
  | _ :: s' => negb (label_at s) && label_free s'
  end.

(** [s] has three newlines in a row. *)
Fixpoint has_blank_run (s : pystr) : bool :=
  match s with
  | a :: ((b :: c :: _) as s') =>
      ((a =? Py.LF) && (b =? Py.LF) && (c =? Py.LF))%N || has_blank_run s'
  | _ => false
  end.

End Clean.

(** ** Graph state and nodes ([graph/state.py], [graph/nodes.py]) *)

Inductive Pipeline := RAG | EXTERNAL.

Record ChatbotState := mkState {
  user_id : pystr;
  session_id : pystr;
  query : pystr;
  conversation_history : list Memory.Turn;
  formatted_history : pystr;
  intent : option pystr;
  pipeline : option Pipeline;
  retrieved_docs : list Doc;
  retrieval_valid : bool;
  filtered_docs : list Doc;
  gemini_response : option pystr;
  answer : option pystr
}.

Definition set_routing (s : ChatbotState) (i : pystr) (p : Pipeline) : ChatbotState :=
  mkState (user_id s) (session_id s) (query s) (conversation_history s)
    (formatted_history s) (Some i) (Some p) (retrieved_docs s) (retrieval_valid s)
    (filtered_docs s) (gemini_response s) (answer s).

Definition set_retrieved_docs (s : ChatbotState) (docs : list Doc) : ChatbotState :=
  mkState (user_id s) (session_id s) (query s) (conversation_history s)
    (formatted_history s) (intent s) (pipeline s) docs (retrieval_valid s)
    (filtered_docs s) (gemini_response s) (answer s).

Definition set_validation (s : ChatbotState) (valid : bool) (docs : list Doc) : ChatbotState :=
  mkState (user_id s) (session_id s) (query s) (conversation_history s)
    (formatted_history s) (intent s) (pipeline s) (retrieved_docs s) valid
    docs (gemini_response s) (answer s).

Definition set_answer (s : ChatbotState) (a : pystr) : ChatbotState :=
  mkState (user_id s) (session_id s) (query s) (conversation_history s)
    (formatted_history s) (intent s) (pipeline s) (retrieved_docs s) (retrieval_valid s)
    (filtered_docs s) (gemini_response s) (Some a).

(** [RouteRules.route_query]: the intent is classified, the pipeline is
    always ["RAG"]. *)
Definition route_query (env : Env) (query : pystr) : pystr * Pipeline :=
  (classify_intent env query, RAG).

Module GraphNodes.

Record t := mk {
  retriever : Retriever.t;
  score_threshold : ScoreThreshold.t
}.

Definition route_node (env : Env) (state : ChatbotState) : M ChatbotState :=
  let routing_info := route_query env (query state) in
  ret (set_routing state (fst routing_info) (snd routing_info)).

Definition retrieve_node (env : Env) (self : t) (state : ChatbotState) : M ChatbotState :=
  retrieved_docs <- Retriever.retrieve env (retriever self) (query state) None None ;;
  ret (set_retrieved_docs state retrieved_docs).

Definition validate_node (self : t) (state : ChatbotState) : M ChatbotState :=
  let retrieved_docs := retrieved_docs state in
  let is_valid := ScoreThreshold.validate_retrieval (score_threshold self) retrieved_docs in
  if is_valid
  then ret (set_validation state is_valid
              (ScoreThreshold.filter_by_threshold (score_threshold self) retrieved_docs))
  else ret (set_validation state is_valid []).

(** The loop of [rag_answer_node] over the filtered documents: the stored
    answer of the first cached Q&A document at or above the exact-match
    threshold whose answer is not empty. *)
Fixpoint cached_answer (filtered_docs : list Doc) : option pystr :=
  match filtered_docs with
  | [] => None
  | doc :: rest =>
      let similarity := similarity_score doc in
      let doc_type := default [] (metadata doc !! py "document_type") in
      if bool_decide (doc_type = Retriever.GENERATED_QA)
         && Qle_bool Settings.EXACT_MATCH_THRESHOLD similarity
      then
        let cached := default [] (metadata doc !! py "answer") in
        if Py.truthy cached then Some cached else cached_answer rest
      else cached_answer rest
  end.

Definition external_knowledge_node (env : Env) (self : t) (state : ChatbotState)
    : M ChatbotState :=
  gemini_response <-
    GeminiLLM.generate_response env (query state) (formatted_history state) ;;
  let state := set_answer state gemini_response in
  try_except
    (Retriever.ingest_qa_pair env (retriever self) (query state) gemini_response None ;;;
     ret tt)
    (ret tt) ;;;
  ret state.

Definition rag_answer_node (env : Env) (self : t) (state : ChatbotState)
    : M ChatbotState :=
  if negb (retrieval_valid state) then external_knowledge_node env self state
  else
    match cached_answer (filtered_docs state) with
    | Some cached => ret (set_answer state cached)
    | None =>
        let context := Retriever.format_retrieved_context (filtered_docs state) in
        answer <- GeminiLLM.generate_rag_answer env context (query state)
                    (formatted_history state) ;;
        ret (set_answer state answer)
    end.

(** [memory.add_message] on the store: two Redis commands and one clock
    reading. *)
Definition add_message (env : Env) (user_id session_id role content : pystr) : M unit :=
  fun st =>
    let n := redis_ops st in
    (Ok tt,
     mkStore (collection st)
       (Memory.add_message (memory st) (redis_ok env n) (redis_ok env (S n))
          user_id session_id role content (utcnow env n))
       (calls st) (n + 2)).

Definition memory_node (env : Env) (state : ChatbotState) : M ChatbotState :=
  if Py.truthy (query state) && Py.truthy (default [] (answer state))
  then
    add_message env (user_id state) (session_id state) (py "user") (query state) ;;;
    add_message env (user_id state) (session_id state) (py "assistant")
      (default [] (answer state)) ;;;
    ret state
  else ret state.

End GraphNodes.

(** ** Orchestrator ([graph/build_graph.py], [main.py]) *)

Module ChatbotGraph.

Definition should_use_rag (state : ChatbotState) : bool :=
  match pipeline state with
  | Some RAG => true
  | _ => false
  end.

(** The compiled graph: route, then the conditional edge, then memory. *)
Definition invoke (env : Env) (nodes : GraphNodes.t) (state : ChatbotState)
    : M ChatbotState :=
  state <- GraphNodes.route_node env state ;;
  state <-
    (if should_use_rag state
     then
       state <- GraphNodes.retrieve_node env nodes state ;;
       state <- GraphNodes.validate_node nodes state ;;
       GraphNodes.rag_answer_node env nodes state
     else GraphNodes.external_knowledge_node env nodes state) ;;
  GraphNodes.memory_node env state.

Definition get_history (env : Env) (user_id session_id : pystr) : M (list Memory.Turn) :=
  fun st =>
    (Ok (Memory.get_history (memory st) (redis_ok env (redis_ops st)) user_id session_id),
     mkStore (collection st) (memory st) (calls st) (S (redis_ops st))).

Definition get_formatted_history (env : Env) (user_id session_id : pystr) : M pystr :=
  fun st =>
    (Ok (Memory.get_formatted_history (memory st) (redis_ok env (redis_ops st))
           user_id session_id),
     mkStore (collection st) (memory st) (calls st) (S (redis_ops st))).

Definition execute (env : Env) (nodes : GraphNodes.t)
    (query user_id session_id : pystr) : M (option pystr) :=
  conversation_history <- get_history env user_id session_id ;;
  formatted_history <- get_formatted_history env user_id session_id ;;
  let initial_state :=
    mkState user_id session_id query conversation_history formatted_history
      None None [] false [] None None in
  final_state <- invoke env nodes initial_state ;;
  ret (Clean._clean_response env (answer final_state)).

End ChatbotGraph.

Module RAGChatbot.

(** The components built by [_initialize_components] from [get_config()]. *)
Definition nodes : GraphNodes.t :=
  GraphNodes.mk (Retriever.mk Settings.TOP_K_RESULTS)
    (ScoreThreshold.init (Some Settings.SIMILARITY_THRESHOLD)).

Definition new_memory (connected : bool) : Memory.ConversationMemory :=
  Memory.new Settings.MAX_CONVERSATION_HISTORY connected.

Definition query (env : Env) (user_query user_id session_id : pystr) : M (option pystr) :=
  if negb (Py.truthy user_query) || negb (Py.truthy (Py.strip user_query))
  then ret (Some (py "Please provide a valid question."))
  else if negb (Py.truthy user_id) || negb (Py.truthy session_id)
  then ret (Some (py "User ID and session ID are required."))
  else ChatbotGraph.execute env nodes user_query user_id session_id.

End RAGChatbot.

(** ** Streaming dispatcher ([chatbot_service_sse.py]) *)

Module SSE.

Definition BAR : N := 124%N.

(** The loop of [chunk_text] over the sentences, with the chunk under
    construction. *)
Fixpoint chunk_loop (chunk_size : nat) (current_chunk : pystr)
    (sentences : list pystr) : list pystr :=
  match sentences with
  | [] =>
      if Py.truthy (Py.strip current_chunk) then [Py.strip current_chunk] else []
  | sentence :: rest =>
      let sentence := Py.strip sentence in
      if negb (Py.truthy sentence) then chunk_loop chunk_size current_chunk rest
      else if Py.truthy current_chunk
              && (chunk_size <? length current_chunk + length sentence)%nat
      then current_chunk :: chunk_loop chunk_size (sentence ++ py " ") rest
      else chunk_loop chunk_size (current_chunk ++ sentence ++ py " ") rest
  end.

(** The chunks yielded by the generator [chunk_text(text, chunk_size)]. *)
Definition chunk_text (text : pystr) (chunk_size : nat) : list pystr :=
  if negb (Py.truthy text) then []
  else
    let sentences :=
      Py.split BAR
        (Py.replace (py ". ") (py ".|")
           (Py.replace (py "! ") (py "!|")
              (Py.replace (py "? ") (py "?|") text))) in
    chunk_loop chunk_size [] sentences.

(** The sentences [chunk_text] puts into chunks: the pieces between the
    separators, stripped, the empty ones left out. *)
Definition sentences (text : pystr) : list pystr :=
  List.filter Py.truthy
    (map Py.strip
       (Py.split BAR
          (Py.replace (py ". ") (py ".|")
             (Py.replace (py "! ") (py "!|")
                (Py.replace (py "? ") (py "?|") text))))).

(** The events of the stream, by their [type] field. *)
Inductive Event :=
| EvStart
| EvKeepalive
| EvChunk (content : pystr)
| EvError (error : pystr)
| EvDone.

(** The single item the worker thread puts on the queue:
    [('success', full_response)] or [('error', str(e))]. *)
Inductive WorkerResult :=
| Success (full_response : option pystr)
| Failure (error : pystr).

(** [query_worker]: the query run on the worker thread; [exc_text] is
    [str(e)] of the exception, if one is raised. *)
Definition query_worker (env : Env) (exc_text : pystr)
    (query_text user_id session_id : pystr) (st : Store) : WorkerResult * Store :=
  match RAGChatbot.query env query_text user_id session_id st with
  | (Ok full_response, st') => (Success full_response, st')
  | (Raise, st') => (Failure exc_text, st')
  end.

(** What one test of the [while worker.is_alive()] loop observes: the
    worker has exited; or it is alive and [get(timeout=2.0)] raises
    [queue.Empty]; or it is alive and [get] returns the item. *)
Inductive Poll :=
| WorkerExited
| QueueTimeout
| QueueReady.

Definition MSG_TIMEOUT : pystr := py "Request timeout - please try again".
Definition MSG_NO_RESPONSE : pystr :=
  py "I apologize, but I could not generate a response. Please try rephrasing your question.".

Definition chunk_events (result : pystr) : list Event :=
  map EvChunk (chunk_text result 30).

(** The branch of the loop body taken when [get] returns the item. *)
Definition deliver_polled (item : WorkerResult) : list Event :=
  match item with
  | Failure result => [EvError result]
  | Success result =>
      (if Py.truthy (default [] result) && Py.truthy (Py.strip (default [] result))
       then chunk_events (default [] result)
       else [EvChunk MSG_NO_RESPONSE])
      ++ [EvDone]
  end.

(** The code after the loop; [queue] is the content of the result queue. *)
Definition deliver_final (queue : option WorkerResult) : list Event :=
  match queue with
  | None => []
  | Some (Success result) =>
      if Py.truthy (default [] result)
      then chunk_events (default [] result) ++ [EvDone]
      else []
  | Some (Failure result) => [EvError result]
  end.

(** The polling loop.  [sched i] is what the [i]-th test of the loop
    observes; the worker puts its item on the queue before it exits, so
    the queue holds [item] when the loop is left because the worker has
    exited.  [None]: the fuel is exhausted. *)
Fixpoint poll_loop (fuel : nat) (sched : nat -> Poll) (item : WorkerResult)
    (iteration keepalive_count : nat) : option (list Event) :=
  match fuel with
  | O => None
  | S fuel' =>
      match sched iteration with
      | WorkerExited => Some (deliver_final (Some item))
      | QueueReady => Some (deliver_polled item)
      | QueueTimeout =>
          let keepalive_count := (keepalive_count + 1)%nat in
          if (keepalive_count <=? 15)%nat
          then option_map (cons EvKeepalive)
                 (poll_loop fuel' sched item (S iteration) keepalive_count)
          else Some [EvError MSG_TIMEOUT]
      end
  end.

(** The events yielded by [generate_sse_response], in order. *)
Definition generate_sse_response (fuel : nat) (sched : nat -> Poll)
    (item : WorkerResult) : option (list Event) :=
  option_map (cons EvStart) (poll_loop fuel sched item O O).

(** The text has a character that is neither whitespace nor the
    separator of [chunk_text]. *)
Definition has_text (s : pystr) : Prop :=
  exists c, In c s /\ Py.isspace c = false /\ c <> BAR.

(** The worker's item is an error, or an answer with such a character. *)
Definition deliverable (item : WorkerResult) : Prop :=
  forall r, item = Success r -> has_text (default [] r).

Definition is_terminal (e : Event) : bool :=
  match e with
  | EvDone | EvError _ => true
  | _ => false
  end.

Definition is_chunk (e : Event) : bool :=
  match e with
  | EvChunk _ => true
  | _ => false
  end.

End SSE.

(** ** Observations on traces, and concrete scenarios *)

(** The calls made between two stores of one run. *)
Definition new_calls (before after : Store) : list Call :=
  drop (length (calls before)) (calls after).

(** A store after further calls have been logged. *)
Definition add_calls (st : Store) (cs : list Call) : Store :=
  mkStore (collection st) (memory st) (calls st ++ cs) (redis_ops st).

(** The environment [env] with a vector index that refuses every write. *)
Definition failing_upsert (env : Env) : Env :=
  mkEnv (process_query env) (generate_embedding env) (query_points env)
    (fun _ _ => false) (uuid4 env) (http_post env) (classify_intent env)
    (utcnow env) (redis_ok env) (GEMINI_SYSTEM_PROMPT env) (unicode_isalnum env).

Definition generated_prompts (cs : list Call) : list pystr :=
  omap (fun c => match c with CallGenerate p => Some p | _ => None end) cs.

Definition ingest_invocations (cs : list Call) : list (list N * list N) :=
  omap (fun c => match c with EnterIngest q a => Some (q, a) | _ => None end) cs.

Definition searches (cs : list Call) : nat :=
  length (List.filter (fun c => match c with CallSearch _ _ _ => true | _ => false end) cs).

Definition writes (cs : list Call) : nat :=
  length (List.filter (fun c => match c with CallUpsert _ => true | _ => false end) cs).

(** The result of the duplicate check of [ingest_qa_pair] on the
    collection [coll]: a hit at or above the threshold was seen.  A check
    that raises has seen nothing. *)
Definition duplicate_seen (env : Env) (similarity_threshold : Q)
    (coll : list Point) (embedding : list Q) : bool :=
  match query_points env coll embedding 5 (Some Retriever.qa_filter) with
  | Ok search_results => Retriever.duplicate_found similarity_threshold search_results
  | Raise => false
  end.

(** The id of the point [ingest_qa_pair] builds in the store [st]: it is
    drawn after the entry, the embedding and the search have been logged. *)
Definition ingest_point (env : Env) (st : Store) (embedding : list Q)
    (question answer : pystr) : pystr :=
  uuid4 env (length (calls st) + 3).

(** A query accepted at the boundary: non-blank text, non-empty ids. *)
Definition accepted (user_query user_id session_id : pystr) : Prop :=
  Py.strip user_query <> [] /\ user_id <> [] /\ session_id <> [].

(** A cached Q&A document at or above the exact-match threshold. *)
Definition exact_qa (doc : Doc) : Prop :=
  metadata doc !! py "document_type" = Some Retriever.GENERATED_QA /\
  (Settings.EXACT_MATCH_THRESHOLD <= similarity_score doc)%Q.

Definition stored_answer (doc : Doc) : pystr :=
  default [] (metadata doc !! py "answer").

Module Scenario.

(** A body whose first candidate carries the text [t]. *)
Definition gemini_says (t : pystr) : ApiResult :=
  ApiResponse 200
    (BodyObject (Some [mkCandidate (Some (mkContent (Some [mkPart (Some t)]))) None])).

(** An environment in which every collaborator answers: the index returns
    every stored point with the score [score], the model replies [reply]. *)
Definition env_of (score : Q) (reply : pystr) : Env :=
  mkEnv (fun q => Ok (mkProcessed q q))
        (fun _ => Ok [1%Q])
        (fun c _ _ _ => Ok (map (fun p => mkScored (pt_payload p) score) c))
        (fun _ _ => true)
        (fun _ => py "3f2b8c1e")
        (fun _ => gemini_says reply)
        (fun _ => py "GENERAL_EDUCATION")
        (fun _ => py "2024-01-01T00:00:00")
        (fun _ => true)
        (py "You are an assistant.")
        (fun _ => false).

Definition store_of (c : list Point) : Store :=
  mkStore c (RAGChatbot.new_memory false) [] O.

Definition question : pystr := py "What is the stipend for Google internship?".

Definition labelled_answer : pystr :=
  py "Entity: Google" ++ [Py.LF] ++ py "The stipend is paid monthly.".

Definition cached_point : Point :=
  mkPoint (py "3f2b8c1e") [1%Q] (Retriever.qa_payload question labelled_answer).

(** A memory with the limit disabled, after one append. *)
Definition zero_limit_key : pystr := Memory._get_redis_key (py "user1") (py "sessA").

Definition zero_limit_message : Memory.Message :=
  Memory.mkMessage (py "user") (py "hi") (py "2024-01-01T00:00:00").

Definition zero_limit_memory : Memory.ConversationMemory :=
  Memory.add_message (Memory.new 0 false) true true
    (py "user1") (py "sessA") (py "user") (py "hi") (py "2024-01-01T00:00:00").

(** A memory keeping one exchange, and one exchange appended to it. *)
Definition one_turn_memory : Memory.ConversationMemory := Memory.new 1 false.

Definition one_exchange : list Memory.Append :=
  [Memory.mkAppend (py "u") (py "s") (py "user") (py "q1") (py "t1") true true;
   Memory.mkAppend (py "u") (py "s") (py "assistant") (py "a1") (py "t2") true true].

(** Two different (user, session) pairs, and a memory holding one message
    of the second pair. *)
Definition colon_user : pystr := py "a:b".
Definition colon_session : pystr := py "c".
Definition plain_user : pystr := py "a".
Definition plain_session : pystr := py "b:c".

Definition shared_key_memory : Memory.ConversationMemory :=
  Memory.add_message (Memory.new 10 false) true true
    plain_user plain_session (py "user") (py "hi") (py "2024-01-01T00:00:00").

(** Ingesting the same pair twice into an empty collection whose index
    scores every stored point 1. *)
Definition ingest_env : Env := env_of 1%Q (py "unused").

Definition ingest_answer : pystr := py "The stipend is paid monthly.".

Definition ingested_point : Point :=
  mkPoint (py "3f2b8c1e") [1%Q] (Retriever.qa_payload question ingest_answer).

Definition after_first_ingest : Store :=
  snd (Retriever.ingest_qa_pair ingest_env (Retriever.mk 5) question ingest_answer None
         (store_of [])).

Definition user : pystr := py "user1".
Definition session : pystr := py "sessA".

(** A curated document that the index scores 0.25 for every query. *)
Definition curated_point : Point :=
  mkPoint (py "doc-1") [1%Q]
    (<[py "content" := py "Google offers software internships."]>
       (<[py "document_type" := py "Company Profile"]>
          (<[py "company" := py "Google"]>
             (<[py "source" := py "google.txt"]> ∅)))).

Definition low_env : Env := env_of (25 # 100)%Q (py "Stipends vary by company.").


(** The cached pair [cached_point], scored 0.97 for every query. *)
Definition cache_env : Env := env_of (97 # 100)%Q (py "unused").

Definition cached_doc : Doc :=
  Retriever.format_result (mkScored (pt_payload cached_point) (97 # 100)%Q).

Definition sanitised_answer : pystr := py "The stipend is paid monthly.".

(** The curated document scored 0.82: above the retrieval threshold,
    below the exact-match threshold. *)
Definition rag_env : Env := env_of (82 # 100)%Q (py "The stipend is competitive.").

Definition rag_docs : list Doc :=
  [Retriever.format_result (mkScored (pt_payload curated_point) (82 # 100)%Q)].

(** A cached pair whose stored answer carries no label. *)
Definition plain_cached_point : Point :=
  mkPoint (py "3f2b8c1e") [1%Q] (Retriever.qa_payload question sanitised_answer).

(** A model that answers with a routing label only. *)
Definition label_env : Env := env_of 1%Q (py "Intent: greeting").

Definition greeting : pystr := py "hello there".

(** A schedule in which the first poll times out and the second one
    returns the item. *)
Definition one_keepalive (i : nat) : SSE.Poll :=
  match i with
  | O => SSE.QueueTimeout
  | _ => SSE.QueueReady
  end.

Definition short_reply : SSE.WorkerResult := SSE.Success (Some (py "Hi there.")).

(** A schedule in which the worker has exited before the first poll. *)
Definition exited_at_once (i : nat) : SSE.Poll := SSE.WorkerExited.

(** The shape [start, chunk+, done]. *)
Definition is_start_chunks_done (evs : list SSE.Event) : bool :=
  match evs with
  | SSE.EvStart :: rest =>
      match rev rest with
      | SSE.EvDone :: (_ :: _) as middle => forallb SSE.is_chunk middle
      | _ => false
      end
  | _ => false
  end.

End Scenario.

(** ** Intent classification and routing rules ([routing/intent_router.py],
    [routing/route_rules.py]) *)

Module IntentRouter.

Definition COMPANY_INTERNSHIP : pystr := py "COMPANY_INTERNSHIP".
Definition EDUCATION_CODING : pystr := py "EDUCATION_CODING".
Definition INTERVIEW_PREPARATION : pystr := py "INTERVIEW_PREPARATION".
Definition GENERAL_EDUCATION : pystr := py "GENERAL_EDUCATION".

Definition internship_keywords : list pystr :=
  [py "internship"; py "intern"; py "company"; py "companies"; py "stipend";
   py "eligibility"; py "apply"; py "application"; py "deadline"; py "requirements";
   py "hiring"; py "recruitment"; py "job"; py "position"; py "opening";
   py "opportunity"].

Definition coding_keywords : list pystr :=
  [py "programming"; py "code"; py "coding"; py "algorithm"; py "data structure";
   py "dsa"; py "python"; py "java"; py "javascript"; py "c++"; py "function";
   py "class"; py "variable"; py "loop"; py "array"; py "list"; py "dictionary";
   py "recursion"; py "sorting"; py "searching"; py "tree"; py "graph"; py "stack";
   py "queue"; py "linked list"; py "hash"; py "dynamic programming"].

Definition interview_keywords : list pystr :=
  [py "interview"; py "hr"; py "placement"; py "behavioral"; py "technical round";
   py "resume"; py "cv"; py "cover letter"; py "preparation"; py "mock interview";
   py "interview question"; py "interview tip"; py "how to prepare"].

Definition education_keywords : list pystr :=
  [py "learn"; py "study"; py "course"; py "tutorial"; py "concept"; py "theory";
   py "explain"; py "what is"; py "how does"; py "definition"; py "understand";
   py "teach"; py "education"; py "knowledge"; py "subject"].

(** The loop of [_count_keyword_matches]; [lower] is the interpreter's
    [str.lower]. *)
Fixpoint count_loop (lower : pystr -> pystr) (text_lower : pystr)
    (keywords : list pystr) (count : Z) : Z :=
  match keywords with
  | [] => count
  | keyword :: rest =>
      if Py.contains (lower keyword) text_lower
      then count_loop lower text_lower rest (count + 1)
      else count_loop lower text_lower rest count
  end.

Definition _count_keyword_matches (lower : pystr -> pystr) (text : pystr)
    (keywords : list pystr) : Z :=
  let text_lower := lower text in
  count_loop lower text_lower keywords 0.

(** [max(scores, key=scores.get)] over the entries of a dict in insertion
    order: an entry replaces the best one so far only when its value is
    strictly greater. *)
Fixpoint max_entry (best : pystr * Z) (entries : list (pystr * Z)) : pystr * Z :=
  match entries with
  | [] => best
  | entry :: rest =>
      if snd best <? snd entry then max_entry entry rest else max_entry best rest
  end.

Definition classify_intent (lower : pystr -> pystr) (query : pystr) : pystr :=
  if negb (Py.truthy query) then GENERAL_EDUCATION
  else
    let internship_score := _count_keyword_matches lower query internship_keywords in
    let coding_score := _count_keyword_matches lower query coding_keywords in
    let interview_score := _count_keyword_matches lower query interview_keywords in
    let education_score := _count_keyword_matches lower query education_keywords in
    let intent :=
      max_entry (COMPANY_INTERNSHIP, internship_score)
        [(EDUCATION_CODING, coding_score);
         (INTERVIEW_PREPARATION, interview_score);
         (GENERAL_EDUCATION, education_score)] in
    if snd intent =? 0 then GENERAL_EDUCATION else fst intent.

End IntentRouter.

Module RouteRules.

Definition rag_intents : list pystr := [IntentRouter.COMPANY_INTERNSHIP].

Definition external_intents : list pystr :=
  [IntentRouter.EDUCATION_CODING; IntentRouter.INTERVIEW_PREPARATION;
   IntentRouter.GENERAL_EDUCATION].

Definition should_use_rag (intent : pystr) : bool :=
  bool_decide (intent ∈ rag_intents).

Definition should_use_external (intent : pystr) : bool :=
  bool_decide (intent ∈ external_intents).

Definition get_pipeline_for_intent (intent : pystr) : pystr :=
  if should_use_rag intent then py "RAG"
  else if should_use_external intent then py "EXTERNAL"
  else py "UNKNOWN".

End RouteRules.

(** ** Keyword extraction ([retrieval/query_processor.py]) *)

Module QueryProcessor.

(** The set literals, consulted by membership only. *)
Definition STOP_WORDS : list pystr :=
  [py "what"; py "how"; py "when"; py "where"; py "why"; py "who"; py "which"; py "whom";
   py "is"; py "are"; py "was"; py "were"; py "am"; py "be"; py "been"; py "being";
   py "do"; py "does"; py "did"; py "doing"; py "done";
   py "have"; py "has"; py "had"; py "having";
   py "a"; py "an"; py "the";
   py "and"; py "or"; py "but"; py "if"; py "then"; py "else";
   py "in"; py "on"; py "at"; py "to"; py "for"; py "with"; py "about"; py "from";
   py "of"; py "by";
   py "i"; py "you"; py "he"; py "she"; py "it"; py "we"; py "they";
   py "me"; py "him"; py "her"; py "us"; py "them";
   py "my"; py "your"; py "his"; py "her"; py "its"; py "our"; py "their";
   py "this"; py "that"; py "these"; py "those";
   py "can"; py "could"; py "will"; py "would"; py "should"; py "may"; py "might";
   py "must";
   py "tell"; py "please"; py "give"; py "show"; py "provide"; py "want"; py "need";
   py "like"].

Definition DOMAIN_KEYWORDS : list pystr :=
  [py "internship"; py "intern"; py "fellowship"; py "apprenticeship";
   py "salary"; py "stipend"; py "pay"; py "compensation"; py "wage"; py "benefits";
   py "perks";
   py "housing"; py "relocation"; py "travel"; py "insurance"; py "health";
   py "eligibility"; py "requirements"; py "criteria"; py "qualifications";
   py "application"; py "apply"; py "deadline"; py "process"; py "interview";
   py "python"; py "java"; py "javascript"; py "c++"; py "programming"; py "coding";
   py "software";
   py "engineer"; py "developer"; py "data"; py "analyst"; py "scientist"; py "designer";
   py "google"; py "microsoft"; py "amazon"; py "meta"; py "apple"; py "netflix";
   py "uber";
   py "learn"; py "study"; py "prepare"; py "practice"; py "tutorial"; py "course";
   py "project"; py "experience"; py "skills"; py "technical"; py "resume";
   py "portfolio"].

(** The loop of [extract_keywords] over the words. *)
Fixpoint keywords_loop (min_keyword_length : Z) (words : list pystr) : list pystr :=
  match words with
  | [] => []
  | word :: rest =>
      if Z.of_nat (length word) <? min_keyword_length
      then keywords_loop min_keyword_length rest
      else if bool_decide (word ∈ DOMAIN_KEYWORDS)
      then word :: keywords_loop min_keyword_length rest
      else if bool_decide (word ∈ STOP_WORDS)
      then keywords_loop min_keyword_length rest
      else word :: keywords_loop min_keyword_length rest
  end.

(** [lower] is the interpreter's [str.lower]. *)
Definition extract_keywords (lower : pystr -> pystr) (min_keyword_length : Z)
    (query : pystr) : list pystr :=
  if negb (Py.truthy query) then []
  else
    let words := Py.split_ws (lower query) in
    keywords_loop min_keyword_length words.

End QueryProcessor.

(** Further scenarios. *)
Module Cases.

(** An environment whose vector index raises on every search and accepts
    every write. *)
Definition check_fails_env : Env :=
  mkEnv (fun q => Ok (mkProcessed q q))
        (fun _ => Ok [1%Q])
        (fun _ _ _ _ => Raise)
        (fun _ _ => true)
        (fun _ => py "3f2b8c1e")
        (fun _ => Scenario.gemini_says (py "unused"))
        (fun _ => py "GENERAL_EDUCATION")
        (fun _ => py "2024-01-01T00:00:00")
        (fun _ => true)
        (py "You are an assistant.")
        (fun _ => false).

(** The cached pair [Scenario.plain_cached_point] as the index returns it,
    scored 0.97. *)
Definition plain_cached_doc : Doc :=
  Retriever.format_result
    (mkScored (pt_payload Scenario.plain_cached_point) (97 # 100)%Q).

(** [str.lower] on ASCII text. *)
Definition ascii_lower (s : pystr) : pystr :=
  map (fun c => if ((65 <=? c) && (c <=? 90))%N then (c + 32)%N else c) s.

(** An environment whose classifier is [IntentRouter.classify_intent]. *)
Definition router_env : Env :=
  mkEnv (fun q => Ok (mkProcessed q q))
        (fun _ => Ok [1%Q])
        (fun _ _ _ _ => Ok [])
        (fun _ _ => true)
        (fun _ => py "3f2b8c1e")
        (fun _ => Scenario.gemini_says (py "unused"))
        (IntentRouter.classify_intent ascii_lower)
        (fun _ => py "2024-01-01T00:00:00")
        (fun _ => true)
        (py "You are an assistant.")
        (fun _ => false).

(** The state [execute] starts from, for a first question. *)
Definition first_state (query : pystr) : ChatbotState :=
  mkState Scenario.user Scenario.session query [] [] None None [] false [] None None.

End Cases.

(** * Properties *)

(** ** Python strings and slices *)

Lemma slice_from_neg_length {A} (n : nat) (l : list A) :
  (0 < n)%nat ->
  Py.slice_from (- Z.of_nat n) l = drop (length l - n) l.
Proof.
  intros Hn. unfold Py.slice_from.
  destruct (Z.ltb_spec (- Z.of_nat n) 0) as [_ | Hge]; [| lia].
  f_equal. lia.
Qed.

Lemma truthy_true (s : list N) : Py.truthy s = true <-> s <> [].
Proof. destruct s; simpl; split; intros; congruence. Qed.

Lemma truthy_false (s : list N) : Py.truthy s = false <-> s = [].
Proof. destruct s; simpl; split; intros; congruence. Qed.

(** ** Conversation memory *)

Section MemoryFacts.

Import Memory.

Lemma save_state_max m ok k msgs : max_history (_save_state m ok k msgs) = max_history m.
Proof. unfold _save_state. destruct (redis_client m), ok; reflexivity. Qed.

Lemma add_message_max m g s u ss r c t :
  max_history (add_message m g s u ss r c t) = max_history m.
Proof. unfold add_message. apply save_state_max. Qed.

Lemma run_appends_max ops : forall m, max_history (run_appends m ops) = max_history m.
Proof.
  induction ops as [| a ops IH]; intros m; simpl; [reflexivity |].
  unfold run_appends in *. simpl. rewrite IH. apply add_message_max.
Qed.

Lemma trimmed_most_recent m (messages : list Message) :
  1 <= max_history m ->
  trimmed m messages = most_recent (Z.to_nat (2 * max_history m)) messages.
Proof.
  intros Hmax. unfold trimmed, most_recent.
  destruct (Z.gtb_spec (Z.of_nat (length messages)) (max_history m * 2)) as [Hgt | Hle].
  - replace (max_history m * 2) with (Z.of_nat (Z.to_nat (2 * max_history m))) by lia.
    apply slice_from_neg_length. lia.
  - replace (length messages - Z.to_nat (2 * max_history m))%nat with O by lia.
    reflexivity.
Qed.

Lemma most_recent_length {A} (n : nat) (l : list A) :
  (length (most_recent n l) <= n)%nat.
Proof. unfold most_recent. rewrite length_drop. lia. Qed.

Lemma within_limit_save m ok k msgs :
  within_limit m ->
  Z.of_nat (length msgs) <= 2 * max_history m ->
  within_limit (_save_state m ok k msgs).
Proof.
  intros Hm Hlen k' msgs'. rewrite save_state_max.
  unfold _save_state.
  destruct (redis_client m), ok; simpl; try apply Hm;
    (destruct (decide (k = k')) as [-> | Hne];
     [rewrite lookup_insert_eq; intros [= <-]; exact Hlen
     | rewrite lookup_insert_ne by exact Hne; apply Hm]).
Qed.

Lemma within_limit_add m g s u ss r c t :
  1 <= max_history m ->
  within_limit m ->
  within_limit (add_message m g s u ss r c t).
Proof.
  intros Hmax Hm. unfold add_message.
  apply within_limit_save; [exact Hm |].
  fold (trimmed m (_load_state m g (_get_redis_key u ss) ++ [mkMessage r c t])).
  rewrite trimmed_most_recent by exact Hmax.
  pose proof (most_recent_length (Z.to_nat (2 * max_history m))
                (_load_state m g (_get_redis_key u ss) ++ [mkMessage r c t])).
  lia.
Qed.

Lemma within_limit_run ops : forall m,
  1 <= max_history m -> within_limit m -> within_limit (run_appends m ops).
Proof.
  induction ops as [| a ops IH]; intros m Hmax Hm; [exact Hm |].
  change (run_appends m (a :: ops)) with (run_appends (apply_append m a) ops).
  apply IH.
  - unfold apply_append. rewrite add_message_max. exact Hmax.
  - apply within_limit_add; assumption.
Qed.

Lemma add_message_stored m g s u ss r c t :
  redis_client m = false \/ s = true ->
  storage (add_message m g s u ss r c t) !! _get_redis_key u ss
  = Some (trimmed m (_load_state m g (_get_redis_key u ss) ++ [mkMessage r c t])).
Proof.
  intros Hsaved. unfold add_message, _save_state, trimmed.
  destruct (redis_client m), s; simpl; try apply lookup_insert_eq;
    destruct Hsaved; discriminate.
Qed.

Lemma new_within_limit n connected : 0 <= n -> within_limit (new n connected).
Proof.
  intros Hn k msgs. unfold new. simpl. rewrite lookup_empty. discriminate.
Qed.

End MemoryFacts.

(** C4, as stated, fails when [max_history] is 0 (the value that, by the
    comment in [config/settings.py], disables the limit): one append to an
    empty memory stores one entry, more than [2 * 0]. *)
Lemma history_limit_zero_counterexample :
  Memory.max_history Scenario.zero_limit_memory = 0 /\
  Memory.storage Scenario.zero_limit_memory !! Scenario.zero_limit_key
  = Some [Scenario.zero_limit_message] /\
  ~ Memory.within_limit Scenario.zero_limit_memory.
Proof.
  split; [reflexivity |]. split; [reflexivity |].
  intros H.
  specialize (H Scenario.zero_limit_key [Scenario.zero_limit_message] eq_refl).
  simpl in H. lia.
Qed.

(** C4 (amended): with [max_history >= 1], starting from a memory within
    the limit, after any sequence of appends every stored history has at
    most [2 * max_history] entries; and every append that is saved stores
    exactly the [2 * max_history] most recent entries of the loaded history
    followed by the new message, the oldest ones being dropped. *)
Theorem history_bounded_fifo (m : Memory.ConversationMemory) (ops : list Memory.Append) :
  1 <= Memory.max_history m ->
  Memory.within_limit m ->
  Memory.within_limit (Memory.run_appends m ops) /\
  forall a : Memory.Append,
    let m' := Memory.run_appends m ops in
    let key := Memory._get_redis_key (Memory.a_user a) (Memory.a_session a) in
    Memory.redis_client m' = false \/ Memory.a_set_ok a = true ->
    Memory.storage (Memory.apply_append m' a) !! key
    = Some (Memory.most_recent (Z.to_nat (2 * Memory.max_history m))
              (Memory._load_state m' (Memory.a_get_ok a) key
               ++ [Memory.mkMessage (Memory.a_role a) (Memory.a_content a) (Memory.a_now a)])).
Proof.
  intros Hmax Hm. split; [apply within_limit_run; assumption |].
  intros a m' key Hsaved. subst key. unfold Memory.apply_append.
  rewrite add_message_stored by exact Hsaved.
  rewrite trimmed_most_recent by (unfold m'; rewrite run_appends_max; exact Hmax).
  unfold m'. rewrite run_appends_max. reflexivity.
Qed.

(** The bound and the eviction order on a memory keeping one exchange,
    after one exchange. *)
Lemma history_bounded_fifo_witness :
  1 <= Memory.max_history Scenario.one_turn_memory /\
  Memory.within_limit Scenario.one_turn_memory /\
  Memory.within_limit (Memory.run_appends Scenario.one_turn_memory Scenario.one_exchange) /\
  forall a : Memory.Append,
    Memory.redis_client (Memory.run_appends Scenario.one_turn_memory Scenario.one_exchange) = false
    \/ Memory.a_set_ok a = true ->
    Memory.storage
      (Memory.apply_append
         (Memory.run_appends Scenario.one_turn_memory Scenario.one_exchange) a)
      !! Memory._get_redis_key (Memory.a_user a) (Memory.a_session a)
    = Some (Memory.most_recent (Z.to_nat (2 * Memory.max_history Scenario.one_turn_memory))
              (Memory._load_state
                 (Memory.run_appends Scenario.one_turn_memory Scenario.one_exchange)
                 (Memory.a_get_ok a)
                 (Memory._get_redis_key (Memory.a_user a) (Memory.a_session a))
               ++ [Memory.mkMessage (Memory.a_role a) (Memory.a_content a) (Memory.a_now a)])).
Proof.
  assert (H1 : 1 <= Memory.max_history Scenario.one_turn_memory) by (simpl; lia).
  assert (H2 : Memory.within_limit Scenario.one_turn_memory)
    by (apply new_within_limit; lia).
  split; [exact H1 |]. split; [exact H2 |].
  exact (history_bounded_fifo Scenario.one_turn_memory Scenario.one_exchange H1 H2).
Defined.

(** With the limit disabled ([max_history = 0]) nothing is ever trimmed. *)
Lemma add_message_unlimited m g s u ss r c t :
  Memory.max_history m = 0 ->
  Memory.redis_client m = false \/ s = true ->
  Memory.storage (Memory.add_message m g s u ss r c t) !! Memory._get_redis_key u ss
  = Some (Memory._load_state m g (Memory._get_redis_key u ss) ++ [Memory.mkMessage r c t]).
Proof.
  intros H0 Hsaved. rewrite add_message_stored by exact Hsaved.
  unfold Memory.trimmed. rewrite H0. change (0 * 2) with 0.
  destruct (Z.of_nat (length
              (Memory._load_state m g (Memory._get_redis_key u ss) ++ [Memory.mkMessage r c t])) >? 0);
    reflexivity.
Qed.

(** With a negative limit the slice drops the oldest entries instead: the
    first message appended to an empty memory is not kept. *)
Lemma add_message_negative_limit :
  Memory.storage
    (Memory.add_message (Memory.new (-1) false) true true
       (py "user1") (py "sessA") (py "user") (py "hi") (py "2024-01-01T00:00:00"))
    !! Memory._get_redis_key (py "user1") (py "sessA")
  = Some [].
Proof. reflexivity. Qed.

(** *** Clearing a session *)

Lemma clear_then_history_empty m g u s :
  Memory.get_history (Memory.clear_session m true u s) g u s = [].
Proof.
  destruct m as [mx rc stg].
  unfold Memory.get_history, Memory._load_state, Memory.clear_session; simpl.
  destruct rc; simpl.
  - rewrite lookup_delete_eq. destruct g; reflexivity.
  - destruct (stg !! Memory._get_redis_key u s) eqn:Hk; simpl.
    + rewrite lookup_delete_eq. reflexivity.
    + rewrite Hk. reflexivity.
Qed.

Lemma clear_other_key_unchanged m d g u s u' s' :
  Memory._get_redis_key u s <> Memory._get_redis_key u' s' ->
  Memory.get_history (Memory.clear_session m d u s) g u' s' = Memory.get_history m g u' s'.
Proof.
  intros Hne. destruct m as [mx rc stg].
  unfold Memory.get_history, Memory._load_state, Memory.clear_session; simpl.
  destruct rc; simpl.
  - destruct d; simpl; [| reflexivity].
    rewrite lookup_delete_ne by exact Hne. reflexivity.
  - destruct (stg !! Memory._get_redis_key u s); simpl; [| reflexivity].
    rewrite lookup_delete_ne by exact Hne. reflexivity.
Qed.

(** Two sessions of one user have different keys. *)
Lemma redis_key_same_user u s s' :
  s <> s' -> Memory._get_redis_key u s <> Memory._get_redis_key u s'.
Proof.
  intros Hne Heq. apply Hne. unfold Memory._get_redis_key in Heq.
  repeat (apply app_inv_head in Heq). exact Heq.
Qed.

(** The key separates the pairs whose user ids contain no colon. *)
Lemma redis_key_injective_without_colon u s u' s' :
  ~ In 58%N u -> ~ In 58%N u' ->
  Memory._get_redis_key u s = Memory._get_redis_key u' s' ->
  u = u' /\ s = s'.
Proof.
  intros Hu Hu' Heq. unfold Memory._get_redis_key in Heq.
  apply app_inv_head in Heq. change (py ":") with [58%N] in Heq. simpl in Heq.
  revert u' Hu' Heq. induction u as [| a u IH]; intros [| b u'] Hu' Heq; simpl in *.
  - injection Heq as ->. split; reflexivity.
  - injection Heq as <- _. exfalso. apply Hu'. left. reflexivity.
  - injection Heq as -> _. exfalso. apply Hu. left. reflexivity.
  - injection Heq as -> Heq.
    destruct (IH (fun H => Hu (or_intror H)) u' (fun H => Hu' (or_intror H)) Heq) as [-> ->].
    split; reflexivity.
Qed.

Lemma clear_other_session_unchanged m d g u s s' :
  s <> s' ->
  Memory.get_history (Memory.clear_session m d u s) g u s' = Memory.get_history m g u s'.
Proof. intros Hne. apply clear_other_key_unchanged, redis_key_same_user, Hne. Qed.

(** C6: the composite key is not injective.  The pairs ("a:b", "c") and
    ("a", "b:c") are different and get the same key, so clearing the
    first erases the history of the second. *)
Lemma clear_session_key_collision :
  (Scenario.colon_user, Scenario.colon_session)
    <> (Scenario.plain_user, Scenario.plain_session) /\
  Memory._get_redis_key Scenario.colon_user Scenario.colon_session
    = Memory._get_redis_key Scenario.plain_user Scenario.plain_session /\
  Memory.get_history Scenario.shared_key_memory true
    Scenario.plain_user Scenario.plain_session
    = [Memory.mkTurn (py "user") (py "hi")] /\
  Memory.get_history
    (Memory.clear_session Scenario.shared_key_memory true
       Scenario.colon_user Scenario.colon_session)
    true Scenario.plain_user Scenario.plain_session
    = [].
Proof.
  split; [discriminate |]. split; [reflexivity |]. split; [reflexivity |].
  apply (clear_then_history_empty Scenario.shared_key_memory true
           Scenario.colon_user Scenario.colon_session).
Qed.

(** ** Score validator and thresholds *)

Ltac run_m := unfold bind, log, lift, ret, try_except, raise; simpl.

Lemma filter_by_threshold_filter self docs :
  ScoreThreshold.filter_by_threshold self docs
  = List.filter (fun doc => Qle_bool (ScoreThreshold.threshold self) (similarity_score doc)) docs.
Proof. destruct docs; reflexivity. Qed.

Lemma validate_retrieval_iff self docs :
  ScoreThreshold.validate_retrieval self docs = true <->
  exists d, In d docs /\ (ScoreThreshold.threshold self <= similarity_score d)%Q.
Proof.
  unfold ScoreThreshold.validate_retrieval. rewrite filter_by_threshold_filter.
  split.
  - intros H. apply Nat.ltb_lt in H.
    destruct (List.filter _ docs) as [| d rest] eqn:Hf; [simpl in H; lia |].
    assert (Hin : In d (List.filter
                          (fun doc => Qle_bool (ScoreThreshold.threshold self) (similarity_score doc))
                          docs)) by (rewrite Hf; left; reflexivity).
    apply List.filter_In in Hin. destruct Hin as [Hin Hle].
    exists d. split; [exact Hin | apply Qle_bool_iff; exact Hle].
  - intros [d [Hin Hle]]. apply Nat.ltb_lt.
    assert (Hf : In d (List.filter
                         (fun doc => Qle_bool (ScoreThreshold.threshold self) (similarity_score doc))
                         docs))
      by (apply List.filter_In; split; [exact Hin | apply Qle_bool_iff; exact Hle]).
    destruct (List.filter _ docs); [destruct Hf | simpl; lia].
Qed.


Lemma doc_type_is_generated_qa (doc : Doc) :
  default [] (metadata doc !! py "document_type") = Retriever.GENERATED_QA <->
  metadata doc !! py "document_type" = Some Retriever.GENERATED_QA.
Proof.
  destruct (metadata doc !! py "document_type") as [ty |]; simpl; split;
    intros H; try congruence; discriminate.
Qed.

Lemma exact_qa_test (doc : Doc) :
  bool_decide (default [] (metadata doc !! py "document_type") = Retriever.GENERATED_QA)
  && Qle_bool Settings.EXACT_MATCH_THRESHOLD (similarity_score doc) = true
  <-> exact_qa doc.
Proof.
  unfold exact_qa. rewrite andb_true_iff, bool_decide_eq_true, Qle_bool_iff.
  rewrite doc_type_is_generated_qa. reflexivity.
Qed.

(** The loop of [rag_answer_node] returns the stored answer of the first
    cached Q&A document at or above the exact-match threshold whose answer
    is not empty. *)
Lemma cached_answer_first docs a :
  GraphNodes.cached_answer docs = Some a <->
  exists before d after,
    docs = before ++ d :: after /\
    exact_qa d /\ stored_answer d = a /\ a <> [] /\
    Forall (fun d' => ~ (exact_qa d' /\ stored_answer d' <> [])) before.
Proof.
  induction docs as [| doc docs IH]; simpl.
  - split; [discriminate |].
    intros (before & d & after & Heq & _). destruct before; discriminate.
  - destruct (bool_decide _ && Qle_bool _ _) eqn:Htest.
    + apply exact_qa_test in Htest. fold (stored_answer doc).
      destruct (Py.truthy (stored_answer doc)) eqn:Hans.
      * apply truthy_true in Hans. split.
        -- intros [= <-]. exists [], doc, docs. split_and!; auto.
        -- intros (before & d & after & Heq & Hq & Ha & Hne & Hbefore).
           destruct before as [| b before]; simpl in Heq; injection Heq as -> ->.
           ++ congruence.
           ++ apply Forall_cons in Hbefore. destruct Hbefore as [Hb _].
              exfalso. apply Hb. split; assumption.
      * apply truthy_false in Hans. rewrite IH. split.
        -- intros (before & d & after & -> & Hq & Ha & Hne & Hbefore).
           exists (doc :: before), d, after. split_and!; auto.
           apply Forall_cons. split; [| exact Hbefore].
           intros [_ Hcontra]. apply Hcontra. exact Hans.
        -- intros (before & d & after & Heq & Hq & Ha & Hne & Hbefore).
           destruct before as [| b before]; simpl in Heq; injection Heq as -> ->.
           ++ congruence.
           ++ apply Forall_cons in Hbefore. destruct Hbefore as [_ Hbefore].
              exists before, d, after. split_and!; auto.
    + assert (Hnot : ~ exact_qa doc)
        by (intros Hq; apply exact_qa_test in Hq; congruence).
      rewrite IH. split.
      * intros (before & d & after & -> & Hq & Ha & Hne & Hbefore).
        exists (doc :: before), d, after. split_and!; auto.
        apply Forall_cons. split; [| exact Hbefore].
        intros [Hcontra _]. apply Hnot. exact Hcontra.
      * intros (before & d & after & Heq & Hq & Ha & Hne & Hbefore).
        destruct before as [| b before]; simpl in Heq; injection Heq as -> ->.
        -- contradiction.
        -- apply Forall_cons in Hbefore. destruct Hbefore as [_ Hbefore].
           exists before, d, after. split_and!; auto.
Qed.

(** The validator's own default, which no run of the pipeline uses:
    constructed without an argument, its threshold is 0.55. *)
Lemma score_validator_own_default :
  ScoreThreshold.threshold (ScoreThreshold.init None) = (55 # 100)%Q /\
  ~ (ScoreThreshold.threshold (ScoreThreshold.init None) == (50 # 100))%Q.
Proof. split; [reflexivity |]. simpl. unfold Qeq. simpl. lia. Qed.

(** The two tests on their own: the validator of the assembled pipeline
    is constructed with the configured threshold 0.50, and the
    exact-match threshold is 0.90; retrieval is valid exactly when some
    document scores at least 0.50, and the cache check returns an answer
    only from a cached Q&A document scoring at least 0.90. *)
Lemma threshold_tests (docs : list Doc) :
  ScoreThreshold.threshold (GraphNodes.score_threshold RAGChatbot.nodes) = (50 # 100)%Q /\
  Settings.EXACT_MATCH_THRESHOLD = (90 # 100)%Q /\
  (ScoreThreshold.validate_retrieval (GraphNodes.score_threshold RAGChatbot.nodes) docs = true
   <-> exists d, In d docs /\ ((50 # 100) <= similarity_score d)%Q) /\
  (forall a, GraphNodes.cached_answer docs = Some a ->
     exists d, In d docs /\
       metadata d !! py "document_type" = Some Retriever.GENERATED_QA /\
       ((90 # 100) <= similarity_score d)%Q /\
       stored_answer d = a).
Proof.
  split; [reflexivity |]. split; [reflexivity |]. split.
  - apply validate_retrieval_iff.
  - intros a Ha. apply cached_answer_first in Ha.
    destruct Ha as (before & d & after & -> & [Hty Hscore] & Hans & _).
    exists d. repeat split; auto.
    apply in_elt.
Qed.

(** ** Retriever and auto-ingestor *)

Lemma new_calls_app st cs :
  new_calls st (mkStore (collection st) (memory st) (calls st ++ cs) (redis_ops st)) = cs.
Proof. unfold new_calls. simpl. apply drop_app_length. Qed.

(** C7: [retrieve] always returns a list and never raises; the list is
    empty for an empty query and whenever preprocessing, the embedding or
    the vector-index call fails.  It never changes the collection. *)
Theorem retrieve_fails_closed (env : Env) (self : Retriever.t) (query : list N)
    (top_k : option Z) (filter_by : option (list (list N * list N))) (st : Store) :
  (exists docs st',
      Retriever.retrieve env self query top_k filter_by st = (Ok docs, st') /\
      collection st' = collection st /\ memory st' = memory st) /\
  (query = [] -> Retriever.retrieve env self query top_k filter_by st = (Ok [], st)) /\
  (process_query env query = Raise ->
     fst (Retriever.retrieve env self query top_k filter_by st) = Ok []) /\
  (forall p, process_query env query = Ok p ->
     generate_embedding env
       (if Py.truthy (keyword_query p) then keyword_query p else normalized p) = Raise ->
     fst (Retriever.retrieve env self query top_k filter_by st) = Ok []) /\
  (forall p v, process_query env query = Ok p ->
     generate_embedding env
       (if Py.truthy (keyword_query p) then keyword_query p else normalized p) = Ok v ->
     query_points env (collection st) v (default (Retriever.top_k self) top_k)
       match filter_by with
       | Some (_ :: _ as conditions) => Some conditions
       | _ => None
       end = Raise ->
     fst (Retriever.retrieve env self query top_k filter_by st) = Ok []).
Proof.
  unfold Retriever.retrieve, Retriever.preprocess, Retriever.embed, Retriever.search.
  destruct query as [| c query]; simpl.
  { split_and!; try reflexivity; eauto. }
  run_m.
  destruct (process_query env (c :: query)) as [p |] eqn:Hp; simpl.
  2: { split_and!; try reflexivity; try discriminate; eauto. }
  destruct (generate_embedding env _) as [v |] eqn:Hv; simpl.
  2: { split_and!; try reflexivity; try discriminate; eauto. }
  destruct (query_points env _ _ _ _) as [hits |] eqn:Hs; simpl.
  2: { split_and!; try reflexivity; try discriminate; eauto. }
  split_and!; try discriminate; eauto.
  - intros p' Hp' Hv'. simplify_eq. congruence.
  - intros p' v' Hp' Hv' Hs'. simplify_eq. congruence.
Qed.

(** C10: with an empty question or an empty answer, [ingest_qa_pair]
    returns [False] at once: no embedding, no duplicate-check search and
    no write are made, and the collection is unchanged. *)
Theorem ingest_empty_rejected (env : Env) (self : Retriever.t) (question answer : list N)
    (similarity_threshold : option Q) (st : Store) :
  question = [] \/ answer = [] ->
  exists st',
    Retriever.ingest_qa_pair env self question answer similarity_threshold st = (Ok false, st') /\
    collection st' = collection st /\
    new_calls st st' = [EnterIngest question answer] /\
    searches (new_calls st st') = 0%nat /\
    writes (new_calls st st') = 0%nat.
Proof.
  intros Hempty.
  exists (mkStore (collection st) (memory st) (calls st ++ [EnterIngest question answer])
            (redis_ops st)).
  assert (Htest : negb (Py.truthy question) || negb (Py.truthy answer) = true).
  { destruct Hempty as [-> | ->]; simpl; [reflexivity | apply orb_true_r]. }
  unfold Retriever.ingest_qa_pair. run_m. rewrite Htest.
  rewrite new_calls_app. split_and!; reflexivity.
Qed.

(** An empty question with a non-empty answer. *)
Lemma ingest_empty_rejected_witness :
(([] : list N) = [] \/ Scenario.ingest_answer = []) /\
  exists st',
    Retriever.ingest_qa_pair Scenario.ingest_env (Retriever.mk 5) [] Scenario.ingest_answer None
      (Scenario.store_of []) = (Ok false, st') /\
    collection st' = collection (Scenario.store_of []) /\
    new_calls (Scenario.store_of []) st' = [EnterIngest [] Scenario.ingest_answer] /\
    searches (new_calls (Scenario.store_of []) st') = 0%nat /\
    writes (new_calls (Scenario.store_of []) st') = 0%nat.
Proof.
  assert (H : ([] : list N) = [] \/ Scenario.ingest_answer = []) by (left; reflexivity).
  split; [exact H |].
  exact (ingest_empty_rejected Scenario.ingest_env (Retriever.mk 5) [] Scenario.ingest_answer
           None (Scenario.store_of []) H).
Defined.

Lemma duplicate_found_true thr results hit :
  In hit results -> (thr <= sp_score hit)%Q ->
  Retriever.duplicate_found thr results = true.
Proof.
  induction results as [| r results IH]; intros Hin Hle; [destruct Hin |].
  simpl. destruct (Qle_bool thr (sp_score r)) eqn:Hr; [reflexivity |].
  destruct Hin as [-> | Hin]; [| apply IH; assumption].
  apply Qle_bool_iff in Hle. congruence.
Qed.

Lemma new_calls_app3 st c1 c2 c3 col mem ops :
  new_calls st (mkStore col mem (((calls st ++ [c1]) ++ [c2]) ++ [c3]) ops) = [c1; c2; c3].
Proof.
  unfold new_calls. simpl. rewrite <- !app_assoc. simpl. apply drop_app_length.
Qed.

(** A call that reaches the duplicate check and finds a hit at or above
    the threshold returns [True] and writes nothing. *)
Lemma ingest_duplicate_skipped env self q a thr st v results hit :
  q <> [] -> a <> [] ->
  generate_embedding env q = Ok v ->
  query_points env (collection st) v 5 (Some Retriever.qa_filter) = Ok results ->
  In hit results ->
  (default Retriever.DEDUP_THRESHOLD thr <= sp_score hit)%Q ->
  exists st',
    Retriever.ingest_qa_pair env self q a thr st = (Ok true, st') /\
    collection st' = collection st /\
    new_calls st st'
    = [EnterIngest q a; CallEmbed q; CallSearch v 5 (Some Retriever.qa_filter)].
Proof.
  intros Hq Ha Hv Hs Hin Hle.
  apply truthy_true in Hq. apply truthy_true in Ha.
  unfold Retriever.ingest_qa_pair, Retriever.embed, Retriever.search. run_m.
  rewrite Hq, Ha. simpl. run_m. rewrite Hv. simpl. rewrite Hs. simpl.
  rewrite (duplicate_found_true _ _ _ Hin Hle). simpl.
  eexists. split; [reflexivity |]. split; [reflexivity |].
  apply new_calls_app3.
Qed.

(** C3: after a first call that stored the entry [p] for the pair, a
    second call with the same pair whose duplicate check finds [p] with a
    score of at least 0.95 returns [True] and performs no write: the
    collection still holds exactly the one entry added by the first call. *)
Theorem ingest_twice_single_entry (env : Env) (self : Retriever.t) (q a : list N)
    (st st1 : Store) (p : Point) (v : list Q) (results : list ScoredPoint)
    (hit : ScoredPoint) :
  q <> [] -> a <> [] ->
  Retriever.ingest_qa_pair env self q a None st = (Ok true, st1) ->
  collection st1 = Retriever.upsert_point p (collection st) ->
  pt_payload p = Retriever.qa_payload q a ->
  generate_embedding env q = Ok v ->
  query_points env (collection st1) v 5 (Some Retriever.qa_filter) = Ok results ->
  In hit results ->
  sp_payload hit = pt_payload p ->
  ((95 # 100) <= sp_score hit)%Q ->
  exists st2,
    Retriever.ingest_qa_pair env self q a None st1 = (Ok true, st2) /\
    collection st2 = Retriever.upsert_point p (collection st) /\
    new_calls st1 st2
    = [EnterIngest q a; CallEmbed q; CallSearch v 5 (Some Retriever.qa_filter)] /\
    writes (new_calls st1 st2) = 0%nat.
Proof.
  intros Hq Ha _ Hstored _ Hv Hs Hin _ Hle.
  destruct (ingest_duplicate_skipped env self q a None st1 v results hit
              Hq Ha Hv Hs Hin Hle) as (st2 & Hrun & Hcol & Hcalls).
  exists st2. split; [exact Hrun |]. split; [congruence |].
  split; [exact Hcalls |]. rewrite Hcalls. reflexivity.
Qed.

(** The same pair ingested twice into an empty collection. *)
Lemma ingest_twice_single_entry_witness :
  Scenario.question <> [] /\
  Scenario.ingest_answer <> [] /\
  Retriever.ingest_qa_pair Scenario.ingest_env (Retriever.mk 5)
    Scenario.question Scenario.ingest_answer None (Scenario.store_of [])
  = (Ok true, Scenario.after_first_ingest) /\
  collection Scenario.after_first_ingest
  = Retriever.upsert_point Scenario.ingested_point (collection (Scenario.store_of [])) /\
  pt_payload Scenario.ingested_point
  = Retriever.qa_payload Scenario.question Scenario.ingest_answer /\
  generate_embedding Scenario.ingest_env Scenario.question = Ok [1%Q] /\
  query_points Scenario.ingest_env (collection Scenario.after_first_ingest) [1%Q] 5
    (Some Retriever.qa_filter)
  = Ok [mkScored (pt_payload Scenario.ingested_point) 1%Q] /\
  In (mkScored (pt_payload Scenario.ingested_point) 1%Q)
     [mkScored (pt_payload Scenario.ingested_point) 1%Q] /\
  sp_payload (mkScored (pt_payload Scenario.ingested_point) 1%Q)
  = pt_payload Scenario.ingested_point /\
  ((95 # 100) <= sp_score (mkScored (pt_payload Scenario.ingested_point) 1%Q))%Q /\
  exists st2,
    Retriever.ingest_qa_pair Scenario.ingest_env (Retriever.mk 5)
      Scenario.question Scenario.ingest_answer None Scenario.after_first_ingest
    = (Ok true, st2) /\
    collection st2
    = Retriever.upsert_point Scenario.ingested_point (collection (Scenario.store_of [])) /\
    new_calls Scenario.after_first_ingest st2
    = [EnterIngest Scenario.question Scenario.ingest_answer;
       CallEmbed Scenario.question;
       CallSearch [1%Q] 5 (Some Retriever.qa_filter)] /\
    writes (new_calls Scenario.after_first_ingest st2) = 0%nat.
Proof.
  assert (H1 : Scenario.question <> []) by discriminate.
  assert (H2 : Scenario.ingest_answer <> []) by discriminate.
  assert (H3 : Retriever.ingest_qa_pair Scenario.ingest_env (Retriever.mk 5)
                 Scenario.question Scenario.ingest_answer None (Scenario.store_of [])
               = (Ok true, Scenario.after_first_ingest)) by (vm_compute; reflexivity).
  assert (H4 : collection Scenario.after_first_ingest
               = Retriever.upsert_point Scenario.ingested_point
                   (collection (Scenario.store_of []))) by (vm_compute; reflexivity).
  assert (H5 : pt_payload Scenario.ingested_point
               = Retriever.qa_payload Scenario.question Scenario.ingest_answer)
    by reflexivity.
  assert (H6 : generate_embedding Scenario.ingest_env Scenario.question = Ok [1%Q])
    by reflexivity.
  assert (H7 : query_points Scenario.ingest_env (collection Scenario.after_first_ingest)
                 [1%Q] 5 (Some Retriever.qa_filter)
               = Ok [mkScored (pt_payload Scenario.ingested_point) 1%Q])
    by (vm_compute; reflexivity).
  assert (H8 : In (mkScored (pt_payload Scenario.ingested_point) 1%Q)
                  [mkScored (pt_payload Scenario.ingested_point) 1%Q])
    by (left; reflexivity).
  assert (H9 : sp_payload (mkScored (pt_payload Scenario.ingested_point) 1%Q)
               = pt_payload Scenario.ingested_point) by reflexivity.
  assert (H10 : ((95 # 100) <= sp_score (mkScored (pt_payload Scenario.ingested_point) 1%Q))%Q)
    by (unfold Qle; simpl; lia).
  split_and!; try assumption.
  exact (ingest_twice_single_entry Scenario.ingest_env (Retriever.mk 5)
           Scenario.question Scenario.ingest_answer (Scenario.store_of [])
           Scenario.after_first_ingest Scenario.ingested_point [1%Q]
           [mkScored (pt_payload Scenario.ingested_point) 1%Q]
           (mkScored (pt_payload Scenario.ingested_point) 1%Q)
           H1 H2 H3 H4 H5 H6 H7 H8 H9 H10).
Defined.

(** ** The pipeline *)

Section Pipeline.

Context (env : Env).

Lemma add_calls_add st cs1 cs2 :
  add_calls (add_calls st cs1) cs2 = add_calls st (cs1 ++ cs2).
Proof. unfold add_calls. simpl. rewrite <- app_assoc. reflexivity. Qed.

Lemma add_calls_nil st : add_calls st [] = st.
Proof. unfold add_calls. rewrite app_nil_r. destruct st; reflexivity. Qed.

Lemma log_add_calls c st : log c st = (Ok tt, add_calls st [c]).
Proof. reflexivity. Qed.

Lemma new_calls_add st col mem ops cs :
  new_calls st (mkStore col mem (calls st ++ cs) ops) = cs.
Proof. unfold new_calls. simpl. apply drop_app_length. Qed.

Lemma generated_prompts_app cs1 cs2 :
  generated_prompts (cs1 ++ cs2) = generated_prompts cs1 ++ generated_prompts cs2.
Proof. apply omap_app. Qed.

Lemma ingest_invocations_app cs1 cs2 :
  ingest_invocations (cs1 ++ cs2) = ingest_invocations cs1 ++ ingest_invocations cs2.
Proof. apply omap_app. Qed.

(** The documents [retrieve] returns and the calls it makes depend on the
    collection only; it calls neither the generative model nor the
    ingestor. *)
Lemma retrieve_frame self q k f st st' :
  collection st' = collection st ->
  exists docs cs,
    Retriever.retrieve env self q k f st = (Ok docs, add_calls st cs) /\
    Retriever.retrieve env self q k f st' = (Ok docs, add_calls st' cs) /\
    generated_prompts cs = [] /\ ingest_invocations cs = [].
Proof.
  intros Hcol.
  destruct st as [col mem cs0 ops], st' as [col' mem' cs0' ops'].
  simpl in Hcol. subst col'.
  unfold Retriever.retrieve, Retriever.preprocess, Retriever.embed, Retriever.search.
  destruct q as [| c q]; simpl.
  { exists [], []. rewrite !add_calls_nil. split_and!; reflexivity. }
  run_m.
  destruct (process_query env (c :: q)) as [p |]; simpl.
  2: { exists [], [CallPreprocess (c :: q)]. split_and!; reflexivity. }
  destruct (generate_embedding env _) as [v |]; simpl.
  2: { eexists [], [_; _]. unfold add_calls. rewrite <- !app_assoc.
       split_and!; reflexivity. }
  destruct (query_points env _ _ _ _) as [hits |]; simpl.
  - eexists _, [_; _; _]. unfold add_calls. rewrite <- !app_assoc.
    split_and!; reflexivity.
  - eexists [], [_; _; _]. unfold add_calls. rewrite <- !app_assoc.
    split_and!; reflexivity.
Qed.

(** [ingest_qa_pair] never raises, leaves the memory alone and calls
    neither the generative model nor itself. *)
Lemma ingest_frame self q a thr st :
  exists b col cs,
    Retriever.ingest_qa_pair env self q a thr st
    = (Ok b, mkStore col (memory st) (calls st ++ EnterIngest q a :: cs) (redis_ops st)) /\
    generated_prompts cs = [] /\ ingest_invocations cs = [].
Proof.
  unfold Retriever.ingest_qa_pair, Retriever.embed, Retriever.search, Retriever.upsert.
  run_m.
  destruct (negb (Py.truthy q) || negb (Py.truthy a)); simpl.
  { exists false, (collection st), []. split_and!; reflexivity. }
  run_m.
  destruct (generate_embedding env q) as [v |]; simpl.
  2: { eexists false, _, [_]. rewrite <- !app_assoc. split_and!; reflexivity. }
  destruct (query_points env _ _ _ _) as [hits |]; simpl.
  - destruct (Retriever.duplicate_found _ hits); simpl.
    + eexists true, _, [_; _]. rewrite <- !app_assoc. split_and!; reflexivity.
    + destruct (upsert_ok env _ _); simpl.
      * eexists true, _, [_; _; _]. rewrite <- !app_assoc. split_and!; reflexivity.
      * eexists false, _, [_; _; _]. rewrite <- !app_assoc. split_and!; reflexivity.
  - destruct (upsert_ok env _ _); simpl.
    + eexists true, _, [_; _; _]. rewrite <- !app_assoc. split_and!; reflexivity.
    + eexists false, _, [_; _; _]. rewrite <- !app_assoc. split_and!; reflexivity.
Qed.

(** The external branch: one generative call on the prompt built from the
    question and the history only, then one invocation of the ingestor
    with the question and the generated answer; the answer is the
    generated text whatever the ingestor does. *)
Lemma external_knowledge_run nodes state st :
  let prompt := GeminiLLM.response_prompt env (query state) (formatted_history state) in
  let resp := GeminiLLM.response_text (http_post env prompt) in
  exists col cs,
    GraphNodes.external_knowledge_node env nodes state st
    = (Ok (set_answer state resp),
       mkStore col (memory st)
         (calls st ++ CallGenerate prompt :: EnterIngest (query state) resp :: cs)
         (redis_ops st)) /\
    generated_prompts cs = [] /\ ingest_invocations cs = [].
Proof.
  intros prompt resp.
  unfold GraphNodes.external_knowledge_node, GeminiLLM.generate_response, GeminiLLM._call_api.
  run_m. fold prompt. fold resp.
  destruct (ingest_frame (GraphNodes.retriever nodes) (query state) resp None
              (mkStore (collection st) (memory st) (calls st ++ [CallGenerate prompt])
                 (redis_ops st)))
    as (b & col & cs & Hrun & Hp & Hi).
  simpl in Hrun. rewrite Hrun. simpl.
  exists col, cs. rewrite <- app_assoc. split_and!; auto.
Qed.

Lemma memory_node_run state st :
  exists mem ops,
    GraphNodes.memory_node env state st
    = (Ok state, mkStore (collection st) mem (calls st) ops).
Proof.
  unfold GraphNodes.memory_node, GraphNodes.add_message.
  destruct (Py.truthy (query state) && Py.truthy (default [] (answer state))).
  - run_m. eauto.
  - exists (memory st), (redis_ops st). unfold ret. destruct st; reflexivity.
Qed.

Lemma accepted_query q u s st :
  accepted q u s ->
  RAGChatbot.query env q u s st = ChatbotGraph.execute env RAGChatbot.nodes q u s st.
Proof.
  intros (Hq & Hu & Hs). unfold RAGChatbot.query.
  assert (Hq' : q <> []) by (intros ->; apply Hq; reflexivity).
  apply truthy_true in Hq, Hq', Hu, Hs. rewrite Hq, Hq', Hu, Hs. reflexivity.
Qed.

End Pipeline.



Lemma retrieve_unaffected_by_upsert env self q k f st :
  Retriever.retrieve (failing_upsert env) self q k f st = Retriever.retrieve env self q k f st.
Proof. reflexivity. Qed.







(** A document scored 0.82 is used as context of one generative call;
    nothing is ingested. *)
Lemma rag_path_scenario :
  exists st',
    RAGChatbot.query Scenario.rag_env Scenario.question Scenario.user Scenario.session
      (Scenario.store_of [Scenario.curated_point])
    = (Ok (Some (py "The stipend is competitive.")), st') /\
    generated_prompts (new_calls (Scenario.store_of [Scenario.curated_point]) st')
    = [GeminiLLM.rag_prompt Scenario.rag_env
         (Retriever.format_retrieved_context Scenario.rag_docs) Scenario.question []] /\
    ingest_invocations (new_calls (Scenario.store_of [Scenario.curated_point]) st') = [].
Proof. eexists. split_and!; vm_compute; reflexivity. Qed.

(** A cached answer without labels comes back as it was stored. *)
Lemma plain_cached_answer_scenario :
  exists st',
    RAGChatbot.query Scenario.cache_env Scenario.question Scenario.user Scenario.session
      (Scenario.store_of [Scenario.plain_cached_point])
    = (Ok (Some Scenario.sanitised_answer), st') /\
    generated_prompts (new_calls (Scenario.store_of [Scenario.plain_cached_point]) st') = [].
Proof. eexists. split_and!; vm_compute; reflexivity. Qed.

(** ** The generative call never fails the query *)

(** Every outcome of the exchange yields a non-empty text. *)
Lemma response_text_nonempty (r : ApiResult) : GeminiLLM.response_text r <> [].
Proof.
  assert (Hmsg : forall m : list N, Py.truthy m = true -> m <> [])
    by (intros m Hm; apply truthy_true; exact Hm).
  destruct r as [| | | | status result]; try (apply Hmsg; reflexivity).
  unfold GeminiLLM.response_text.
  destruct (negb (status =? 200)); [apply Hmsg; reflexivity |].
  destruct result as [| [[| candidate rest] |]]; try (apply Hmsg; reflexivity).
  destruct (cand_content candidate) as [content |]; [| apply Hmsg; reflexivity].
  destruct (parts content) as [[| part rest'] |].
  - apply Hmsg; reflexivity.
  - cbv zeta. destruct (Py.truthy (Py.strip (default [] (text part)))) eqn:Ht; simpl.
    + apply Hmsg. exact Ht.
    + apply Hmsg; reflexivity.
  - cbv zeta. repeat case_decide; apply Hmsg; reflexivity.
Qed.

(** The texts returned for a timeout, an HTTP error, missing candidates, a
    safety block and an empty text are pairwise different. *)
Lemma apology_texts_distinct :
  NoDup [GeminiLLM.MSG_TIMEOUT; GeminiLLM.MSG_HTTP_ERROR; GeminiLLM.MSG_NO_CANDIDATES;
         GeminiLLM.MSG_SAFETY; GeminiLLM.MSG_EMPTY_TEXT].
Proof.
  repeat (apply NoDup_cons; split;
          [rewrite ?list_elem_of_In; simpl; intuition discriminate |]).
  apply NoDup_nil. exact I.
Qed.

Lemma failure_modes_mapped (status : Z) (c : Candidate) (content : Content) (p : Part) :
  GeminiLLM.response_text ApiTimeout = GeminiLLM.MSG_TIMEOUT /\
  (status <> 200 ->
   GeminiLLM.response_text (ApiResponse status BodyFalsy) = GeminiLLM.MSG_HTTP_ERROR) /\
  GeminiLLM.response_text (ApiResponse 200 (BodyObject None)) = GeminiLLM.MSG_NO_CANDIDATES /\
  GeminiLLM.response_text
    (ApiResponse 200
       (BodyObject (Some [mkCandidate (Some (mkContent None)) (Some (py "SAFETY"))])))
  = GeminiLLM.MSG_SAFETY /\
  GeminiLLM.response_text
    (ApiResponse 200
       (BodyObject (Some [mkCandidate (Some (mkContent (Some [mkPart (Some [])]))) None])))
  = GeminiLLM.MSG_EMPTY_TEXT.
Proof.
  split_and!; try reflexivity.
  intros Hs. simpl. destruct (Z.eqb_spec status 200); [contradiction | reflexivity].
Qed.

(** The sanitation leaves each of these texts as it is. *)
Lemma apology_texts_survive (env : Env) :
  Forall (fun t => Clean._clean_response env (Some t) = Some t)
    [GeminiLLM.MSG_TIMEOUT; GeminiLLM.MSG_HTTP_ERROR; GeminiLLM.MSG_NO_CANDIDATES;
     GeminiLLM.MSG_SAFETY; GeminiLLM.MSG_EMPTY_TEXT; GeminiLLM.MSG_BLANK;
     GeminiLLM.MSG_NO_CONTENT; GeminiLLM.MSG_MAX_TOKENS; GeminiLLM.MSG_NO_PARTS;
     GeminiLLM.MSG_EMPTY_PARTS; GeminiLLM.MSG_NETWORK; GeminiLLM.MSG_KEY_ERROR;
     GeminiLLM.MSG_UNEXPECTED].
Proof. repeat (apply Forall_cons; split; [vm_compute; reflexivity |]). apply Forall_nil. exact I. Qed.

Arguments Clean._clean_response : simpl never.

Lemma clean_response_some (env : Env) (r : list N) :
  exists t, Clean._clean_response env (Some r) = Some t.
Proof. destruct r; unfold Clean._clean_response; eauto. Qed.

(** A query never raises: it always returns some text. *)
Lemma query_returns (env : Env) (q u s : list N) (st : Store) :
  exists text st', RAGChatbot.query env q u s st = (Ok (Some text), st').
Proof.
  unfold RAGChatbot.query.
  destruct (negb (Py.truthy q) || negb (Py.truthy (Py.strip q))); [run_m; eauto |].
  destruct (negb (Py.truthy u) || negb (Py.truthy s)); [run_m; eauto |].
  unfold ChatbotGraph.execute, ChatbotGraph.get_history, ChatbotGraph.get_formatted_history.
  run_m.
  unfold ChatbotGraph.invoke, GraphNodes.route_node, GraphNodes.retrieve_node. run_m.
  match goal with
  | |- context [Retriever.retrieve env ?r q None None ?st0] =>
      destruct (retrieve_frame env r q None None st0 st0 eq_refl)
        as (docs & cs & Hrun & _)
  end.
  rewrite Hrun. simpl.
  unfold GraphNodes.validate_node.
  match goal with
  | |- context [ScoreThreshold.validate_retrieval ?t ?ds] =>
      destruct (ScoreThreshold.validate_retrieval t ds) eqn:Hvalid
  end; run_m; unfold GraphNodes.rag_answer_node; simpl.
  - destruct (GraphNodes.cached_answer _) as [cached |] eqn:Hc.
    + run_m.
      match goal with
      | |- context [GraphNodes.memory_node env ?state ?st0] =>
          destruct (memory_node_run env state st0) as (mem & ops & Hmem)
      end.
      rewrite Hmem. simpl.
      destruct (clean_response_some env cached) as [text ->]. eauto.
    + unfold GeminiLLM.generate_rag_answer, GeminiLLM._call_api. run_m.
      match goal with
      | |- context [GraphNodes.memory_node env ?state ?st0] =>
          destruct (memory_node_run env state st0) as (mem & ops & Hmem)
      end.
      rewrite Hmem. simpl.
      match goal with
      | |- context [Clean._clean_response env (Some ?r)] =>
          destruct (clean_response_some env r) as [text ->]
      end.
      eauto.
  - match goal with
    | |- context [GraphNodes.external_knowledge_node env ?n ?state ?st0] =>
        destruct (external_knowledge_run env n state st0) as (col & cs2 & Hext & _)
    end.
    simpl in Hext. rewrite Hext. simpl.
    match goal with
    | |- context [GraphNodes.memory_node env ?state ?st0] =>
        destruct (memory_node_run env state st0) as (mem & ops & Hmem)
    end.
    rewrite Hmem. simpl.
    match goal with
    | |- context [Clean._clean_response env (Some ?r)] =>
        destruct (clean_response_some env r) as [text ->]
    end.
    eauto.
Qed.

(** C8: the final sanitation can return the empty string.  The model
    replies with the single line "Intent: greeting" to an accepted query;
    the generated text is not empty, the answer returned to the user is. *)
Lemma sanitation_empties_answer :
  accepted Scenario.greeting Scenario.user Scenario.session /\
  GeminiLLM.response_text (Scenario.gemini_says (py "Intent: greeting"))
  = py "Intent: greeting" /\
  fst (RAGChatbot.query Scenario.label_env Scenario.greeting Scenario.user Scenario.session
         (Scenario.store_of []))
  = Ok (Some []).
Proof.
  split; [unfold accepted; split_and!; discriminate |].
  split; vm_compute; reflexivity.
Qed.

(** ** Chunking *)

Lemma blank_app s1 s2 : Py.blank (s1 ++ s2) = Py.blank s1 && Py.blank s2.
Proof. apply forallb_app. Qed.

Lemma blank_rev s : Py.blank (rev s) = Py.blank s.
Proof.
  induction s as [| c s IH]; [reflexivity |].
  simpl. rewrite blank_app, IH. simpl. rewrite andb_true_r. apply andb_comm.
Qed.

Lemma blank_false_iff s : Py.blank s = false <-> exists c, In c s /\ Py.isspace c = false.
Proof.
  induction s as [| c s IH]; simpl.
  - split; [discriminate | intros (c & [] & _)].
  - rewrite andb_false_iff, IH. split.
    + intros [Hc | (c' & Hin & Hc')]; eauto.
    + intros (c' & [<- | Hin] & Hc'); eauto.
Qed.

Lemma lstrip_not_blank s : Py.blank s = false -> Py.lstrip s <> [].
Proof.
  induction s as [| c s IH]; simpl; [discriminate |].
  destruct (Py.isspace c); simpl; [exact IH | discriminate].
Qed.

Lemma lstrip_blank_eq s : Py.blank (Py.lstrip s) = Py.blank s.
Proof.
  induction s as [| c s IH]; [reflexivity |].
  simpl. destruct (Py.isspace c) eqn:Hc; simpl; [exact IH | rewrite Hc; reflexivity].
Qed.

Lemma strip_blank_eq s : Py.blank (Py.strip s) = Py.blank s.
Proof.
  unfold Py.strip, Py.rstrip.
  rewrite blank_rev, lstrip_blank_eq, blank_rev, lstrip_blank_eq. reflexivity.
Qed.

Lemma strip_not_blank s : Py.blank s = false -> Py.strip s <> [].
Proof.
  intros Hs Hnil. rewrite <- strip_blank_eq, Hnil in Hs. discriminate.
Qed.

Lemma strip_nonempty_not_blank s : Py.strip s <> [] -> Py.blank s = false.
Proof.
  intros Hne. destruct (Py.blank s) eqn:Hb; [| reflexivity].
  exfalso. apply Hne. rewrite <- strip_blank_eq in Hb.
  unfold Py.strip, Py.rstrip in *.
  rewrite blank_rev in Hb.
  destruct (Py.lstrip (rev (Py.lstrip s))) as [| c t] eqn:Hl; [reflexivity |].
  assert (Hc : Py.isspace c = false).
  { clear -Hl. remember (rev (Py.lstrip s)) as x eqn:Hx. clear Hx.
    induction x as [| a x IH]; simpl in Hl; [discriminate |].
    destruct (Py.isspace a) eqn:Ha; [exact (IH Hl) | congruence]. }
  simpl in Hb. rewrite Hc in Hb. discriminate.
Qed.

(** The loop of [chunk_text] yields a chunk as soon as the chunk under
    construction or one of the remaining sentences is not Py.blank. *)
Lemma chunk_loop_nonempty n : forall sentences cur,
  Py.blank cur = false \/ (exists s, In s sentences /\ Py.blank s = false) ->
  SSE.chunk_loop n cur sentences <> [].
Proof.
  induction sentences as [| s rest IH]; intros cur Hsome; simpl.
  - destruct Hsome as [Hcur | (s & [] & _)].
    pose proof (strip_not_blank cur Hcur) as Hne.
    apply truthy_true in Hne. rewrite Hne. discriminate.
  - destruct (Py.truthy (Py.strip s)) eqn:Hs; simpl.
    + destruct (Py.truthy cur && (n <? length cur + length (Py.strip s))%nat);
        [discriminate |].
      apply IH. left. rewrite !blank_app, strip_blank_eq.
      apply truthy_true, strip_nonempty_not_blank in Hs. rewrite Hs.
      apply andb_false_iff. right. reflexivity.
    + apply IH. destruct Hsome as [Hcur | (s' & [<- | Hin] & Hs')]; eauto.
      apply truthy_false in Hs. apply strip_not_blank in Hs'. contradiction.
Qed.

(** Replacing a terminator followed by a space keeps every character but
    that space. *)
Lemma replace_keeps (p : N) (c : N) : forall s,
  (In c s -> c <> 32%N -> In c (Py.replace_from [p; 32%N] [p; 124%N] 0 s)) /\
  (forall x rest, s = x :: rest -> In c rest -> c <> 32%N ->
     In c (Py.replace_from [p; 32%N] [p; 124%N] 1 s)).
Proof.
  induction s as [| a s [IH0 IH1]]; [split; [intros [] | discriminate] |].
  split.
  - intros Hin Hc.
    change (Py.replace_from [p; 32%N] [p; 124%N] 0 (a :: s))
      with (if Py.startswith [p; 32%N] (a :: s)
            then [p; 124%N] ++ Py.replace_from [p; 32%N] [p; 124%N] 1 s
            else a :: Py.replace_from [p; 32%N] [p; 124%N] 0 s).
    destruct (Py.startswith [p; 32%N] (a :: s)) eqn:Hstart.
    + cbn [Py.startswith] in Hstart.
      apply andb_true_iff in Hstart. destruct Hstart as [Hp Hrest].
      apply N.eqb_eq in Hp. subst a.
      destruct s as [| b rest]; cbn [Py.startswith] in Hrest; [discriminate |].
      apply andb_true_iff in Hrest. destruct Hrest as [Hb _].
      apply N.eqb_eq in Hb. subst b.
      destruct Hin as [<- | [<- | Hin]].
      * left. reflexivity.
      * contradiction.
      * right. right. apply (IH1 32%N rest eq_refl Hin Hc).
    + destruct Hin as [<- | Hin]; [left; reflexivity | right; auto].
  - intros x rest [= <- <-] Hin Hc. simpl. auto.
Qed.

Lemma replace_in (p c : N) (s : list N) :
  In c s -> c <> 32%N -> In c (Py.replace [p; 32%N] [p; 124%N] s).
Proof. intros Hin Hc. apply (replace_keeps p c s); assumption. Qed.

Lemma split_in (sep c : N) : forall s,
  In c s -> c <> sep -> exists piece, In piece (Py.split sep s) /\ In c piece.
Proof.
  induction s as [| a s IH]; intros Hin Hc; [destruct Hin |].
  simpl. destruct (N.eqb_spec a sep) as [-> | Hne].
  - destruct Hin as [<- | Hin]; [contradiction |].
    destruct (IH Hin Hc) as (piece & Hp & Hcp). exists piece. split; [right |]; assumption.
  - destruct Hin as [<- | Hin].
    + destruct (Py.split sep s) as [| piece rest];
        [exists [a] | exists (a :: piece)]; split; simpl; auto.
    + destruct (IH Hin Hc) as (piece & Hp & Hcp).
      destruct (Py.split sep s) as [| piece0 rest]; [destruct Hp |].
      destruct Hp as [-> | Hp].
      * exists (a :: piece). split; [left; reflexivity | right; exact Hcp].
      * exists piece. split; [right; exact Hp | exact Hcp].
Qed.

(** A text with a character that is neither whitespace nor the separator
    yields at least one chunk. *)
Lemma chunk_text_nonempty (text : list N) (n : nat) :
  SSE.has_text text -> SSE.chunk_text text n <> [].
Proof.
  intros (c & Hin & Hspace & Hbar).
  assert (Hc32 : c <> 32%N) by (intros ->; discriminate).
  unfold SSE.chunk_text.
  destruct text as [| a text]; [destruct Hin |].
  cbn [Py.truthy negb].
  apply chunk_loop_nonempty. right.
  destruct (split_in SSE.BAR c
              (Py.replace (py ". ") (py ".|")
                 (Py.replace (py "! ") (py "!|")
                    (Py.replace (py "? ") (py "?|") (a :: text)))))
    as (piece & Hp & Hcp).
  - apply (replace_in 46); [| exact Hc32].
    apply (replace_in 33); [| exact Hc32].
    apply (replace_in 63); assumption.
  - exact Hbar.
  - exists piece. split; [exact Hp |]. apply blank_false_iff. eauto.
Qed.

(** ** Streaming *)

Section Streaming.

Import SSE.

Context (sched : nat -> Poll) (item : WorkerResult).

Hypothesis item_deliverable : deliverable item.

(** The worker's text, when it succeeds, yields at least one chunk. *)
Lemma item_chunks r : item = Success r -> chunk_text (default [] r) 30 <> [].
Proof. intros Hr. apply chunk_text_nonempty, item_deliverable, Hr. Qed.

Lemma item_not_blank r :
  item = Success r ->
  Py.truthy (default [] r) = true /\ Py.truthy (Py.strip (default [] r)) = true.
Proof.
  intros Hr. destruct (item_deliverable r Hr) as (c & Hin & Hspace & _).
  split; apply truthy_true.
  - intros Hnil. rewrite Hnil in Hin. destruct Hin.
  - apply strip_not_blank, blank_false_iff. eauto.
Qed.

Lemma deliver_polled_shape :
  (exists e, item = Failure e /\ deliver_polled item = [EvError e]) \/
  (exists r, item = Success r /\ chunk_text (default [] r) 30 <> [] /\
             deliver_polled item = map EvChunk (chunk_text (default [] r) 30) ++ [EvDone]).
Proof.
  pose proof item_chunks as Hchunks. pose proof item_not_blank as Htext.
  destruct item as [r | e]; [right | left; eauto].
  specialize (Hchunks r eq_refl). destruct (Htext r eq_refl) as [Ht Hs].
  exists r. unfold deliver_polled, chunk_events. rewrite Ht, Hs. auto.
Qed.

Lemma deliver_final_shape :
  (exists e, item = Failure e /\ deliver_final (Some item) = [EvError e]) \/
  (exists r, item = Success r /\ chunk_text (default [] r) 30 <> [] /\
             deliver_final (Some item)
             = map EvChunk (chunk_text (default [] r) 30) ++ [EvDone]).
Proof.
  pose proof item_chunks as Hchunks. pose proof item_not_blank as Htext.
  destruct item as [r | e]; [right | left; eauto].
  specialize (Hchunks r eq_refl). destruct (Htext r eq_refl) as [Ht Hs].
  exists r. unfold deliver_final, chunk_events. rewrite Ht. auto.
Qed.

(** The loop from iteration [k], after [k] keepalives. *)
Lemma poll_loop_shape (fuel : nat) : forall k : nat,
  (k <= 15)%nat -> (16 - k <= fuel)%nat ->
  exists (n : nat) (tail : list Event),
    poll_loop fuel sched item k k = Some (repeat EvKeepalive n ++ tail) /\
    (k + n <= 15)%nat /\
    (((forall i, (k <= i <= 15)%nat -> sched i = QueueTimeout) /\
      (k + n = 15)%nat /\ tail = [EvError MSG_TIMEOUT])
     \/
     (sched (k + n)%nat <> QueueTimeout /\
      (forall i, (k <= i < k + n)%nat -> sched i = QueueTimeout) /\
      ((exists e, item = Failure e /\ tail = [EvError e]) \/
       (exists r, item = Success r /\ chunk_text (default [] r) 30 <> [] /\
                  tail = map EvChunk (chunk_text (default [] r) 30) ++ [EvDone])))).
Proof.
  induction fuel as [| fuel IH]; intros k Hk Hfuel; [lia |].
  simpl. destruct (sched k) eqn:Hobs.
  - exists O, (deliver_final (Some item)). rewrite Nat.add_0_r.
    split; [reflexivity |]. split; [lia |]. right.
    split; [congruence |]. split; [intros i Hi; lia |].
    destruct deliver_final_shape as [(e & He & ->) | (r & Hr & Hcs & ->)]; eauto 10.
  - destruct (Nat.leb_spec (k + 1) 15) as [Hle | Hgt].
    + destruct (IH (S k)) as (n & tail & Hrun & Hn & Hshape); [lia | lia |].
      rewrite Nat.add_1_r. rewrite Hrun. simpl.
      exists (S n), tail. split; [reflexivity |]. split; [lia |].
      destruct Hshape as [(Hall & Hsum & Htail) | (Hstop & Hbefore & Htail)].
      * left. split; [| split; [lia | exact Htail]].
        intros i Hi. destruct (Nat.eq_dec i k) as [-> | Hne]; [exact Hobs |].
        apply Hall. lia.
      * right. replace (k + S n)%nat with (S k + n)%nat by lia.
        split; [exact Hstop |]. split; [| exact Htail].
        intros i Hi. destruct (Nat.eq_dec i k) as [-> | Hne]; [exact Hobs |].
        apply Hbefore. lia.
    + exists O, [EvError MSG_TIMEOUT]. split; [reflexivity |]. split; [lia |].
      left. split; [| split; [lia | reflexivity]].
      intros i Hi. replace i with k by lia. exact Hobs.
  - exists O, (deliver_polled item). rewrite Nat.add_0_r.
    split; [reflexivity |]. split; [lia |]. right.
    split; [congruence |]. split; [intros i Hi; lia |].
    destruct deliver_polled_shape as [(e & He & ->) | (r & Hr & Hcs & ->)]; eauto 10.
Qed.

End Streaming.

(** A worker that delivers its answer after one poll interval is well
    within the keepalive budget, and the stream is start, keepalive,
    chunk, done: a keepalive is sent for every poll that times out. *)
Lemma sse_keepalive_before_chunk_counterexample :
  SSE.generate_sse_response 16 Scenario.one_keepalive Scenario.short_reply
  = Some [SSE.EvStart; SSE.EvKeepalive; SSE.EvChunk (py "Hi there."); SSE.EvDone] /\
  Scenario.is_start_chunks_done
    [SSE.EvStart; SSE.EvKeepalive; SSE.EvChunk (py "Hi there."); SSE.EvDone] = false.
Proof. split; vm_compute; reflexivity. Qed.

(** The order of the events for a worker that fails, or whose answer has
    a character other than whitespace and the chunk separator:
    the stream is one start event, then at most 15 keepalive
    events, then exactly one of: the timeout error, when the first 16
    polls all time out (after exactly 15 keepalives); the worker's error;
    or the chunks of the answer, at least one, followed by done.  Nothing
    follows the terminal event, and the loop ends within 16 polls. *)
Theorem sse_event_order (sched : nat -> SSE.Poll) (item : SSE.WorkerResult) (fuel : nat) :
  (16 <= fuel)%nat ->
  SSE.deliverable item ->
  exists (n : nat) (tail : list SSE.Event),
    SSE.generate_sse_response fuel sched item
    = Some (SSE.EvStart :: repeat SSE.EvKeepalive n ++ tail) /\
    (n <= 15)%nat /\
    (((forall i, (i <= 15)%nat -> sched i = SSE.QueueTimeout) /\
      n = 15%nat /\ tail = [SSE.EvError SSE.MSG_TIMEOUT])
     \/
     (sched n <> SSE.QueueTimeout /\
      (forall i, (i < n)%nat -> sched i = SSE.QueueTimeout) /\
      ((exists e, item = SSE.Failure e /\ tail = [SSE.EvError e]) \/
       (exists r, item = SSE.Success r /\
                  SSE.chunk_text (default [] r) 30 <> [] /\
                  tail = map SSE.EvChunk (SSE.chunk_text (default [] r) 30)
                         ++ [SSE.EvDone])))).
Proof.
  intros Hfuel Hdeliverable.
  destruct (poll_loop_shape sched item Hdeliverable fuel O)
    as (n & tail & Hrun & Hn & Hshape);
    [lia | lia |].
  exists n, tail. unfold SSE.generate_sse_response. rewrite Hrun.
  split; [reflexivity |]. split; [lia |].
  destruct Hshape as [(Hall & Hsum & Htail) | (Hstop & Hbefore & Htail)].
  - left. split; [intros i Hi; apply Hall; lia | split; [lia | exact Htail]].
  - right. split; [exact Hstop |]. split; [intros i Hi; apply Hbefore; lia | exact Htail].
Qed.

(** A short answer delivered at the second poll. *)
Lemma sse_event_order_witness :
  (16 <= 16)%nat /\
  SSE.deliverable Scenario.short_reply /\
  exists (n : nat) (tail : list SSE.Event),
    SSE.generate_sse_response 16 Scenario.one_keepalive Scenario.short_reply
    = Some (SSE.EvStart :: repeat SSE.EvKeepalive n ++ tail) /\
    (n <= 15)%nat /\
    (((forall i, (i <= 15)%nat -> Scenario.one_keepalive i = SSE.QueueTimeout) /\
      n = 15%nat /\ tail = [SSE.EvError SSE.MSG_TIMEOUT])
     \/
     (Scenario.one_keepalive n <> SSE.QueueTimeout /\
      (forall i, (i < n)%nat -> Scenario.one_keepalive i = SSE.QueueTimeout) /\
      ((exists e, Scenario.short_reply = SSE.Failure e /\ tail = [SSE.EvError e]) \/
       (exists r, Scenario.short_reply = SSE.Success r /\
                  SSE.chunk_text (default [] r) 30 <> [] /\
                  tail = map SSE.EvChunk (SSE.chunk_text (default [] r) 30)
                         ++ [SSE.EvDone])))).
Proof.
  assert (H1 : (16 <= 16)%nat) by lia.
  assert (H2 : SSE.deliverable Scenario.short_reply).
  { intros r Hr. injection Hr as <-. exists 72%N.
    split; [left; reflexivity |]. split; [reflexivity | discriminate]. }
  split; [exact H1 |]. split; [exact H2 |].
  exact (sse_event_order Scenario.one_keepalive Scenario.short_reply 16 H1 H2).
Defined.

(** The stream of a worker that times out: start, 15 keepalives, the
    timeout error. *)
Lemma sse_timeout_stream (item : SSE.WorkerResult) (fuel : nat) :
  (16 <= fuel)%nat ->
  SSE.generate_sse_response fuel (fun _ => SSE.QueueTimeout) item
  = Some (SSE.EvStart :: repeat SSE.EvKeepalive 15 ++ [SSE.EvError SSE.MSG_TIMEOUT]).
Proof.
  intros Hfuel. do 16 (destruct fuel as [| fuel]; [lia |]). reflexivity.
Qed.

(** When the worker has exited before it is polled and its answer is the
    empty string, the code after the loop emits nothing: the stream is the
    start event alone.  The branch inside the loop sends an apology chunk
    and done for the same answer. *)
Lemma sse_empty_answer_after_exit :
  fst (SSE.query_worker Scenario.label_env [] Scenario.greeting Scenario.user Scenario.session
         (Scenario.store_of []))
  = SSE.Success (Some []) /\
  SSE.generate_sse_response 16 Scenario.exited_at_once (SSE.Success (Some []))
  = Some [SSE.EvStart] /\
  SSE.generate_sse_response 16 (fun _ => SSE.QueueReady) (SSE.Success (Some []))
  = Some [SSE.EvStart; SSE.EvChunk SSE.MSG_NO_RESPONSE; SSE.EvDone].
Proof. split_and!; vm_compute; reflexivity. Qed.

(** A text made of the separator character yields no chunk: the stream is
    start, done. *)
Lemma sse_bar_answer_no_chunk :
  SSE.chunk_text (py "|") 30 = [] /\
  SSE.generate_sse_response 16 (fun _ => SSE.QueueReady) (SSE.Success (Some (py "|")))
  = Some [SSE.EvStart; SSE.EvDone].
Proof. split; vm_compute; reflexivity. Qed.

(** The loop from iteration [j], after [j] keepalives, when the polls up
    to the [k]-th time out and the [k]-th does not. *)
Lemma poll_loop_keepalives (sched : nat -> SSE.Poll) (item : SSE.WorkerResult) (k : nat) :
  forall d fuel j : nat,
    (j + d = k)%nat -> (k <= 15)%nat -> (d < fuel)%nat ->
    (forall i, (j <= i < k)%nat -> sched i = SSE.QueueTimeout) ->
    sched k <> SSE.QueueTimeout ->
    SSE.poll_loop fuel sched item j j
    = Some (repeat SSE.EvKeepalive d
            ++ match sched k with
               | SSE.WorkerExited => SSE.deliver_final (Some item)
               | _ => SSE.deliver_polled item
               end).
Proof.
  induction d as [| d IH]; intros fuel j Hjk Hk Hfuel Hbefore Hstop;
    (destruct fuel as [| fuel]; [lia |]); cbn [SSE.poll_loop repeat app].
  - assert (j = k) as -> by lia.
    destruct (sched k); [reflexivity | contradiction | reflexivity].
  - rewrite (Hbefore j) by lia.
    destruct (Nat.leb_spec (j + 1) 15) as [_ | Hgt]; [| lia].
    rewrite Nat.add_1_r. rewrite (IH fuel (S j)); try assumption; try lia.
    + reflexivity.
    + intros i Hi. apply Hbefore. lia.
Qed.

Lemma keepalives_not_terminal (k : nat) :
  existsb SSE.is_terminal (SSE.EvStart :: repeat SSE.EvKeepalive k) = false.
Proof. induction k as [| k IH]; [reflexivity | exact IH]. Qed.

(** C5: the code departs from the claim.  When the worker is seen to have
    exited (by the test of the loop, after [k <= 15] polls that timed out)
    and its answer is empty, the code after the loop yields nothing: the
    stream is the start event and [k] keepalives and has no terminal
    event, neither done nor error.  For the same answer received by a
    poll, the branch inside the loop sends an apology chunk and done. *)
Theorem sse_exited_empty_answer_no_terminal (sched : nat -> SSE.Poll)
    (r : option (list N)) (k fuel : nat) :
  (k <= 15)%nat -> (k < fuel)%nat ->
  (forall i, (i < k)%nat -> sched i = SSE.QueueTimeout) ->
  sched k = SSE.WorkerExited ->
  default [] r = [] ->
  SSE.generate_sse_response fuel sched (SSE.Success r)
  = Some (SSE.EvStart :: repeat SSE.EvKeepalive k) /\
  existsb SSE.is_terminal (SSE.EvStart :: repeat SSE.EvKeepalive k) = false /\
  forall sched' : nat -> SSE.Poll,
    (forall i, (i < k)%nat -> sched' i = SSE.QueueTimeout) ->
    sched' k = SSE.QueueReady ->
    SSE.generate_sse_response fuel sched' (SSE.Success r)
    = Some (SSE.EvStart :: repeat SSE.EvKeepalive k
            ++ [SSE.EvChunk SSE.MSG_NO_RESPONSE; SSE.EvDone]).
Proof.
  intros Hk Hfuel Hbefore Hexit Hempty. split; [| split].
  - unfold SSE.generate_sse_response.
    rewrite (poll_loop_keepalives sched (SSE.Success r) k k fuel O); try assumption;
      try lia; try congruence.
    + rewrite Hexit. cbn [SSE.deliver_final]. rewrite Hempty. cbn [Py.truthy option_map].
      rewrite app_nil_r. reflexivity.
    + intros i Hi. apply Hbefore. lia.
  - apply keepalives_not_terminal.
  - intros sched' Hbefore' Hready. unfold SSE.generate_sse_response.
    rewrite (poll_loop_keepalives sched' (SSE.Success r) k k fuel O); try assumption;
      try lia; try congruence.
    + rewrite Hready. cbn [SSE.deliver_polled]. rewrite Hempty.
      cbn [Py.truthy andb option_map app]. reflexivity.
    + intros i Hi. apply Hbefore'. lia.
Qed.

(** The worker has exited before the first poll, with the empty answer. *)
Lemma sse_exited_empty_answer_no_terminal_witness :
  (0 <= 15)%nat /\ (0 < 16)%nat /\
  (forall i, (i < 0)%nat -> Scenario.exited_at_once i = SSE.QueueTimeout) /\
  Scenario.exited_at_once 0 = SSE.WorkerExited /\
  default [] (Some []) = @nil N /\
  SSE.generate_sse_response 16 Scenario.exited_at_once (SSE.Success (Some []))
  = Some (SSE.EvStart :: repeat SSE.EvKeepalive 0) /\
  existsb SSE.is_terminal (SSE.EvStart :: repeat SSE.EvKeepalive 0) = false /\
  forall sched' : nat -> SSE.Poll,
    (forall i, (i < 0)%nat -> sched' i = SSE.QueueTimeout) ->
    sched' 0%nat = SSE.QueueReady ->
    SSE.generate_sse_response 16 sched' (SSE.Success (Some []))
    = Some (SSE.EvStart :: repeat SSE.EvKeepalive 0
            ++ [SSE.EvChunk SSE.MSG_NO_RESPONSE; SSE.EvDone]).
Proof.
  assert (H1 : (0 <= 15)%nat) by lia.
  assert (H2 : (0 < 16)%nat) by lia.
  assert (H3 : forall i, (i < 0)%nat -> Scenario.exited_at_once i = SSE.QueueTimeout)
    by (intros i Hi; lia).
  assert (H4 : Scenario.exited_at_once 0 = SSE.WorkerExited) by reflexivity.
  assert (H5 : default [] (Some []) = @nil N) by reflexivity.
  split; [exact H1 |]. split; [exact H2 |]. split; [exact H3 |].
  split; [exact H4 |]. split; [exact H5 |].
  exact (sse_exited_empty_answer_no_terminal Scenario.exited_at_once (Some []) 0 16
           H1 H2 H3 H4 H5).
Defined.

(** * Further properties of the sources *)

(** ** Conversation memory: reading back what was appended *)

Lemma add_message_redis_client m g s u ss r c t :
  Memory.redis_client (Memory.add_message m g s u ss r c t) = Memory.redis_client m.
Proof.
  unfold Memory.add_message, Memory._save_state.
  destruct (Memory.redis_client m) eqn:Hc, s; simpl; auto.
Qed.

Lemma most_recent_snoc {A} (n : nat) (l : list A) (x : A) :
  (1 <= n)%nat ->
  Memory.most_recent n (l ++ [x]) = Memory.most_recent (n - 1) l ++ [x].
Proof.
  intros Hn. unfold Memory.most_recent. rewrite length_app. simpl.
  rewrite drop_app_le by lia. f_equal. f_equal. lia.
Qed.

Lemma load_after_add m g s g' u ss r c t :
  Memory.redis_client m = false \/ (s = true /\ g' = true) ->
  Memory._load_state (Memory.add_message m g s u ss r c t) g' (Memory._get_redis_key u ss)
  = Memory.trimmed m (Memory._load_state m g (Memory._get_redis_key u ss)
                      ++ [Memory.mkMessage r c t]).
Proof.
  intros Hok.
  assert (Hsaved : Memory.redis_client m = false \/ s = true) by tauto.
  unfold Memory._load_state at 1.
  rewrite add_message_redis_client, (add_message_stored m g s u ss r c t Hsaved).
  destruct (Memory.redis_client m) eqn:Hc; simpl; [| reflexivity].
  destruct Hok as [Hf | [_ ->]]; [discriminate | reflexivity].
Qed.

(** X1: a message that is appended and saved is the last entry read back,
    and the history read back has one entry more than the history loaded,
    capped at [2 * max_history]. *)
Theorem appended_message_is_last (m : Memory.ConversationMemory) (g s g' : bool)
    (u ss r c t : list N) :
  1 <= Memory.max_history m ->
  Memory.redis_client m = false \/ (s = true /\ g' = true) ->
  let before := Memory._load_state m g (Memory._get_redis_key u ss) in
  let after := Memory.get_history (Memory.add_message m g s u ss r c t) g' u ss in
  last after = Some (Memory.mkTurn r c) /\
  length after = Nat.min (S (length before)) (Z.to_nat (2 * Memory.max_history m)).
Proof.
  intros Hmax Hok before after. subst after. unfold Memory.get_history.
  rewrite load_after_add by exact Hok. fold before.
  rewrite trimmed_most_recent by exact Hmax.
  rewrite most_recent_snoc by lia. split.
  - rewrite map_app. simpl. apply last_snoc.
  - rewrite length_map, length_app. cbn [length].
    unfold Memory.most_recent. rewrite length_drop.
    clearbody before. lia.
Qed.

(** A memory keeping one exchange, in fallback mode, after one append. *)
Lemma appended_message_is_last_witness :
  1 <= Memory.max_history Scenario.one_turn_memory /\
  (Memory.redis_client Scenario.one_turn_memory = false \/ (true = true /\ true = true)) /\
  last (Memory.get_history
          (Memory.add_message Scenario.one_turn_memory true true
             (py "u") (py "s") (py "user") (py "q1") (py "t1"))
          true (py "u") (py "s"))
  = Some (Memory.mkTurn (py "user") (py "q1")) /\
  length (Memory.get_history
            (Memory.add_message Scenario.one_turn_memory true true
               (py "u") (py "s") (py "user") (py "q1") (py "t1"))
            true (py "u") (py "s"))
  = Nat.min
      (S (length (Memory._load_state Scenario.one_turn_memory true
                    (Memory._get_redis_key (py "u") (py "s")))))
      (Z.to_nat (2 * Memory.max_history Scenario.one_turn_memory)).
Proof.
  assert (H1 : 1 <= Memory.max_history Scenario.one_turn_memory) by (simpl; lia).
  assert (H2 : Memory.redis_client Scenario.one_turn_memory = false
               \/ (true = true /\ true = true)) by (left; reflexivity).
  split; [exact H1 |]. split; [exact H2 |].
  exact (appended_message_is_last Scenario.one_turn_memory true true true
           (py "u") (py "s") (py "user") (py "q1") (py "t1") H1 H2).
Defined.

(** X2: appending to one session changes no other session: the history
    of every pair with a different key reads as before, and the limit and
    the backend are unchanged. *)
Theorem append_leaves_other_sessions (m : Memory.ConversationMemory) (g s g' : bool)
    (u ss r c t u' ss' : list N) :
  Memory._get_redis_key u ss <> Memory._get_redis_key u' ss' ->
  Memory.get_history (Memory.add_message m g s u ss r c t) g' u' ss'
  = Memory.get_history m g' u' ss' /\
  Memory.max_history (Memory.add_message m g s u ss r c t) = Memory.max_history m /\
  Memory.redis_client (Memory.add_message m g s u ss r c t) = Memory.redis_client m.
Proof.
  intros Hne. split; [| split; [apply add_message_max | apply add_message_redis_client]].
  unfold Memory.get_history. f_equal.
  unfold Memory._load_state. rewrite add_message_redis_client.
  assert (Hlookup : Memory.storage (Memory.add_message m g s u ss r c t)
                      !! Memory._get_redis_key u' ss'
                    = Memory.storage m !! Memory._get_redis_key u' ss').
  { unfold Memory.add_message, Memory._save_state.
    destruct (Memory.redis_client m), s; simpl; try reflexivity;
      apply lookup_insert_ne; exact Hne. }
  rewrite Hlookup. reflexivity.
Qed.

Lemma append_leaves_other_sessions_witness :
  Memory._get_redis_key (py "u") (py "s1") <> Memory._get_redis_key (py "u") (py "s2") /\
  Memory.get_history
    (Memory.add_message Scenario.one_turn_memory true true
       (py "u") (py "s1") (py "user") (py "q1") (py "t1"))
    true (py "u") (py "s2")
  = Memory.get_history Scenario.one_turn_memory true (py "u") (py "s2") /\
  Memory.max_history
    (Memory.add_message Scenario.one_turn_memory true true
       (py "u") (py "s1") (py "user") (py "q1") (py "t1"))
  = Memory.max_history Scenario.one_turn_memory /\
  Memory.redis_client
    (Memory.add_message Scenario.one_turn_memory true true
       (py "u") (py "s1") (py "user") (py "q1") (py "t1"))
  = Memory.redis_client Scenario.one_turn_memory.
Proof.
  assert (H : Memory._get_redis_key (py "u") (py "s1")
              <> Memory._get_redis_key (py "u") (py "s2")) by discriminate.
  split; [exact H |].
  exact (append_leaves_other_sessions Scenario.one_turn_memory true true true
           (py "u") (py "s1") (py "user") (py "q1") (py "t1") (py "u") (py "s2") H).
Defined.

Lemma most_recent_snoc2 {A} (n : nat) (l : list A) (x y : A) :
  (2 <= n)%nat ->
  Memory.most_recent n (l ++ [x; y]) = Memory.most_recent (n - 2) l ++ [x; y].
Proof.
  intros Hn. unfold Memory.most_recent. rewrite length_app. simpl.
  rewrite drop_app_le by lia. f_equal. f_equal. lia.
Qed.

Lemma last_two_lookup (pre : list Memory.Turn) (x y : Memory.Turn) (h : list Memory.Turn) :
  h = pre ++ [x; y] ->
  (if (length h <? 2)%nat then None
   else Some (from_option Memory.turn_content [] (h !! (length h - 2)%nat),
              from_option Memory.turn_content [] (h !! (length h - 1)%nat)))
  = Some (Memory.turn_content x, Memory.turn_content y).
Proof.
  intros ->. rewrite length_app. simpl.
  replace (length pre + 2 <? 2)%nat with false by (symmetry; apply Nat.ltb_ge; lia).
  rewrite !lookup_app_r by lia.
  replace (length pre + 2 - 2 - length pre)%nat with 0%nat by lia.
  replace (length pre + 2 - 1 - length pre)%nat with 1%nat by lia.
  reflexivity.
Qed.

Lemma history_after_turn (m : Memory.ConversationMemory)
    (g1 s1 g2 s2 g3 : bool) (u ss q a t1 t2 : list N) :
  1 <= Memory.max_history m ->
  Memory.redis_client m = false \/ (s1 = true /\ g2 = true /\ s2 = true /\ g3 = true) ->
  exists pre,
    Memory.get_history
      (Memory.add_message
         (Memory.add_message m g1 s1 u ss (py "user") q t1)
         g2 s2 u ss (py "assistant") a t2)
      g3 u ss
    = pre ++ [Memory.mkTurn (py "user") q; Memory.mkTurn (py "assistant") a].
Proof.
  intros Hmax Hok.
  set (m1 := Memory.add_message m g1 s1 u ss (py "user") q t1).
  assert (Hmax1 : Memory.max_history m1 = Memory.max_history m)
    by apply add_message_max.
  assert (Hc1 : Memory.redis_client m1 = Memory.redis_client m)
    by apply add_message_redis_client.
  unfold Memory.get_history.
  rewrite load_after_add by (rewrite Hc1; tauto).
  unfold m1 at 2. rewrite load_after_add by tauto.
  rewrite !trimmed_most_recent by (rewrite ?Hmax1; exact Hmax).
  rewrite Hmax1.
  set (n := Z.to_nat (2 * Memory.max_history m)).
  assert (Hn : (2 <= n)%nat) by (unfold n; lia).
  rewrite (most_recent_snoc n _ (Memory.mkMessage (py "user") q t1)) by lia.
  rewrite <- app_assoc. simpl.
  rewrite most_recent_snoc2 by exact Hn.
  rewrite map_app. simpl. eexists. reflexivity.
Qed.

(** X3: after a user message and an assistant message have been appended
    and saved for a session, [get_last_exchange] returns their two
    contents. *)
Theorem last_exchange_after_turn (m : Memory.ConversationMemory)
    (g1 s1 g2 s2 g3 : bool) (u ss q a t1 t2 : list N) :
  1 <= Memory.max_history m ->
  Memory.redis_client m = false \/ (s1 = true /\ g2 = true /\ s2 = true /\ g3 = true) ->
  Memory.get_last_exchange
    (Memory.add_message
       (Memory.add_message m g1 s1 u ss (py "user") q t1)
       g2 s2 u ss (py "assistant") a t2)
    g3 u ss
  = Some (q, a).
Proof.
  intros Hmax Hok.
  destruct (history_after_turn m g1 s1 g2 s2 g3 u ss q a t1 t2 Hmax Hok) as [pre Hpre].
  unfold Memory.get_last_exchange.
  apply (last_two_lookup pre _ _ _ Hpre).
Qed.

Lemma last_exchange_after_turn_witness :
  1 <= Memory.max_history Scenario.one_turn_memory /\
  (Memory.redis_client Scenario.one_turn_memory = false
   \/ (true = true /\ true = true /\ true = true /\ true = true)) /\
  Memory.get_last_exchange
    (Memory.add_message
       (Memory.add_message Scenario.one_turn_memory true true
          (py "u") (py "s") (py "user") (py "q1") (py "t1"))
       true true (py "u") (py "s") (py "assistant") (py "a1") (py "t2"))
    true (py "u") (py "s")
  = Some (py "q1", py "a1").
Proof.
  assert (H1 : 1 <= Memory.max_history Scenario.one_turn_memory) by (simpl; lia).
  assert (H2 : Memory.redis_client Scenario.one_turn_memory = false
               \/ (true = true /\ true = true /\ true = true /\ true = true))
    by (left; reflexivity).
  split; [exact H1 |]. split; [exact H2 |].
  exact (last_exchange_after_turn Scenario.one_turn_memory true true true true true
           (py "u") (py "s") (py "q1") (py "a1") (py "t1") (py "t2") H1 H2).
Defined.

Lemma join_cons_nonempty (sep x : list N) (rest : list (list N)) :
  x <> [] -> Py.join sep (x :: rest) <> [].
Proof.
  intros Hx. destruct x as [| c x]; [congruence |].
  destruct rest; simpl; discriminate.
Qed.

(** X4: the formatted history that goes into the prompts is non-empty
    exactly when the session has context. *)
Theorem formatted_history_iff_context (m : Memory.ConversationMemory) (g : bool)
    (u s : list N) :
  Memory.get_formatted_history m g u s <> [] <-> Memory.has_context m g u s = true.
Proof.
  unfold Memory.get_formatted_history, Memory.has_context.
  destruct (Memory.get_history m g u s) as [| turn rest]; simpl.
  - split; [congruence | discriminate].
  - split; [reflexivity |]. intros _.
    apply (join_cons_nonempty [Py.LF]).
    destruct (decide (Memory.turn_role turn = py "user")); discriminate.
Qed.

(** X5: in Redis mode with a limit that is not negative, when the read of
    [add_message] fails and its write succeeds, the stored history of the
    session is replaced by the new message alone, whatever was stored
    before. *)
Theorem failed_read_overwrites_history (m : Memory.ConversationMemory)
    (u ss r c t : list N) :
  0 <= Memory.max_history m ->
  Memory.redis_client m = true ->
  Memory.storage (Memory.add_message m false true u ss r c t) !! Memory._get_redis_key u ss
  = Some [Memory.mkMessage r c t].
Proof.
  intros Hmax Hc.
  rewrite add_message_stored by (right; reflexivity).
  unfold Memory._load_state. rewrite Hc. simpl.
  unfold Memory.trimmed. cbn [app length].
  destruct (Z.gtb_spec (Z.of_nat 1) (Memory.max_history m * 2)) as [Hgt | Hle];
    [| reflexivity].
  assert (Hzero : Memory.max_history m = 0) by lia.
  rewrite Hzero. reflexivity.
Qed.

Lemma failed_read_overwrites_history_witness :
  0 <= Memory.max_history (Memory.new 10 true) /\
  Memory.redis_client (Memory.new 10 true) = true /\
  Memory.storage
    (Memory.add_message (Memory.new 10 true) false true
       (py "u") (py "s") (py "user") (py "q1") (py "t1"))
    !! Memory._get_redis_key (py "u") (py "s")
  = Some [Memory.mkMessage (py "user") (py "q1") (py "t1")].
Proof.
  assert (H1 : 0 <= Memory.max_history (Memory.new 10 true)) by (simpl; lia).
  assert (H2 : Memory.redis_client (Memory.new 10 true) = true) by reflexivity.
  split; [exact H1 |]. split; [exact H2 |].
  exact (failed_read_overwrites_history (Memory.new 10 true)
           (py "u") (py "s") (py "user") (py "q1") (py "t1") H1 H2).
Defined.

(** ** Score validator: best match and confidence label *)

Lemma sorted_desc_head (docs : list Doc) :
  match head (ScoreThreshold.sorted_desc docs) with
  | None => docs = []
  | Some d =>
      In d docs /\
      forall d', In d' docs -> (similarity_score d' <= similarity_score d)%Q
  end.
Proof.
  induction docs as [| x docs IH]; [reflexivity |].
  simpl. destruct (ScoreThreshold.sorted_desc docs) as [| d rest]; simpl in *.
  - subst docs. split; [left; reflexivity |].
    intros d' [<- | []]. apply Qle_refl.
  - destruct IH as [Hin Hmax].
    destruct (Qle_bool (similarity_score d) (similarity_score x)) eqn:Hle; simpl.
    + apply Qle_bool_iff in Hle. split; [left; reflexivity |].
      intros d' [<- | Hd']; [apply Qle_refl |].
      apply Qle_trans with (similarity_score d); [apply Hmax; exact Hd' | exact Hle].
    + assert (Hlt : (similarity_score x < similarity_score d)%Q).
      { apply Qnot_le_lt. intros Hc. apply Qle_bool_iff in Hc. congruence. }
      split; [right; exact Hin |].
      intros d' [<- | Hd']; [apply Qlt_le_weak; exact Hlt | apply Hmax; exact Hd'].
Qed.

(** X6: [get_best_match] returns nothing exactly when no document meets
    the threshold; otherwise it returns a retrieved document that meets
    the threshold and whose score is the highest of all retrieved
    documents meeting it. *)
Theorem best_match_is_highest (self : ScoreThreshold.t) (docs : list Doc) :
  match ScoreThreshold.get_best_match self docs with
  | None => ScoreThreshold.validate_retrieval self docs = false
  | Some d =>
      In d docs /\
      (ScoreThreshold.threshold self <= similarity_score d)%Q /\
      forall d', In d' docs ->
        (ScoreThreshold.threshold self <= similarity_score d')%Q ->
        (similarity_score d' <= similarity_score d)%Q
  end.
Proof.
  unfold ScoreThreshold.get_best_match, ScoreThreshold.validate_retrieval.
  rewrite filter_by_threshold_filter.
  set (keep := fun doc => Qle_bool (ScoreThreshold.threshold self) (similarity_score doc)).
  pose proof (sorted_desc_head (List.filter keep docs)) as Hhead.
  destruct (List.filter keep docs) as [| f rest] eqn:Hf; [reflexivity |].
  rewrite <- Hf in *.
  destruct (head (ScoreThreshold.sorted_desc (List.filter keep docs))) as [d |].
  - destruct Hhead as [Hin Hmax]. apply List.filter_In in Hin. destruct Hin as [Hin Hkeep].
    split; [exact Hin |]. split; [apply Qle_bool_iff; exact Hkeep |].
    intros d' Hd' Hthr. apply Hmax. apply List.filter_In.
    split; [exact Hd' | apply Qle_bool_iff; exact Hthr].
  - rewrite Hf in Hhead. discriminate.
Qed.

Lemma qle_bool_false (a b : Q) : Qle_bool a b = false <-> (b < a)%Q.
Proof.
  split.
  - intros H. apply Qnot_le_lt. intros Hc. apply Qle_bool_iff in Hc. congruence.
  - intros H. destruct (Qle_bool a b) eqn:Hb; [| reflexivity].
    apply Qle_bool_iff in Hb. exfalso. apply (Qlt_not_le _ _ H). exact Hb.
Qed.

(** X7: the label is ["below_threshold"] exactly when the score is below
    both 0.7 and the validator's threshold; so for a threshold of at most
    0.7 the label agrees with the filter, and for a higher threshold a
    score the filter rejects can still be labelled medium or better. *)
Theorem confidence_below_threshold_iff (self : ScoreThreshold.t) (score : Q) :
  (ScoreThreshold.get_confidence_level self score = py "below_threshold"
   <-> (score < 7 # 10)%Q /\ (score < ScoreThreshold.threshold self)%Q) /\
  ((ScoreThreshold.threshold self <= 7 # 10)%Q ->
   (ScoreThreshold.get_confidence_level self score = py "below_threshold"
    <-> Qle_bool (ScoreThreshold.threshold self) score = false)).
Proof.
  assert (Hiff : ScoreThreshold.get_confidence_level self score = py "below_threshold"
                 <-> (score < 7 # 10)%Q /\ (score < ScoreThreshold.threshold self)%Q).
  { unfold ScoreThreshold.get_confidence_level.
    destruct (Qle_bool (9 # 10) score) eqn:H9.
    { split; [discriminate |]. intros [H7 _]. apply Qle_bool_iff in H9.
      exfalso. apply (Qlt_not_le _ _ H7).
      apply Qle_trans with (9 # 10)%Q; [unfold Qle; simpl; lia | exact H9]. }
    destruct (Qle_bool (8 # 10) score) eqn:H8.
    { split; [discriminate |]. intros [H7 _]. apply Qle_bool_iff in H8.
      exfalso. apply (Qlt_not_le _ _ H7).
      apply Qle_trans with (8 # 10)%Q; [unfold Qle; simpl; lia | exact H8]. }
    destruct (Qle_bool (7 # 10) score) eqn:H7'.
    { split; [discriminate |]. intros [H7 _]. apply Qle_bool_iff in H7'.
      exfalso. apply (Qlt_not_le _ _ H7). exact H7'. }
    apply qle_bool_false in H7'.
    destruct (Qle_bool (ScoreThreshold.threshold self) score) eqn:Ht.
    - split; [discriminate |]. intros [_ Hlt]. apply qle_bool_false in Hlt. congruence.
    - apply qle_bool_false in Ht. split; [intros _; split; assumption | reflexivity]. }
  split; [exact Hiff |].
  intros Hthr. rewrite Hiff, qle_bool_false. split; [intros [_ H]; exact H |].
  intros Hlt. split; [| exact Hlt].
  apply Qlt_le_trans with (ScoreThreshold.threshold self); assumption.
Qed.

(** ** Retriever: what is stored is what is read back *)

Lemma upsert_point_in (p : Point) (c : list Point) : In p (Retriever.upsert_point p c).
Proof.
  induction c as [| q c IH]; simpl; [left; reflexivity |].
  destruct (decide (pt_id q = pt_id p)); [left; reflexivity | right; exact IH].
Qed.

(** The payload of an ingested pair, as a search hit scored at least
    0.90 and formatted as a retrieved document. *)
Lemma qa_payload_document (q a : list N) (score : Q) :
  a <> [] ->
  (Settings.EXACT_MATCH_THRESHOLD <= score)%Q ->
  let doc := Retriever.format_result (mkScored (Retriever.qa_payload q a) score) in
  doc_content doc = py "Question: " ++ q ++ [Py.LF; Py.LF] ++ py "Answer: " ++ a /\
  metadata doc !! py "content" = None /\
  metadata doc !! py "question" = Some q /\
  metadata doc !! py "document_type" = Some Retriever.GENERATED_QA /\
  exact_qa doc /\
  stored_answer doc = a /\
  GraphNodes.cached_answer [doc] = Some a.
Proof.
  intros Ha Hscore doc.
  assert (Hcontent : doc_content doc
                     = py "Question: " ++ q ++ [Py.LF; Py.LF] ++ py "Answer: " ++ a).
  { unfold doc, Retriever.format_result, Retriever.qa_payload. simpl.
    rewrite lookup_insert_eq. reflexivity. }
  assert (Hnone : metadata doc !! py "content" = None).
  { unfold doc, Retriever.format_result. simpl. apply lookup_delete_eq. }
  assert (Hquestion : metadata doc !! py "question" = Some q).
  { unfold doc, Retriever.format_result, Retriever.qa_payload. simpl.
    rewrite lookup_delete_ne by discriminate.
    repeat (rewrite lookup_insert_ne by discriminate).
    apply lookup_insert_eq. }
  assert (Htype : metadata doc !! py "document_type" = Some Retriever.GENERATED_QA).
  { unfold doc, Retriever.format_result, Retriever.qa_payload. simpl.
    rewrite lookup_delete_ne by discriminate.
    repeat (rewrite lookup_insert_ne by discriminate).
    apply lookup_insert_eq. }
  assert (Hanswer : stored_answer doc = a).
  { unfold stored_answer, doc, Retriever.format_result, Retriever.qa_payload. simpl.
    rewrite lookup_delete_ne by discriminate.
    repeat (rewrite lookup_insert_ne by discriminate).
    rewrite lookup_insert_eq. reflexivity. }
  assert (Hexact : exact_qa doc) by (split; [exact Htype | exact Hscore]).
  split_and!; try assumption.
  apply cached_answer_first. exists [], doc, []. split_and!; auto; congruence.
Qed.

Lemma cached_answer_head (doc : Doc) (rest : list Doc) :
  exact_qa doc -> stored_answer doc <> [] ->
  GraphNodes.cached_answer (doc :: rest) = Some (stored_answer doc).
Proof.
  intros Hexact Hne. apply cached_answer_first.
  exists [], doc, rest. split_and!; auto.
Qed.

(** X8: a pair that [ingest_qa_pair] writes is a cache hit afterwards.
    For a non-empty pair whose embedding succeeds, that the duplicate
    check does not reject and the index accepts, the call returns [True]
    and the collection holds the new point; when a later search returns
    that point first, with a score of at least 0.90, [retrieve] gives a
    first document whose content is the question and the answer, whose
    metadata no longer has the content and has the document type
    ["Generated Q&A"], and the cache check on the retrieved documents
    returns the ingested answer. *)
Theorem ingested_pair_is_cache_hit (env : Env) (self : Retriever.t) (q a : list N)
    (thr : option Q) (st : Store) (v : list Q)
    (q2 : list N) (pr : Processed) (v2 : list Q) (score : Q) (others : list ScoredPoint) :
  q <> [] -> a <> [] ->
  generate_embedding env q = Ok v ->
  duplicate_seen env (default Retriever.DEDUP_THRESHOLD thr) (collection st) v = false ->
  let p := mkPoint (ingest_point env st v q a) v (Retriever.qa_payload q a) in
  upsert_ok env (collection st) p = true ->
  q2 <> [] ->
  process_query env q2 = Ok pr ->
  generate_embedding env
    (if Py.truthy (keyword_query pr) then keyword_query pr else normalized pr) = Ok v2 ->
  query_points env (Retriever.upsert_point p (collection st)) v2 (Retriever.top_k self) None
  = Ok (mkScored (pt_payload p) score :: others) ->
  ((90 # 100) <= score)%Q ->
  exists (st1 st2 : Store) (doc : Doc) (rest : list Doc),
    Retriever.ingest_qa_pair env self q a thr st = (Ok true, st1) /\
    collection st1 = Retriever.upsert_point p (collection st) /\
    In p (collection st1) /\
    Retriever.retrieve env self q2 None None st1 = (Ok (doc :: rest), st2) /\
    doc_content doc = py "Question: " ++ q ++ [Py.LF; Py.LF] ++ py "Answer: " ++ a /\
    metadata doc !! py "content" = None /\
    metadata doc !! py "question" = Some q /\
    metadata doc !! py "document_type" = Some (py "Generated Q&A") /\
    similarity_score doc = score /\
    stored_answer doc = a /\
    GraphNodes.cached_answer (doc :: rest) = Some a.
Proof.
  intros Hq Ha Hv Hdup p Hup Hq2 Hpr Hv2 Hhits Hscore.
  assert (Hing : exists st1,
             Retriever.ingest_qa_pair env self q a thr st = (Ok true, st1) /\
             collection st1 = Retriever.upsert_point p (collection st)).
  { pose proof Hq as Hq'. pose proof Ha as Ha'. apply truthy_true in Hq', Ha'.
    unfold Retriever.ingest_qa_pair, Retriever.embed, Retriever.search, Retriever.upsert.
    unfold duplicate_seen in Hdup. subst p. unfold ingest_point in Hup.
    run_m. rewrite Hq', Ha'. simpl. run_m. rewrite Hv. simpl.
    destruct (query_points env (collection st) v 5 (Some Retriever.qa_filter))
      as [results |]; simpl.
    - rewrite Hdup. simpl. rewrite !length_app. simpl.
      replace (length (calls st) + 1 + 1 + 1)%nat with (length (calls st) + 3)%nat by lia.
      rewrite Hup. simpl. eexists. split; reflexivity.
    - rewrite !length_app. simpl.
      replace (length (calls st) + 1 + 1 + 1)%nat with (length (calls st) + 3)%nat by lia.
      rewrite Hup. simpl. eexists. split; reflexivity. }
  destruct Hing as (st1 & Hing & Hcol).
  destruct (qa_payload_document q a score Ha Hscore)
    as (Hcontent & Hnone & Hquestion & Htype & Hexact & Hanswer & _).
  cbv zeta in Hcontent, Hnone, Hquestion, Htype, Hexact, Hanswer.
  exists st1. eexists. eexists. eexists.
  split; [exact Hing |]. split; [exact Hcol |].
  split; [rewrite Hcol; apply upsert_point_in |].
  split.
  { apply truthy_true in Hq2.
    unfold Retriever.retrieve, Retriever.preprocess, Retriever.embed, Retriever.search.
    rewrite Hq2. simpl. run_m. rewrite Hpr. simpl. rewrite Hv2. simpl.
    rewrite Hcol, Hhits. simpl. reflexivity. }
  split_and!; try assumption; try reflexivity.
  rewrite <- Hanswer at 2. apply cached_answer_head; [exact Hexact |].
  rewrite Hanswer. exact Ha.
Qed.

(** The pair is ingested into an empty collection and found by the same
    question, scored 1. *)
Lemma ingested_pair_is_cache_hit_witness :
  Scenario.question <> [] /\
  Scenario.ingest_answer <> [] /\
  generate_embedding Scenario.ingest_env Scenario.question = Ok [1%Q] /\
  duplicate_seen Scenario.ingest_env (default Retriever.DEDUP_THRESHOLD None)
    (collection (Scenario.store_of [])) [1%Q] = false /\
  let env := Scenario.ingest_env in
  let st := Scenario.store_of [] in
  let q := Scenario.question in
  let a := Scenario.ingest_answer in
  let pr := mkProcessed Scenario.question Scenario.question in
  let p := mkPoint (ingest_point env st [1%Q] q a) [1%Q] (Retriever.qa_payload q a) in
  upsert_ok env (collection st) p = true /\
  process_query env q = Ok pr /\
  generate_embedding env
    (if Py.truthy (keyword_query pr) then keyword_query pr else normalized pr) = Ok [1%Q] /\
  query_points env (Retriever.upsert_point p (collection st)) [1%Q]
    (Retriever.top_k (Retriever.mk 5)) None
  = Ok [mkScored (pt_payload p) 1%Q] /\
  ((90 # 100) <= 1)%Q /\
  exists (st1 st2 : Store) (doc : Doc) (rest : list Doc),
    Retriever.ingest_qa_pair env (Retriever.mk 5) q a None st = (Ok true, st1) /\
    collection st1 = Retriever.upsert_point p (collection st) /\
    In p (collection st1) /\
    Retriever.retrieve env (Retriever.mk 5) q None None st1 = (Ok (doc :: rest), st2) /\
    doc_content doc = py "Question: " ++ q ++ [Py.LF; Py.LF] ++ py "Answer: " ++ a /\
    metadata doc !! py "content" = None /\
    metadata doc !! py "question" = Some q /\
    metadata doc !! py "document_type" = Some (py "Generated Q&A") /\
    similarity_score doc = 1%Q /\
    stored_answer doc = a /\
    GraphNodes.cached_answer (doc :: rest) = Some a.
Proof.
  assert (H1 : Scenario.question <> []) by discriminate.
  assert (H2 : Scenario.ingest_answer <> []) by discriminate.
  assert (H3 : generate_embedding Scenario.ingest_env Scenario.question = Ok [1%Q])
    by reflexivity.
  assert (H4 : duplicate_seen Scenario.ingest_env (default Retriever.DEDUP_THRESHOLD None)
                 (collection (Scenario.store_of [])) [1%Q] = false) by reflexivity.
  assert (H5 : upsert_ok Scenario.ingest_env (collection (Scenario.store_of []))
                 (mkPoint (ingest_point Scenario.ingest_env (Scenario.store_of []) [1%Q]
                             Scenario.question Scenario.ingest_answer)
                    [1%Q] (Retriever.qa_payload Scenario.question Scenario.ingest_answer))
               = true) by reflexivity.
  assert (H6 : process_query Scenario.ingest_env Scenario.question
               = Ok (mkProcessed Scenario.question Scenario.question)) by reflexivity.
  assert (H7 : generate_embedding Scenario.ingest_env
                 (if Py.truthy (keyword_query (mkProcessed Scenario.question Scenario.question))
                  then keyword_query (mkProcessed Scenario.question Scenario.question)
                  else normalized (mkProcessed Scenario.question Scenario.question))
               = Ok [1%Q]) by reflexivity.
  assert (H8 : query_points Scenario.ingest_env
                 (Retriever.upsert_point
                    (mkPoint (ingest_point Scenario.ingest_env (Scenario.store_of []) [1%Q]
                                Scenario.question Scenario.ingest_answer)
                       [1%Q] (Retriever.qa_payload Scenario.question Scenario.ingest_answer))
                    (collection (Scenario.store_of [])))
                 [1%Q] (Retriever.top_k (Retriever.mk 5)) None
               = Ok [mkScored
                       (pt_payload
                          (mkPoint (ingest_point Scenario.ingest_env (Scenario.store_of [])
                                      [1%Q] Scenario.question Scenario.ingest_answer)
                             [1%Q]
                             (Retriever.qa_payload Scenario.question Scenario.ingest_answer)))
                       1%Q]) by reflexivity.
  assert (H9 : ((90 # 100) <= 1)%Q) by (unfold Qle; simpl; lia).
  split; [exact H1 |]. split; [exact H2 |]. split; [exact H3 |]. split; [exact H4 |].
  split; [exact H5 |]. split; [exact H6 |]. split; [exact H7 |]. split; [exact H8 |].
  split; [exact H9 |].
  exact (ingested_pair_is_cache_hit Scenario.ingest_env (Retriever.mk 5)
           Scenario.question Scenario.ingest_answer None (Scenario.store_of []) [1%Q]
           Scenario.question (mkProcessed Scenario.question Scenario.question) [1%Q] 1%Q []
           H1 H2 H3 H4 H5 H1 H6 H7 H8 H9).
Defined.

(** X9: for a non-empty pair, [ingest_qa_pair] never raises and leaves
    the memory alone.  It returns [False] with the collection unchanged
    when the embedding fails; [True] with the collection unchanged when
    the duplicate check sees a duplicate; otherwise it upserts one point
    carrying the pair and returns [True], or returns [False] with the
    collection unchanged when the upsert fails. *)
Theorem ingest_outcome (env : Env) (self : Retriever.t) (q a : list N)
    (thr : option Q) (st : Store) :
  q <> [] -> a <> [] ->
  exists (b : bool) (st' : Store),
    Retriever.ingest_qa_pair env self q a thr st = (Ok b, st') /\
    memory st' = memory st /\
    match generate_embedding env q with
    | Raise => b = false /\ collection st' = collection st
    | Ok v =>
        if duplicate_seen env (default Retriever.DEDUP_THRESHOLD thr) (collection st) v
        then b = true /\ collection st' = collection st
        else
          let p := mkPoint (ingest_point env st v q a) v (Retriever.qa_payload q a) in
          if upsert_ok env (collection st) p
          then b = true /\ collection st' = Retriever.upsert_point p (collection st)
          else b = false /\ collection st' = collection st
    end.
Proof.
  intros Hq Ha. apply truthy_true in Hq, Ha.
  unfold Retriever.ingest_qa_pair, Retriever.embed, Retriever.search, Retriever.upsert,
    duplicate_seen, ingest_point.
  run_m. rewrite Hq, Ha. simpl. run_m.
  destruct (generate_embedding env q) as [v |]; simpl; [| eauto 10].
  destruct (query_points env (collection st) v 5 (Some Retriever.qa_filter))
    as [results |]; simpl.
  - destruct (Retriever.duplicate_found _ results); simpl; [eauto 10 |].
    rewrite !length_app. simpl.
    replace (length (calls st) + 1 + 1 + 1)%nat with (length (calls st) + 3)%nat by lia.
    destruct (upsert_ok env (collection st) _); simpl; eauto 10.
  - rewrite !length_app. simpl.
    replace (length (calls st) + 1 + 1 + 1)%nat with (length (calls st) + 3)%nat by lia.
    destruct (upsert_ok env (collection st) _); simpl; eauto 10.
Qed.

Lemma ingest_outcome_witness :
  Scenario.question <> [] /\
  Scenario.ingest_answer <> [] /\
  exists (b : bool) (st' : Store),
    Retriever.ingest_qa_pair Scenario.ingest_env (Retriever.mk 5)
      Scenario.question Scenario.ingest_answer None (Scenario.store_of [])
    = (Ok b, st') /\
    memory st' = memory (Scenario.store_of []) /\
    match generate_embedding Scenario.ingest_env Scenario.question with
    | Raise => b = false /\ collection st' = collection (Scenario.store_of [])
    | Ok v =>
        if duplicate_seen Scenario.ingest_env (default Retriever.DEDUP_THRESHOLD None)
             (collection (Scenario.store_of [])) v
        then b = true /\ collection st' = collection (Scenario.store_of [])
        else
          let p := mkPoint (ingest_point Scenario.ingest_env (Scenario.store_of []) v
                              Scenario.question Scenario.ingest_answer)
                     v (Retriever.qa_payload Scenario.question Scenario.ingest_answer) in
          if upsert_ok Scenario.ingest_env (collection (Scenario.store_of [])) p
          then b = true
               /\ collection st' = Retriever.upsert_point p (collection (Scenario.store_of []))
          else b = false /\ collection st' = collection (Scenario.store_of [])
    end.
Proof.
  assert (H1 : Scenario.question <> []) by discriminate.
  assert (H2 : Scenario.ingest_answer <> []) by discriminate.
  split; [exact H1 |]. split; [exact H2 |].
  exact (ingest_outcome Scenario.ingest_env (Retriever.mk 5)
           Scenario.question Scenario.ingest_answer None (Scenario.store_of []) H1 H2).
Defined.

(** X10: when the duplicate check itself raises, the pair is ingested all
    the same: with a working embedding and an index that accepts the
    write, the call returns [True] and the collection holds a point with
    the question's embedding and the pair as payload. *)
Theorem ingest_despite_failed_check (env : Env) (self : Retriever.t) (q a : list N)
    (thr : option Q) (st : Store) (v : list Q) :
  q <> [] -> a <> [] ->
  generate_embedding env q = Ok v ->
  query_points env (collection st) v 5 (Some Retriever.qa_filter) = Raise ->
  (forall p, upsert_ok env (collection st) p = true) ->
  exists (st' : Store) (p : Point),
    Retriever.ingest_qa_pair env self q a thr st = (Ok true, st') /\
    In p (collection st') /\
    pt_vector p = v /\
    pt_payload p = Retriever.qa_payload q a /\
    writes (new_calls st st') = 1%nat.
Proof.
  intros Hq Ha Hv Hs Hup. apply truthy_true in Hq, Ha.
  unfold Retriever.ingest_qa_pair, Retriever.embed, Retriever.search, Retriever.upsert.
  run_m. rewrite Hq, Ha. simpl. run_m. rewrite Hv. simpl. rewrite Hs. simpl.
  rewrite Hup. simpl.
  eexists. eexists. split; [reflexivity |]. simpl.
  split; [apply upsert_point_in |]. split; [reflexivity |]. split; [reflexivity |].
  rewrite <- !app_assoc. rewrite new_calls_add. reflexivity.
Qed.

Lemma ingest_despite_failed_check_witness :
  Scenario.question <> [] /\
  Scenario.ingest_answer <> [] /\
  generate_embedding Cases.check_fails_env Scenario.question = Ok [1%Q] /\
  query_points Cases.check_fails_env (collection (Scenario.store_of [])) [1%Q] 5
    (Some Retriever.qa_filter) = Raise /\
  (forall p, upsert_ok Cases.check_fails_env (collection (Scenario.store_of [])) p = true) /\
  exists (st' : Store) (p : Point),
    Retriever.ingest_qa_pair Cases.check_fails_env (Retriever.mk 5)
      Scenario.question Scenario.ingest_answer None (Scenario.store_of [])
    = (Ok true, st') /\
    In p (collection st') /\
    pt_vector p = [1%Q] /\
    pt_payload p = Retriever.qa_payload Scenario.question Scenario.ingest_answer /\
    writes (new_calls (Scenario.store_of []) st') = 1%nat.
Proof.
  assert (H1 : Scenario.question <> []) by discriminate.
  assert (H2 : Scenario.ingest_answer <> []) by discriminate.
  assert (H3 : generate_embedding Cases.check_fails_env Scenario.question = Ok [1%Q])
    by reflexivity.
  assert (H4 : query_points Cases.check_fails_env (collection (Scenario.store_of []))
                 [1%Q] 5 (Some Retriever.qa_filter) = Raise) by reflexivity.
  assert (H5 : forall p,
             upsert_ok Cases.check_fails_env (collection (Scenario.store_of [])) p = true)
    by (intros p; reflexivity).
  split_and!; try assumption.
  exact (ingest_despite_failed_check Cases.check_fails_env (Retriever.mk 5)
           Scenario.question Scenario.ingest_answer None (Scenario.store_of [])
           [1%Q] H1 H2 H3 H4 H5).
Defined.

(** X11: when preprocessing, embedding and search all succeed, [retrieve]
    returns one document per hit, in the order and with the scores the
    index gave; no document's metadata has the key [content]; the three
    collaborators are each called once, in that order. *)
Theorem retrieve_success_shape (env : Env) (self : Retriever.t) (q : list N)
    (top_k : option Z) (filter_by : option (list (list N * list N))) (st : Store)
    (p : Processed) (v : list Q) (hits : list ScoredPoint) :
  q <> [] ->
  process_query env q = Ok p ->
  generate_embedding env
    (if Py.truthy (keyword_query p) then keyword_query p else normalized p) = Ok v ->
  query_points env (collection st) v (default (Retriever.top_k self) top_k)
    match filter_by with
    | Some (_ :: _ as conditions) => Some conditions
    | _ => None
    end = Ok hits ->
  exists (docs : list Doc) (st' : Store),
    Retriever.retrieve env self q top_k filter_by st = (Ok docs, st') /\
    length docs = length hits /\
    map similarity_score docs = map sp_score hits /\
    Forall (fun d => metadata d !! py "content" = None) docs /\
    new_calls st st'
    = [CallPreprocess q;
       CallEmbed (if Py.truthy (keyword_query p) then keyword_query p else normalized p);
       CallSearch v (default (Retriever.top_k self) top_k)
         match filter_by with
         | Some (_ :: _ as conditions) => Some conditions
         | _ => None
         end].
Proof.
  intros Hq Hp Hv Hs. apply truthy_true in Hq.
  unfold Retriever.retrieve, Retriever.preprocess, Retriever.embed, Retriever.search.
  rewrite Hq. simpl. run_m. rewrite Hp. simpl. rewrite Hv. simpl. rewrite Hs. simpl.
  eexists. eexists. split; [reflexivity |].
  split; [apply length_map |].
  split; [rewrite map_map; reflexivity |].
  split.
  - apply List.Forall_forall. intros d Hd. apply in_map_iff in Hd.
    destruct Hd as (hit & <- & _). unfold Retriever.format_result. simpl.
    apply lookup_delete_eq.
  - rewrite <- !app_assoc. apply new_calls_add.
Qed.

Lemma retrieve_success_shape_witness :
  Scenario.question <> [] /\
  process_query Scenario.low_env Scenario.question
  = Ok (mkProcessed Scenario.question Scenario.question) /\
  generate_embedding Scenario.low_env Scenario.question = Ok [1%Q] /\
  query_points Scenario.low_env (collection (Scenario.store_of [Scenario.curated_point]))
    [1%Q] (default (Retriever.top_k (Retriever.mk 5)) None) None
  = Ok [mkScored (pt_payload Scenario.curated_point) (25 # 100)%Q] /\
  exists (docs : list Doc) (st' : Store),
    Retriever.retrieve Scenario.low_env (Retriever.mk 5) Scenario.question None None
      (Scenario.store_of [Scenario.curated_point]) = (Ok docs, st') /\
    length docs = length [mkScored (pt_payload Scenario.curated_point) (25 # 100)%Q] /\
    map similarity_score docs
    = map sp_score [mkScored (pt_payload Scenario.curated_point) (25 # 100)%Q] /\
    Forall (fun d => metadata d !! py "content" = None) docs /\
    new_calls (Scenario.store_of [Scenario.curated_point]) st'
    = [CallPreprocess Scenario.question; CallEmbed Scenario.question;
       CallSearch [1%Q] (default (Retriever.top_k (Retriever.mk 5)) None) None].
Proof.
  assert (H1 : Scenario.question <> []) by discriminate.
  assert (H2 : process_query Scenario.low_env Scenario.question
               = Ok (mkProcessed Scenario.question Scenario.question)) by reflexivity.
  assert (H3 : generate_embedding Scenario.low_env Scenario.question = Ok [1%Q])
    by reflexivity.
  assert (H4 : query_points Scenario.low_env
                 (collection (Scenario.store_of [Scenario.curated_point]))
                 [1%Q] (default (Retriever.top_k (Retriever.mk 5)) None) None
               = Ok [mkScored (pt_payload Scenario.curated_point) (25 # 100)%Q])
    by reflexivity.
  split_and!; try assumption.
  exact (retrieve_success_shape Scenario.low_env (Retriever.mk 5) Scenario.question
           None None (Scenario.store_of [Scenario.curated_point])
           (mkProcessed Scenario.question Scenario.question) [1%Q]
           [mkScored (pt_payload Scenario.curated_point) (25 # 100)%Q] H1 H2 H3 H4).
Defined.

(** ** Stripping *)

Lemma lstrip_suffix (s : list N) : exists a, s = a ++ Py.lstrip s.
Proof.
  induction s as [| c s [a IH]]; [exists []; reflexivity |].
  simpl. destruct (Py.isspace c).
  - exists (c :: a). simpl. f_equal. exact IH.
  - exists []. reflexivity.
Qed.

Lemma lstrip_fixed (s : list N) :
  Py.lstrip s = s <-> match s with [] => True | c :: _ => Py.isspace c = false end.
Proof.
  destruct s as [| c s]; simpl; [tauto |].
  destruct (Py.isspace c) eqn:Hc; split; try tauto; try discriminate.
  intros Heq. destruct (lstrip_suffix s) as [a Ha].
  rewrite Heq in Ha. apply (f_equal (@length N)) in Ha.
  rewrite length_app in Ha. simpl in Ha. lia.
Qed.

Lemma lstrip_lstrip (s : list N) : Py.lstrip (Py.lstrip s) = Py.lstrip s.
Proof.
  induction s as [| c s IH]; [reflexivity |].
  simpl. destruct (Py.isspace c) eqn:Hc; [exact IH |]. simpl. rewrite Hc. reflexivity.
Qed.

Lemma rstrip_rstrip (s : list N) : Py.rstrip (Py.rstrip s) = Py.rstrip s.
Proof. unfold Py.rstrip. rewrite rev_involutive, lstrip_lstrip. reflexivity. Qed.

Lemma lstrip_snoc (l : list N) (c : N) :
  Py.isspace c = false -> Py.lstrip (l ++ [c]) = Py.lstrip l ++ [c].
Proof.
  intros Hc. induction l as [| a l IH]; simpl; [rewrite Hc; reflexivity |].
  destruct (Py.isspace a); [exact IH | reflexivity].
Qed.

Lemma rstrip_prefix (s : list N) : exists b, s = Py.rstrip s ++ b.
Proof.
  unfold Py.rstrip. destruct (lstrip_suffix (rev s)) as [a Ha].
  exists (rev a). rewrite <- rev_app_distr, <- Ha, rev_involutive. reflexivity.
Qed.

(** Stripping on the right keeps a clean left end. *)
Lemma lstrip_rstrip_fixed (y : list N) :
  Py.lstrip y = y -> Py.lstrip (Py.rstrip y) = Py.rstrip y.
Proof.
  intros Hy. apply lstrip_fixed in Hy. apply lstrip_fixed.
  destruct y as [| c t]; [exact I |].
  unfold Py.rstrip. simpl. rewrite lstrip_snoc by exact Hy.
  rewrite rev_app_distr. simpl. exact Hy.
Qed.

Lemma strip_strip (s : list N) : Py.strip (Py.strip s) = Py.strip s.
Proof.
  unfold Py.strip.
  rewrite (lstrip_rstrip_fixed (Py.lstrip s)) by apply lstrip_lstrip.
  apply rstrip_rstrip.
Qed.

Lemma strip_infix (s : list N) : exists a b, s = a ++ Py.strip s ++ b.
Proof.
  unfold Py.strip. destruct (lstrip_suffix s) as [a Ha].
  destruct (rstrip_prefix (Py.lstrip s)) as [b Hb].
  exists a, b. rewrite <- Hb. exact Ha.
Qed.

(** ** Gemini client: every outcome yields a tidy text *)

(** X12: [_call_api] never raises and makes exactly one request; for
    every outcome of the exchange the text it returns is non-empty and has
    no whitespace at either end. *)
Theorem call_api_always_answers (env : Env) (prompt : list N) (st : Store) :
  exists text,
    GeminiLLM._call_api env prompt st = (Ok text, add_calls st [CallGenerate prompt]) /\
    text <> [] /\
    Py.strip text = text.
Proof.
  unfold GeminiLLM._call_api. run_m.
  exists (GeminiLLM.response_text (http_post env prompt)).
  split; [reflexivity |]. split; [apply response_text_nonempty |].
  destruct (http_post env prompt) as [| | | | status result]; try reflexivity.
  unfold GeminiLLM.response_text.
  destruct (negb (status =? 200)); [reflexivity |].
  destruct result as [| [[| candidate rest] |]]; try reflexivity.
  destruct (cand_content candidate) as [content |]; [| reflexivity].
  destruct (parts content) as [[| part rest'] |]; try reflexivity.
  - cbv zeta. destruct (negb (Py.truthy (Py.strip (default [] (text part)))));
      [reflexivity | apply strip_strip].
  - cbv zeta. repeat case_decide; reflexivity.
Qed.

(** ** Sanitation: what it guarantees and what it leaves alone *)

Lemma has_blank_run_tail (c : N) (s : list N) :
  Clean.has_blank_run (c :: s) = false -> Clean.has_blank_run s = false.
Proof.
  destruct s as [| b [| d s]]; try reflexivity.
  intros H. change (Clean.has_blank_run (c :: b :: d :: s))
    with (((c =? Py.LF) && (b =? Py.LF) && (d =? Py.LF))%N
          || Clean.has_blank_run (b :: d :: s)) in H.
  apply orb_false_iff in H. apply H.
Qed.

Lemma has_blank_run_suffix (a s : list N) :
  Clean.has_blank_run (a ++ s) = false -> Clean.has_blank_run s = false.
Proof.
  induction a as [| c a IH]; [auto |].
  intros H. apply IH. apply (has_blank_run_tail c). exact H.
Qed.

Lemma has_blank_run_prefix (s b : list N) :
  Clean.has_blank_run (s ++ b) = false -> Clean.has_blank_run s = false.
Proof.
  revert b. induction s as [| x s IH]; intros b H; [reflexivity |].
  destruct s as [| y [| z s]]; try reflexivity.
  change (Clean.has_blank_run ((x :: y :: z :: s) ++ b))
    with (((x =? Py.LF) && (y =? Py.LF) && (z =? Py.LF))%N
          || Clean.has_blank_run ((y :: z :: s) ++ b)) in H.
  change (Clean.has_blank_run (x :: y :: z :: s))
    with (((x =? Py.LF) && (y =? Py.LF) && (z =? Py.LF))%N
          || Clean.has_blank_run (y :: z :: s)).
  apply orb_false_iff in H. destruct H as [H1 H2].
  rewrite H1. simpl. apply (IH b). exact H2.
Qed.

Lemma has_blank_run_strip (s : list N) :
  Clean.has_blank_run s = false -> Clean.has_blank_run (Py.strip s) = false.
Proof.
  intros H. destruct (strip_infix s) as (a & b & Hs). rewrite Hs in H.
  apply has_blank_run_suffix in H. apply has_blank_run_prefix in H. exact H.
Qed.

Lemma has_blank_run_skip1 (c : N) (s : list N) :
  (c =? Py.LF)%N = false -> Clean.has_blank_run (c :: s) = Clean.has_blank_run s.
Proof.
  intros Hc. destruct s as [| b [| d s]]; try reflexivity.
  change (Clean.has_blank_run (c :: b :: d :: s))
    with (((c =? Py.LF) && (b =? Py.LF) && (d =? Py.LF))%N
          || Clean.has_blank_run (b :: d :: s)).
  rewrite Hc. reflexivity.
Qed.

Lemma has_blank_run_skip2 (x c : N) (s : list N) :
  (c =? Py.LF)%N = false -> Clean.has_blank_run (x :: c :: s) = Clean.has_blank_run s.
Proof.
  intros Hc. destruct s as [| d s]; [reflexivity |].
  change (Clean.has_blank_run (x :: c :: d :: s))
    with (((x =? Py.LF) && (c =? Py.LF) && (d =? Py.LF))%N
          || Clean.has_blank_run (c :: d :: s)).
  rewrite Hc, andb_false_r. cbn [orb]. apply has_blank_run_skip1. exact Hc.
Qed.

Lemma has_blank_run_skip3 (x y c : N) (s : list N) :
  (c =? Py.LF)%N = false -> Clean.has_blank_run (x :: y :: c :: s) = Clean.has_blank_run s.
Proof.
  intros Hc.
  change (Clean.has_blank_run (x :: y :: c :: s))
    with (((x =? Py.LF) && (y =? Py.LF) && (c =? Py.LF))%N
          || Clean.has_blank_run (y :: c :: s)).
  rewrite Hc, andb_false_r. cbn [orb]. apply has_blank_run_skip2. exact Hc.
Qed.

(** The output of the collapse, after the newlines (at most two) that end
    what was written before it, has no run of three newlines. *)
Lemma collapse_no_blank_run (s : list N) : forall run : nat,
  Clean.has_blank_run (repeat Py.LF (Nat.min run 2) ++ Clean.collapse_newlines run s)
  = false.
Proof.
  induction s as [| c s IH]; intros run.
  - cbn [Clean.collapse_newlines]. rewrite app_nil_r.
    destruct (Nat.min run 2) as [| [| [| n]]] eqn:Hmin; try reflexivity. lia.
  - cbn [Clean.collapse_newlines]. destruct (N.eqb_spec c Py.LF) as [-> | Hc].
    + destruct (Nat.ltb_spec run 2) as [Hlt | Hge].
      * specialize (IH (S run)).
        destruct run as [| [| run]]; [exact IH | exact IH | lia].
      * specialize (IH (S run)).
        replace (Nat.min run 2) with 2%nat by lia.
        replace (Nat.min (S run) 2) with 2%nat in IH by lia. exact IH.
    + specialize (IH O). cbn [Nat.min repeat app] in IH.
      assert (Hc' : (c =? Py.LF)%N = false) by (apply N.eqb_neq; exact Hc).
      destruct (Nat.min run 2) as [| [| [| n]]] eqn:Hmin; cbn [repeat app].
      * rewrite has_blank_run_skip1 by exact Hc'. exact IH.
      * rewrite has_blank_run_skip2 by exact Hc'. exact IH.
      * rewrite has_blank_run_skip3 by exact Hc'. exact IH.
      * lia.
Qed.

(** X13: whatever the response, the sanitised text has no whitespace at
    either end and no run of three newlines. *)
Theorem clean_response_is_tidy (env : Env) (response : list N) :
  exists cleaned,
    Clean._clean_response env (Some response) = Some cleaned /\
    Py.strip cleaned = cleaned /\
    Clean.has_blank_run cleaned = false.
Proof.
  destruct response as [| c response].
  - exists []. split_and!; reflexivity.
  - unfold Clean._clean_response. eexists. split; [reflexivity |].
    split; [apply strip_strip |].
    apply has_blank_run_strip. apply (collapse_no_blank_run _ O).
Qed.

(** ** What a query leaves in the conversation memory *)

Lemma memory_node_effect (env : Env) (state : ChatbotState) (st : Store) :
  query state <> [] ->
  exists ops,
    GraphNodes.memory_node env state st
    = (Ok state,
       mkStore (collection st)
         (if Py.truthy (default [] (answer state))
          then
            let n := redis_ops st in
            Memory.add_message
              (Memory.add_message (memory st) (redis_ok env n) (redis_ok env (S n))
                 (user_id state) (session_id state) (py "user") (query state)
                 (utcnow env n))
              (redis_ok env (n + 2)%nat) (redis_ok env (S (n + 2)))
              (user_id state) (session_id state) (py "assistant")
              (default [] (answer state)) (utcnow env (n + 2)%nat)
          else memory st)
         (calls st) ops).
Proof.
  intros Hq. apply truthy_true in Hq.
  unfold GraphNodes.memory_node, GraphNodes.add_message. rewrite Hq. simpl.
  destruct (Py.truthy (default [] (answer state))).
  - run_m. eauto.
  - exists (redis_ops st). unfold ret. destruct st; reflexivity.
Qed.

(** The answer node: which text becomes the answer, which prompts go to
    the generative model and how the ingestor is invoked. *)
Lemma rag_answer_branches (env : Env) (nodes : GraphNodes.t) (state : ChatbotState)
    (st : Store) :
  let external_prompt :=
    GeminiLLM.response_prompt env (query state) (formatted_history state) in
  let context_prompt :=
    GeminiLLM.rag_prompt env (Retriever.format_retrieved_context (filtered_docs state))
      (query state) (formatted_history state) in
  let raw :=
    if retrieval_valid state
    then match GraphNodes.cached_answer (filtered_docs state) with
         | Some cached => cached
         | None => GeminiLLM.response_text (http_post env context_prompt)
         end
    else GeminiLLM.response_text (http_post env external_prompt) in
  exists col cs,
    GraphNodes.rag_answer_node env nodes state st
    = (Ok (set_answer state raw), mkStore col (memory st) (calls st ++ cs) (redis_ops st)) /\
    generated_prompts cs
    = (if retrieval_valid state
       then match GraphNodes.cached_answer (filtered_docs state) with
            | Some _ => []
            | None => [context_prompt]
            end
       else [external_prompt]) /\
    ingest_invocations cs
    = (if retrieval_valid state then [] else [(query state, raw)]).
Proof.
  intros external_prompt context_prompt raw. subst raw.
  unfold GraphNodes.rag_answer_node.
  destruct (retrieval_valid state); cbn [negb].
  - destruct (GraphNodes.cached_answer (filtered_docs state)) as [cached |].
    + exists (collection st), []. unfold ret. rewrite app_nil_r.
      split; [destruct st; reflexivity | split; reflexivity].
    + unfold GeminiLLM.generate_rag_answer, GeminiLLM._call_api. run_m.
      fold context_prompt.
      exists (collection st), [CallGenerate context_prompt].
      split; [reflexivity | split; reflexivity].
  - destruct (external_knowledge_run env nodes state st) as (col & cs & Hrun & Hp & Hi).
    cbv zeta in Hrun. fold external_prompt in Hrun. rewrite Hrun.
    eexists col, _. split; [reflexivity |].
    cbn [generated_prompts ingest_invocations omap]. 
    change (generated_prompts (CallGenerate external_prompt :: EnterIngest (query state) _ :: cs))
      with (external_prompt :: generated_prompts cs).
    rewrite Hp. split; [reflexivity |].
    change (ingest_invocations (CallGenerate external_prompt :: EnterIngest (query state)
              (GeminiLLM.response_text (http_post env external_prompt)) :: cs))
      with ((query state, GeminiLLM.response_text (http_post env external_prompt))
            :: ingest_invocations cs).
    rewrite Hi. reflexivity.
Qed.

(** The whole run of an accepted query: the answer before sanitation, what
    is returned, what is recorded in the memory, which prompts are sent to
    the generative model and how the ingestor is invoked. *)
Lemma query_run (env : Env) (q u s : list N) (st : Store) (docs : list Doc) :
  accepted q u s ->
  fst (Retriever.retrieve env (GraphNodes.retriever RAGChatbot.nodes) q None None st) = Ok docs ->
  let validator := GraphNodes.score_threshold RAGChatbot.nodes in
  let valid := ScoreThreshold.validate_retrieval validator docs in
  let filtered := ScoreThreshold.filter_by_threshold validator docs in
  let history :=
    Memory.get_formatted_history (memory st) (redis_ok env (S (redis_ops st))) u s in
  let external_prompt := GeminiLLM.response_prompt env q history in
  let context_prompt :=
    GeminiLLM.rag_prompt env (Retriever.format_retrieved_context filtered) q history in
  let raw :=
    if valid
    then match GraphNodes.cached_answer filtered with
         | Some cached => cached
         | None => GeminiLLM.response_text (http_post env context_prompt)
         end
    else GeminiLLM.response_text (http_post env external_prompt) in
  exists st',
    RAGChatbot.query env q u s st = (Ok (Clean._clean_response env (Some raw)), st') /\
    memory st'
    = (if Py.truthy raw
       then
         let n := redis_ops st in
         Memory.add_message
           (Memory.add_message (memory st)
              (redis_ok env (n + 2)%nat) (redis_ok env (n + 3)%nat)
              u s (py "user") q (utcnow env (n + 2)%nat))
           (redis_ok env (n + 4)%nat) (redis_ok env (n + 5)%nat)
           u s (py "assistant") raw (utcnow env (n + 4)%nat)
       else memory st) /\
    generated_prompts (new_calls st st')
    = (if valid
       then match GraphNodes.cached_answer filtered with
            | Some _ => []
            | None => [context_prompt]
            end
       else [external_prompt]) /\
    ingest_invocations (new_calls st st') = (if valid then [] else [(q, raw)]).
Proof.
  intros Hacc Hdocs validator valid filtered history external_prompt context_prompt raw.
  assert (Hq : q <> []) by (intros ->; destruct Hacc as [H _]; apply H; reflexivity).
  rewrite accepted_query by exact Hacc.
  unfold ChatbotGraph.execute, ChatbotGraph.get_history, ChatbotGraph.get_formatted_history.
  run_m. fold history.
  unfold ChatbotGraph.invoke, GraphNodes.route_node, GraphNodes.retrieve_node. run_m.
  destruct (retrieve_frame env (GraphNodes.retriever RAGChatbot.nodes) q None None st
              (mkStore (collection st) (memory st) (calls st) (S (S (redis_ops st))))
              eq_refl)
    as (docs' & cs & Hrun & Hrun' & Hp & Hi).
  rewrite Hrun in Hdocs. simpl in Hdocs. injection Hdocs as ->.
  change (Retriever.mk Settings.TOP_K_RESULTS) with (GraphNodes.retriever RAGChatbot.nodes).
  rewrite Hrun'. simpl.
  unfold GraphNodes.validate_node.
  subst raw context_prompt external_prompt filtered valid validator.
  cbn [GraphNodes.score_threshold RAGChatbot.nodes retrieved_docs set_retrieved_docs
       set_routing].
  destruct (ScoreThreshold.validate_retrieval _ docs) eqn:Hvalid;
    unfold ret at 1; cbv beta iota;
    match goal with
    | |- context [GraphNodes.rag_answer_node env ?n ?state ?st0] =>
        destruct (rag_answer_branches env n state st0) as (col & cs2 & Hans & Hp2 & Hi2)
    end;
    cbn [retrieval_valid filtered_docs query formatted_history set_validation
         set_retrieved_docs set_routing memory calls collection redis_ops add_calls]
      in Hans, Hp2, Hi2;
    rewrite Hans; cbv beta iota;
    match goal with
    | |- context [GraphNodes.memory_node env ?state ?st0] =>
        destruct (memory_node_effect env state st0 Hq) as (ops & Hmem)
    end;
    cbn [answer query user_id session_id set_answer set_validation set_retrieved_docs
         set_routing memory calls collection redis_ops default] in Hmem;
    rewrite Hmem; cbv beta iota; cbn [answer set_answer]; unfold id;
    (eexists; split; [reflexivity |]; cbn [memory]; split;
     [ match goal with
       | |- context [Py.truthy ?r] => destruct (Py.truthy r); [| reflexivity]
       end; cbv zeta;
       replace (S (S (S (redis_ops st)) + 2)) with (redis_ops st + 5)%nat by lia;
       replace (S (S (redis_ops st)) + 2)%nat with (redis_ops st + 4)%nat by lia;
       replace (S (S (S (redis_ops st)))) with (redis_ops st + 3)%nat by lia;
       replace (S (S (redis_ops st))) with (redis_ops st + 2)%nat by lia;
       reflexivity
     | rewrite <- app_assoc, new_calls_add, generated_prompts_app, ingest_invocations_app,
         Hp, Hi, Hp2, Hi2; split; reflexivity ]).
Qed.

(** X14: every accepted query returns, and what it leaves in the
    conversation memory is the answer as the answer node set it, before
    sanitation: the stored answer of the cache hit, or the text of the
    generative model for the prompt with the retrieved context, or, when
    no document reaches the validator's threshold, the text of the model
    for the prompt without context.  When that text is not empty, the
    question and that unsanitised text are appended as a user and an
    assistant message (after the two reads of [execute]); when it is
    empty, nothing is recorded, not even the question.  The caller
    receives the sanitised text. *)
Theorem query_records_exchange (env : Env) (q u s : list N) (st : Store)
    (docs : list Doc) :
  accepted q u s ->
  fst (Retriever.retrieve env (GraphNodes.retriever RAGChatbot.nodes) q None None st) = Ok docs ->
  let validator := GraphNodes.score_threshold RAGChatbot.nodes in
  let filtered := ScoreThreshold.filter_by_threshold validator docs in
  let history :=
    Memory.get_formatted_history (memory st) (redis_ok env (S (redis_ops st))) u s in
  let raw :=
    if ScoreThreshold.validate_retrieval validator docs
    then match GraphNodes.cached_answer filtered with
         | Some cached => cached
         | None =>
             GeminiLLM.response_text
               (http_post env
                  (GeminiLLM.rag_prompt env (Retriever.format_retrieved_context filtered)
                     q history))
         end
    else GeminiLLM.response_text (http_post env (GeminiLLM.response_prompt env q history)) in
  exists st',
    RAGChatbot.query env q u s st = (Ok (Clean._clean_response env (Some raw)), st') /\
    memory st'
    = if Py.truthy raw
      then
        let n := redis_ops st in
        Memory.add_message
          (Memory.add_message (memory st)
             (redis_ok env (n + 2)%nat) (redis_ok env (n + 3)%nat)
             u s (py "user") q (utcnow env (n + 2)%nat))
          (redis_ok env (n + 4)%nat) (redis_ok env (n + 5)%nat)
          u s (py "assistant") raw (utcnow env (n + 4)%nat)
      else memory st.
Proof.
  intros Hacc Hdocs validator filtered history raw.
  destruct (query_run env q u s st docs Hacc Hdocs) as (st' & Hrun & Hmem & _).
  exists st'. split; [exact Hrun | exact Hmem].
Qed.

(** The cached pair whose stored answer carries a label line: the
    labelled text is what the memory records. *)
Lemma query_records_exchange_witness :
  accepted Scenario.question Scenario.user Scenario.session /\
  fst (Retriever.retrieve Scenario.cache_env (GraphNodes.retriever RAGChatbot.nodes)
         Scenario.question None None (Scenario.store_of [Scenario.cached_point]))
  = Ok [Scenario.cached_doc] /\
  let env := Scenario.cache_env in
  let st := Scenario.store_of [Scenario.cached_point] in
  let validator := GraphNodes.score_threshold RAGChatbot.nodes in
  let filtered := ScoreThreshold.filter_by_threshold validator [Scenario.cached_doc] in
  let history :=
    Memory.get_formatted_history (memory st) (redis_ok env (S (redis_ops st)))
      Scenario.user Scenario.session in
  let raw :=
    if ScoreThreshold.validate_retrieval validator [Scenario.cached_doc]
    then match GraphNodes.cached_answer filtered with
         | Some cached => cached
         | None =>
             GeminiLLM.response_text
               (http_post env
                  (GeminiLLM.rag_prompt env (Retriever.format_retrieved_context filtered)
                     Scenario.question history))
         end
    else GeminiLLM.response_text
           (http_post env (GeminiLLM.response_prompt env Scenario.question history)) in
  exists st',
    RAGChatbot.query env Scenario.question Scenario.user Scenario.session st
    = (Ok (Clean._clean_response env (Some raw)), st') /\
    memory st'
    = if Py.truthy raw
      then
        let n := redis_ops st in
        Memory.add_message
          (Memory.add_message (memory st)
             (redis_ok env (n + 2)%nat) (redis_ok env (n + 3)%nat)
             Scenario.user Scenario.session (py "user") Scenario.question
             (utcnow env (n + 2)%nat))
          (redis_ok env (n + 4)%nat) (redis_ok env (n + 5)%nat)
          Scenario.user Scenario.session (py "assistant") raw (utcnow env (n + 4)%nat)
      else memory st.
Proof.
  assert (H1 : accepted Scenario.question Scenario.user Scenario.session)
    by (unfold accepted; split_and!; discriminate).
  assert (H2 : fst (Retriever.retrieve Scenario.cache_env
                      (GraphNodes.retriever RAGChatbot.nodes)
                      Scenario.question None None
                      (Scenario.store_of [Scenario.cached_point]))
               = Ok [Scenario.cached_doc]) by (vm_compute; reflexivity).
  split; [exact H1 |]. split; [exact H2 |].
  exact (query_records_exchange Scenario.cache_env Scenario.question Scenario.user
           Scenario.session (Scenario.store_of [Scenario.cached_point])
           [Scenario.cached_doc] H1 H2).
Defined.

(** In that run the caller receives the answer without its label line,
    while the last message of the session's history is the labelled
    answer as stored. *)
Lemma memory_keeps_unsanitised_answer :
  let run :=
    RAGChatbot.query Scenario.cache_env Scenario.question Scenario.user Scenario.session
      (Scenario.store_of [Scenario.cached_point]) in
  fst run = Ok (Some Scenario.sanitised_answer) /\
  last (Memory.get_history (memory (snd run)) true Scenario.user Scenario.session)
  = Some (Memory.mkTurn (py "assistant") Scenario.labelled_answer) /\
  Scenario.labelled_answer <> Scenario.sanitised_answer.
Proof. split_and!; [vm_compute; reflexivity | vm_compute; reflexivity | discriminate]. Qed.

(** ** Sanitation: text it returns unchanged *)

Lemma split_head (sep : N) (s : list N) :
  exists piece rest b, Py.split sep s = piece :: rest /\ s = piece ++ b.
Proof.
  induction s as [| c s (piece & rest & b & Hsplit & Hs)].
  - exists [], [], []. split; reflexivity.
  - cbn [Py.split]. destruct (c =? sep)%N.
    + exists [], (Py.split sep s), (c :: s). split; reflexivity.
    + rewrite Hsplit. exists (c :: piece), rest, b. split; [reflexivity |].
      simpl. f_equal. exact Hs.
Qed.

Lemma join_split (sep : N) (s : list N) : Py.join [sep] (Py.split sep s) = s.
Proof.
  induction s as [| c s IH]; [reflexivity |].
  destruct (split_head sep s) as (piece & rest & b & Hsplit & _).
  cbn [Py.split]. rewrite Hsplit in *. destruct (N.eqb_spec c sep) as [-> | Hc].
  - cbn [Py.join app]. f_equal. exact IH.
  - rewrite <- IH. destruct rest; reflexivity.
Qed.

Lemma split_infix (sep : N) : forall (s line : list N),
  In line (Py.split sep s) -> exists a b, s = a ++ line ++ b.
Proof.
  induction s as [| c s IH]; intros line Hin.
  - destruct Hin as [<- | []]. exists [], []. reflexivity.
  - cbn [Py.split] in Hin. destruct (c =? sep)%N.
    + destruct Hin as [<- | Hin].
      * exists [], (c :: s). reflexivity.
      * destruct (IH line Hin) as (a & b & ->). exists (c :: a), b. reflexivity.
    + destruct (split_head sep s) as (piece & rest & b & Hsplit & Hs).
      rewrite Hsplit in *. destruct Hin as [<- | Hin].
      * exists [], b. simpl. f_equal. exact Hs.
      * destruct (IH line (or_intror Hin)) as (a & b' & ->).
        exists (c :: a), b'. reflexivity.
Qed.

Lemma ci_startswith_app (p a b : list N) :
  Clean.ci_startswith p a = true -> Clean.ci_startswith p (a ++ b) = true.
Proof.
  revert a. induction p as [| x p IH]; intros a H; [reflexivity |].
  destruct a as [| y a]; [discriminate |].
  simpl in *. apply andb_true_iff in H as [Hc Hp].
  rewrite Hc. simpl. apply IH. exact Hp.
Qed.

Lemma label_at_app (a b : list N) :
  Clean.label_at a = true -> Clean.label_at (a ++ b) = true.
Proof.
  unfold Clean.label_at. intros H. apply orb_true_iff in H as [H | H];
    apply (ci_startswith_app _ _ b) in H; rewrite H; [reflexivity | apply orb_true_r].
Qed.

Lemma label_free_at (a t : list N) :
  Clean.label_free (a ++ t) = true -> Clean.label_at t = false.
Proof.
  induction a as [| x a IH]; intros H.
  - destruct t as [| c t]; [reflexivity |].
    cbn [app Clean.label_free] in H. apply andb_true_iff in H as [H _].
    apply negb_true_iff in H. exact H.
  - cbn [app Clean.label_free] in H. apply andb_true_iff in H as [_ H]. exact (IH H).
Qed.

(** In a text no position of which starts a label, no line is a label
    line. *)
Lemma label_free_lines (s line : list N) :
  Clean.label_free s = true -> In line (Py.split Py.LF s) ->
  Clean.is_label_line line = false.
Proof.
  intros Hfree Hin. destruct (split_infix _ _ _ Hin) as (a & b & Hs).
  destruct (lstrip_suffix line) as [x Hx].
  unfold Clean.is_label_line.
  destruct (Clean.label_at (Py.lstrip line)) eqn:Hat; [| reflexivity].
  apply (label_at_app _ b) in Hat.
  rewrite Hx, <- !app_assoc, app_assoc in Hs. rewrite Hs in Hfree.
  apply label_free_at in Hfree. congruence.
Qed.

Lemma filter_all {A} (f : A -> bool) (l : list A) :
  (forall x, In x l -> f x = true) -> List.filter f l = l.
Proof.
  induction l as [| x l IH]; intros H; [reflexivity |].
  simpl. rewrite (H x (or_introl eq_refl)). f_equal. apply IH.
  intros y Hy. apply H. right. exact Hy.
Qed.

Lemma sub_labels_label_free (env : Env) : forall (s : list N) (prev : option N),
  Clean.label_free s = true -> Clean.sub_labels env prev O s = s.
Proof.
  induction s as [| c s IH]; intros prev H; [reflexivity |].
  cbn [Clean.label_free] in H. apply andb_true_iff in H as [Hat Hfree].
  apply negb_true_iff in Hat.
  cbn [Clean.sub_labels]. unfold Clean.label_match. rewrite Hat. cbn [andb].
  f_equal. apply IH. exact Hfree.
Qed.

Lemma collapse_no_run : forall (s : list N) (run : nat),
  (run <= 2)%nat ->
  Clean.has_blank_run (repeat Py.LF run ++ s) = false ->
  Clean.collapse_newlines run s = s.
Proof.
  induction s as [| c s IH]; intros run Hrun H; [reflexivity |].
  cbn [Clean.collapse_newlines]. destruct (N.eqb_spec c Py.LF) as [-> | Hc].
  - destruct (Nat.ltb_spec run 2) as [Hlt | Hge].
    + f_equal. apply IH; [lia |].
      cbn [repeat]. rewrite repeat_cons, <- app_assoc. exact H.
    + assert (run = 2%nat) as -> by lia. discriminate H.
  - f_equal. apply (IH O); [lia |].
    apply has_blank_run_suffix in H. apply has_blank_run_tail in H. exact H.
Qed.

(** X15: a text in which no position starts a label, that has no run of
    three newlines and no whitespace at either end comes back from the
    sanitation unchanged. *)
Theorem clean_response_identity (env : Env) (s : list N) :
  Clean.label_free s = true ->
  Clean.has_blank_run s = false ->
  Py.strip s = s ->
  Clean._clean_response env (Some s) = Some s.
Proof.
  intros Hfree Hrun Hstrip. destruct s as [| c s]; [reflexivity |].
  unfold Clean._clean_response.
  rewrite filter_all.
  2: { intros line Hin. rewrite (label_free_lines _ _ Hfree Hin). reflexivity. }
  rewrite join_split, Hstrip.
  rewrite sub_labels_label_free by exact Hfree.
  rewrite (collapse_no_run _ O) by (auto; exact Hrun).
  rewrite Hstrip. reflexivity.
Qed.

Lemma clean_response_identity_witness :
  Clean.label_free (py "The stipend is paid monthly.") = true /\
  Clean.has_blank_run (py "The stipend is paid monthly.") = false /\
  Py.strip (py "The stipend is paid monthly.") = py "The stipend is paid monthly." /\
  Clean._clean_response Scenario.low_env (Some (py "The stipend is paid monthly."))
  = Some (py "The stipend is paid monthly.").
Proof.
  assert (H1 : Clean.label_free (py "The stipend is paid monthly.") = true)
    by (vm_compute; reflexivity).
  assert (H2 : Clean.has_blank_run (py "The stipend is paid monthly.") = false)
    by (vm_compute; reflexivity).
  assert (H3 : Py.strip (py "The stipend is paid monthly.")
               = py "The stipend is paid monthly.") by (vm_compute; reflexivity).
  split_and!; try assumption.
  exact (clean_response_identity Scenario.low_env (py "The stipend is paid monthly.")
           H1 H2 H3).
Defined.

(** ** Streaming: what the chunks add up to *)

Lemma strip_fixed_parts (x : list N) :
  Py.strip x = x -> Py.lstrip x = x /\ Py.rstrip x = x.
Proof.
  intros Hx.
  assert (Hl : Py.lstrip x = x).
  { rewrite <- Hx at 1. unfold Py.strip.
    rewrite (lstrip_rstrip_fixed (Py.lstrip x)) by apply lstrip_lstrip. exact Hx. }
  split; [exact Hl |]. unfold Py.strip in Hx. rewrite Hl in Hx. exact Hx.
Qed.

Lemma lstrip_app_fixed (a b : list N) :
  a <> [] -> Py.lstrip a = a -> Py.lstrip (a ++ b) = a ++ b.
Proof.
  intros Ha Hl. apply lstrip_fixed in Hl. destruct a as [| c a]; [contradiction |].
  simpl. rewrite Hl. reflexivity.
Qed.

Lemma rstrip_app_fixed (a b : list N) :
  b <> [] -> Py.rstrip b = b -> Py.rstrip (a ++ b) = a ++ b.
Proof.
  intros Hb Hr. unfold Py.rstrip in *. rewrite rev_app_distr.
  assert (Hl : Py.lstrip (rev b) = rev b).
  { apply (f_equal (@rev N)) in Hr. rewrite rev_involutive in Hr. exact Hr. }
  rewrite lstrip_app_fixed; [| | exact Hl].
  - rewrite rev_app_distr, !rev_involutive. reflexivity.
  - intros Hnil. apply Hb. apply (f_equal (@rev N)) in Hnil.
    rewrite rev_involutive in Hnil. exact Hnil.
Qed.

Lemma rstrip_space (j : list N) : Py.rstrip (j ++ [32%N]) = Py.rstrip j.
Proof. unfold Py.rstrip. rewrite rev_app_distr. reflexivity. Qed.

Lemma strip_fixed_space (j : list N) :
  j <> [] -> Py.strip j = j -> Py.strip (j ++ [32%N]) = j.
Proof.
  intros Hj Hs. apply strip_fixed_parts in Hs as [Hl Hr].
  unfold Py.strip. rewrite lstrip_app_fixed by assumption.
  rewrite rstrip_space. exact Hr.
Qed.

Lemma join_cons2 (sep w : list N) (ws : list (list N)) :
  ws <> [] -> Py.join sep (w :: ws) = w ++ sep ++ Py.join sep ws.
Proof. destruct ws; [contradiction | reflexivity]. Qed.

(** Stripped, non-empty sentences joined by single spaces make a stripped,
    non-empty text. *)
Lemma join_words_fixed (ws : list (list N)) :
  Forall (fun w => w <> [] /\ Py.strip w = w) ws -> ws <> [] ->
  Py.join [32%N] ws <> [] /\ Py.strip (Py.join [32%N] ws) = Py.join [32%N] ws.
Proof.
  induction 1 as [| w ws [Hw Hs] Hall IH]; intros Hne; [contradiction |].
  destruct ws as [| w' ws]; [split; assumption |].
  destruct IH as [Hj Hjs]; [discriminate |].
  rewrite join_cons2 by discriminate.
  split; [destruct w; [contradiction | discriminate] |].
  apply strip_fixed_parts in Hs as [Hl Hr].
  apply strip_fixed_parts in Hjs as [Hjl Hjr].
  unfold Py.strip. rewrite lstrip_app_fixed by assumption.
  rewrite !app_assoc. apply rstrip_app_fixed; assumption.
Qed.

Lemma spaced_join (ws : list (list N)) :
  ws <> [] ->
  concat (map (fun w => w ++ [32%N]) ws) = Py.join [32%N] ws ++ [32%N].
Proof.
  induction ws as [| w ws IH]; intros Hne; [contradiction |].
  destruct ws as [| w' ws]; [simpl; rewrite app_nil_r; reflexivity |].
  rewrite join_cons2 by discriminate.
  cbn [map concat]. cbn [map concat] in IH. rewrite IH by discriminate.
  rewrite <- !app_assoc. reflexivity.
Qed.

Lemma spaced_then_join (ws l : list (list N)) :
  l <> [] ->
  concat (map (fun w => w ++ [32%N]) ws) ++ Py.join [32%N] l = Py.join [32%N] (ws ++ l).
Proof.
  intros Hl. induction ws as [| w ws IH]; [reflexivity |].
  cbn [map concat app]. rewrite join_cons2 by (destruct ws, l; try discriminate; contradiction).
  rewrite <- IH, <- !app_assoc. reflexivity.
Qed.

(** The loop of [chunk_text], started with the sentences [ws] already in
    the chunk under construction. *)
Lemma chunk_loop_concat (n : nat) : forall (sents ws : list (list N)),
  Forall (fun w => w <> [] /\ Py.strip w = w) ws ->
  concat (SSE.chunk_loop n (concat (map (fun w => w ++ [32%N]) ws)) sents)
  = Py.join [32%N] (ws ++ List.filter Py.truthy (map Py.strip sents)).
Proof.
  induction sents as [| sent rest IH]; intros ws Hws.
  - cbn [SSE.chunk_loop map List.filter]. rewrite app_nil_r.
    destruct ws as [| w ws]; [reflexivity |].
    destruct (join_words_fixed (w :: ws) Hws) as [Hj Hjs]; [discriminate |].
    rewrite spaced_join by discriminate.
    rewrite strip_fixed_space by assumption.
    apply truthy_true in Hj. rewrite Hj. cbn [concat]. apply app_nil_r.
  - cbn [SSE.chunk_loop map List.filter].
    destruct (Py.strip sent) as [| c w] eqn:Hsent; [exact (IH ws Hws) |].
    cbn [Py.truthy negb].
    assert (Hw : c :: w <> [] /\ Py.strip (c :: w) = c :: w).
    { split; [discriminate |]. rewrite <- Hsent. apply strip_strip. }
    change (Py.lit " ") with [32%N].
    match goal with
    | |- context [if ?b then _ else _] => destruct b
    end.
    + cbn [concat].
      specialize (IH [c :: w]).
      cbn [map concat] in IH. rewrite app_nil_r in IH. rewrite IH.
      * apply spaced_then_join. discriminate.
      * apply Forall_cons. split; [exact Hw | apply Forall_nil_2].
    + specialize (IH (ws ++ [c :: w])).
      rewrite map_app, concat_app in IH. cbn [map concat] in IH.
      rewrite app_nil_r, <- app_assoc in IH. rewrite IH.
      * reflexivity.
      * apply Forall_app. split; [exact Hws |].
        apply Forall_cons. split; [exact Hw | apply Forall_nil_2].
Qed.

Lemma split_no_sep (sep : N) : forall (s piece : list N),
  In piece (Py.split sep s) -> ~ In sep piece.
Proof.
  induction s as [| c s IH]; intros piece Hin.
  - destruct Hin as [<- | []]. intros [].
  - cbn [Py.split] in Hin. destruct (N.eqb_spec c sep) as [-> | Hc].
    + destruct Hin as [<- | Hin]; [intros [] | exact (IH piece Hin)].
    + destruct (split_head sep s) as (p & rest & b & Hsplit & _).
      rewrite Hsplit in *. destruct Hin as [<- | Hin].
      * intros [Heq | Hp]; [congruence |]. exact (IH p (or_introl eq_refl) Hp).
      * exact (IH piece (or_intror Hin)).
Qed.

Lemma in_join (sep : list N) (c : N) : forall ws : list (list N),
  In c (Py.join sep ws) -> In c sep \/ exists w, In w ws /\ In c w.
Proof.
  induction ws as [| w ws IH]; intros Hin; [destruct Hin |].
  destruct ws as [| w' ws]; [right; exists w; split; [left; reflexivity | exact Hin] |].
  rewrite join_cons2 in Hin by discriminate.
  apply in_app_or in Hin as [Hin | Hin]; [right; exists w; split; [left; reflexivity | exact Hin] |].
  apply in_app_or in Hin as [Hin | Hin]; [left; exact Hin |].
  destruct (IH Hin) as [Hsep | (x & Hx & Hcx)]; [left; exact Hsep |].
  right. exists x. split; [right; exact Hx | exact Hcx].
Qed.

(** X16: the chunk size decides only where the text is cut: for every
    size the chunks, put end to end, are the stripped non-empty sentences
    joined by single spaces, and no chunk holds the separator character
    ['|']. *)
Theorem chunks_concat (text : list N) (chunk_size : nat) :
  concat (SSE.chunk_text text chunk_size) = Py.join (py " ") (SSE.sentences text) /\
  ~ In SSE.BAR (concat (SSE.chunk_text text chunk_size)).
Proof.
  assert (Hcat : concat (SSE.chunk_text text chunk_size)
                 = Py.join (py " ") (SSE.sentences text)).
  { unfold SSE.chunk_text, SSE.sentences. destruct text as [| c text]; [reflexivity |].
    cbn [Py.truthy negb]. apply (chunk_loop_concat chunk_size _ []). apply Forall_nil_2. }
  split; [exact Hcat |]. rewrite Hcat. intros Hin.
  apply in_join in Hin as [Hin | (w & Hw & Hin)].
  - destruct Hin as [Heq | []]. discriminate Heq.
  - unfold SSE.sentences in Hw. apply filter_In in Hw as [Hw _].
    apply in_map_iff in Hw as (piece & <- & Hpiece).
    apply split_no_sep in Hpiece. apply Hpiece.
    destruct (strip_infix piece) as (a & b & ->).
    apply in_or_app. right. apply in_or_app. left. exact Hin.
Qed.

Lemma replace_chars (p c : N) : forall (s : list N) (k : nat),
  In c (Py.replace_from [p; 32%N] [p; 124%N] k s) -> In c s \/ c = 124%N.
Proof.
  induction s as [| a s IH]; intros k Hin; [destruct Hin |].
  cbn [Py.replace_from] in Hin. destruct k as [| k].
  - destruct (Py.startswith [p; 32%N] (a :: s)) eqn:Hstart.
    + cbn [Py.startswith] in Hstart. apply andb_true_iff in Hstart as [Hp _].
      apply N.eqb_eq in Hp. subst a.
      destruct Hin as [<- | [<- | Hin]]; [left; left; reflexivity | right; reflexivity |].
      destruct (IH _ Hin) as [H | H]; [left; right; exact H | right; exact H].
    + destruct Hin as [<- | Hin]; [left; left; reflexivity |].
      destruct (IH _ Hin) as [H | H]; [left; right; exact H | right; exact H].
  - destruct (IH _ Hin) as [H | H]; [left; right; exact H | right; exact H].
Qed.

Lemma blank_strip_nil (s : list N) : Py.blank s = true -> Py.strip s = [].
Proof.
  intros Hb. destruct (Py.strip s) as [| c t] eqn:Hs; [reflexivity |].
  assert (Hne : Py.strip s <> []) by (rewrite Hs; discriminate).
  apply strip_nonempty_not_blank in Hne. congruence.
Qed.

Lemma chunk_loop_blank (n : nat) (sents : list (list N)) :
  Forall (fun s => Py.blank s = true) sents -> SSE.chunk_loop n [] sents = [].
Proof.
  induction 1 as [| s sents Hs _ IH]; [reflexivity |].
  cbn [SSE.chunk_loop]. rewrite (blank_strip_nil s Hs). exact IH.
Qed.

(** X17: [chunk_text] yields no chunk exactly when the text has no
    character other than whitespace and the separator ['|']. *)
Theorem chunk_text_empty_iff (text : list N) (chunk_size : nat) :
  SSE.chunk_text text chunk_size = [] <-> ~ SSE.has_text text.
Proof.
  split.
  - intros Hnil Htext. exact (chunk_text_nonempty text chunk_size Htext Hnil).
  - intros Hno. unfold SSE.chunk_text. destruct (Py.truthy text); [| reflexivity].
    cbn [negb]. apply chunk_loop_blank. apply List.Forall_forall. intros piece Hpiece.
    apply forallb_forall. intros c Hc.
    destruct (Py.isspace c) eqn:Hspace; [reflexivity |]. exfalso.
    assert (Hbar : c <> SSE.BAR).
    { intros ->. exact (split_no_sep _ _ _ Hpiece Hc). }
    destruct (split_infix _ _ _ Hpiece) as (a & b & Hs).
    assert (Hin : In c (Py.replace_from [46%N; 32%N] [46%N; 124%N] O
                          (Py.replace_from [33%N; 32%N] [33%N; 124%N] O
                             (Py.replace_from [63%N; 32%N] [63%N; 124%N] O text)))).
    { change (In c (Py.replace (py ". ") (py ".|")
                      (Py.replace (py "! ") (py "!|")
                         (Py.replace (py "? ") (py "?|") text)))).
      rewrite Hs. apply in_or_app. right. apply in_or_app. left. exact Hc. }
    apply replace_chars in Hin as [Hin | Heq]; [| exact (Hbar Heq)].
    apply replace_chars in Hin as [Hin | Heq]; [| exact (Hbar Heq)].
    apply replace_chars in Hin as [Hin | Heq]; [| exact (Hbar Heq)].
    apply Hno. exists c. split_and!; assumption.
Qed.


(** ** Intent classification and routing *)

Lemma count_loop_ge (lower : list N -> list N) (text_lower : list N) :
  forall (keywords : list (list N)) (count : Z),
    count <= IntentRouter.count_loop lower text_lower keywords count.
Proof.
  induction keywords as [| k rest IH]; intros count; simpl; [lia |].
  destruct (Py.contains (lower k) text_lower).
  - specialize (IH (count + 1)). lia.
  - apply IH.
Qed.

Lemma count_nonneg (lower : list N -> list N) (text : list N) (keywords : list (list N)) :
  0 <= IntentRouter._count_keyword_matches lower text keywords.
Proof. apply count_loop_ge. Qed.

Lemma intents_distinct :
  IntentRouter.COMPANY_INTERNSHIP <> IntentRouter.EDUCATION_CODING /\
  IntentRouter.COMPANY_INTERNSHIP <> IntentRouter.INTERVIEW_PREPARATION /\
  IntentRouter.COMPANY_INTERNSHIP <> IntentRouter.GENERAL_EDUCATION /\
  IntentRouter.EDUCATION_CODING <> IntentRouter.INTERVIEW_PREPARATION /\
  IntentRouter.EDUCATION_CODING <> IntentRouter.GENERAL_EDUCATION /\
  IntentRouter.INTERVIEW_PREPARATION <> IntentRouter.GENERAL_EDUCATION.
Proof. split_and!; discriminate. Qed.

(** X18: for a non-empty query the intent is the category with the
    highest keyword count, ties going to the first of internship, coding,
    interview, general education; when every count is zero the intent is
    general education. *)
Theorem classify_intent_first_maximum (lower : list N -> list N) (query : list N) :
  query <> [] ->
  let i := IntentRouter._count_keyword_matches lower query IntentRouter.internship_keywords in
  let c := IntentRouter._count_keyword_matches lower query IntentRouter.coding_keywords in
  let v := IntentRouter._count_keyword_matches lower query IntentRouter.interview_keywords in
  let e := IntentRouter._count_keyword_matches lower query IntentRouter.education_keywords in
  let intent := IntentRouter.classify_intent lower query in
  (intent = IntentRouter.COMPANY_INTERNSHIP <-> 0 < i /\ c <= i /\ v <= i /\ e <= i) /\
  (intent = IntentRouter.EDUCATION_CODING <-> i < c /\ v <= c /\ e <= c) /\
  (intent = IntentRouter.INTERVIEW_PREPARATION <-> i < v /\ c < v /\ e <= v) /\
  (intent = IntentRouter.GENERAL_EDUCATION <->
     (i < e /\ c < e /\ v < e) \/ (i = 0 /\ c = 0 /\ v = 0 /\ e = 0)).
Proof.
  intros Hq i c v e intent.
  pose proof (count_nonneg lower query IntentRouter.internship_keywords) as Hi.
  pose proof (count_nonneg lower query IntentRouter.coding_keywords) as Hc.
  pose proof (count_nonneg lower query IntentRouter.interview_keywords) as Hv.
  pose proof (count_nonneg lower query IntentRouter.education_keywords) as He.
  fold i in Hi. fold c in Hc. fold v in Hv. fold e in He.
  destruct intents_distinct as (D1 & D2 & D3 & D4 & D5 & D6).
  subst intent. unfold IntentRouter.classify_intent.
  apply truthy_true in Hq. rewrite Hq. cbn [negb]. cbv zeta.
  fold i c v e. clearbody i c v e.
  cbn [IntentRouter.max_entry snd fst].
  destruct (Z.ltb_spec i c); cbn [snd fst];
    [destruct (Z.ltb_spec c v) | destruct (Z.ltb_spec i v)]; cbn [snd fst];
    match goal with
    | |- context [(?a <? ?b)] => destruct (Z.ltb_spec a b)
    end; cbn [snd fst];
    match goal with
    | |- context [(?a =? 0)] => destruct (Z.eqb_spec a 0)
    end;
    split_and!; split; intros;
    first [reflexivity | lia | congruence | exfalso; lia | exfalso; congruence].
Qed.

Lemma classify_intent_first_maximum_witness :
  py "What is the stipend of the internship?" <> [] /\
  let lower := Cases.ascii_lower in
  let query := py "What is the stipend of the internship?" in
  let i := IntentRouter._count_keyword_matches lower query IntentRouter.internship_keywords in
  let c := IntentRouter._count_keyword_matches lower query IntentRouter.coding_keywords in
  let v := IntentRouter._count_keyword_matches lower query IntentRouter.interview_keywords in
  let e := IntentRouter._count_keyword_matches lower query IntentRouter.education_keywords in
  let intent := IntentRouter.classify_intent lower query in
  (intent = IntentRouter.COMPANY_INTERNSHIP <-> 0 < i /\ c <= i /\ v <= i /\ e <= i) /\
  (intent = IntentRouter.EDUCATION_CODING <-> i < c /\ v <= c /\ e <= c) /\
  (intent = IntentRouter.INTERVIEW_PREPARATION <-> i < v /\ c < v /\ e <= v) /\
  (intent = IntentRouter.GENERAL_EDUCATION <->
     (i < e /\ c < e /\ v < e) \/ (i = 0 /\ c = 0 /\ v = 0 /\ e = 0)).
Proof.
  assert (H1 : py "What is the stipend of the internship?" <> []) by discriminate.
  split; [exact H1 |].
  exact (classify_intent_first_maximum Cases.ascii_lower
           (py "What is the stipend of the internship?") H1).
Defined.

Lemma classify_intent_category (lower : list N -> list N) (query : list N) :
  IntentRouter.classify_intent lower query = IntentRouter.COMPANY_INTERNSHIP \/
  IntentRouter.classify_intent lower query = IntentRouter.EDUCATION_CODING \/
  IntentRouter.classify_intent lower query = IntentRouter.INTERVIEW_PREPARATION \/
  IntentRouter.classify_intent lower query = IntentRouter.GENERAL_EDUCATION.
Proof.
  unfold IntentRouter.classify_intent. destruct (negb (Py.truthy query)); [tauto |].
  cbv zeta. cbn [IntentRouter.max_entry snd fst].
  repeat match goal with
         | |- context [if ?b then _ else _] => destruct b; cbn [snd fst]
         end; tauto.
Qed.

(** X19: whatever the query, [route_node] records the classified intent
    and sends the query down the RAG branch, while the table of
    [get_pipeline_for_intent] names the RAG pipeline for the internship
    intent only and the external pipeline for every other intent the
    classifier can return: the table is not consulted for routing. *)
Theorem routing_ignores_rules_table (env : Env) (lower : list N -> list N)
    (state : ChatbotState) (st : Store) :
  (forall q, classify_intent env q = IntentRouter.classify_intent lower q) ->
  let intent' := IntentRouter.classify_intent lower (query state) in
  exists state',
    GraphNodes.route_node env state st = (Ok state', st) /\
    intent state' = Some intent' /\
    ChatbotGraph.should_use_rag state' = true /\
    (RouteRules.get_pipeline_for_intent intent' = py "RAG"
     <-> intent' = IntentRouter.COMPANY_INTERNSHIP) /\
    (RouteRules.get_pipeline_for_intent intent' = py "EXTERNAL"
     <-> intent' <> IntentRouter.COMPANY_INTERNSHIP).
Proof.
  intros Hclass intent'.
  eexists. split; [reflexivity |].
  split; [cbn; rewrite Hclass; reflexivity |].
  split; [reflexivity |].
  destruct intents_distinct as (D1 & D2 & D3 & D4 & D5 & D6).
  destruct (classify_intent_category lower (query state)) as [H | [H | [H | H]]];
    fold intent' in H; rewrite H; split_and!; split; intros;
    first [reflexivity | congruence | discriminate | exfalso; congruence].
Qed.

Lemma routing_ignores_rules_table_witness :
  (forall q, classify_intent Cases.router_env q
             = IntentRouter.classify_intent Cases.ascii_lower q) /\
  let state := Cases.first_state (py "How do I reverse a linked list in Python?") in
  let intent' := IntentRouter.classify_intent Cases.ascii_lower (query state) in
  exists state',
    GraphNodes.route_node Cases.router_env state (Scenario.store_of [])
    = (Ok state', Scenario.store_of []) /\
    intent state' = Some intent' /\
    ChatbotGraph.should_use_rag state' = true /\
    (RouteRules.get_pipeline_for_intent intent' = py "RAG"
     <-> intent' = IntentRouter.COMPANY_INTERNSHIP) /\
    (RouteRules.get_pipeline_for_intent intent' = py "EXTERNAL"
     <-> intent' <> IntentRouter.COMPANY_INTERNSHIP).
Proof.
  assert (H1 : forall q, classify_intent Cases.router_env q
                         = IntentRouter.classify_intent Cases.ascii_lower q)
    by reflexivity.
  split; [exact H1 |].
  exact (routing_ignores_rules_table Cases.router_env Cases.ascii_lower
           (Cases.first_state (py "How do I reverse a linked list in Python?"))
           (Scenario.store_of []) H1).
Defined.

(** ** Keyword extraction *)

Lemma domain_not_stop (w : list N) :
  w ∈ QueryProcessor.DOMAIN_KEYWORDS -> w ∉ QueryProcessor.STOP_WORDS.
Proof.
  assert (Hall : forallb (fun w => negb (bool_decide (w ∈ QueryProcessor.STOP_WORDS)))
                   QueryProcessor.DOMAIN_KEYWORDS = true)
    by (vm_compute; reflexivity).
  intros Hw. rewrite forallb_forall in Hall.
  apply list_elem_of_In in Hw. specialize (Hall w Hw).
  apply negb_true_iff, bool_decide_eq_false in Hall. exact Hall.
Qed.

Lemma keywords_loop_filter (min_keyword_length : Z) (words : list (list N)) :
  QueryProcessor.keywords_loop min_keyword_length words
  = List.filter
      (fun w => negb (Z.of_nat (length w) <? min_keyword_length)
                && negb (bool_decide (w ∈ QueryProcessor.STOP_WORDS)))
      words.
Proof.
  induction words as [| w rest IH]; [reflexivity |].
  cbn [QueryProcessor.keywords_loop List.filter].
  destruct (Z.of_nat (length w) <? min_keyword_length); cbn [negb andb]; [exact IH |].
  destruct (bool_decide (w ∈ QueryProcessor.DOMAIN_KEYWORDS)) eqn:Hdom.
  - apply bool_decide_eq_true in Hdom. apply domain_not_stop in Hdom.
    rewrite bool_decide_eq_false_2 by exact Hdom. cbn [negb]. f_equal. exact IH.
  - destruct (bool_decide (w ∈ QueryProcessor.STOP_WORDS)); cbn [negb];
      [exact IH | f_equal; exact IH].
Qed.

(** X20: no domain keyword is a stop word, so the domain-keyword test of
    [extract_keywords] changes nothing: the keywords are the words of the
    lowered query, in order, that are not shorter than the minimum length
    and are not stop words. *)
Theorem domain_keywords_redundant (lower : list N -> list N) (min_keyword_length : Z)
    (query : list N) :
  QueryProcessor.extract_keywords lower min_keyword_length query
  = if Py.truthy query
    then List.filter
           (fun w => negb (Z.of_nat (length w) <? min_keyword_length)
                     && negb (bool_decide (w ∈ QueryProcessor.STOP_WORDS)))
           (Py.split_ws (lower query))
    else [].
Proof.
  unfold QueryProcessor.extract_keywords.
  destruct (Py.truthy query); [| reflexivity].
  cbn [negb]. apply keywords_loop_filter.
Qed.

Lemma split_ws_from_words : forall (s acc : list N),
  forallb (fun c => negb (Py.isspace c)) acc = true ->
  Forall (fun w => w <> [] /\ forallb (fun c => negb (Py.isspace c)) w = true)
    (Py.split_ws_from acc s).
Proof.
  assert (Hrev : forall acc : list N,
             acc <> [] -> forallb (fun c => negb (Py.isspace c)) acc = true ->
             rev acc <> [] /\ forallb (fun c => negb (Py.isspace c)) (rev acc) = true).
  { intros acc Hne Hacc. split.
    - intros Hnil. apply Hne. apply (f_equal (@rev N)) in Hnil.
      rewrite rev_involutive in Hnil. exact Hnil.
    - apply forallb_forall. intros c Hc. apply in_rev in Hc.
      rewrite forallb_forall in Hacc. exact (Hacc c Hc). }
  induction s as [| c s IH]; intros acc Hacc; cbn [Py.split_ws_from].
  - destruct acc as [| a acc]; [apply Forall_nil_2 |].
    apply Forall_cons. split; [apply Hrev; [discriminate | exact Hacc] | apply Forall_nil_2].
  - destruct (Py.isspace c) eqn:Hc.
    + destruct acc as [| a acc]; [apply IH; reflexivity |].
      apply Forall_cons. split; [apply Hrev; [discriminate | exact Hacc] |].
      apply IH. reflexivity.
    + apply IH. cbn [forallb]. rewrite Hc, Hacc. reflexivity.
Qed.

Lemma split_ws_from_word : forall (w acc s : list N),
  forallb (fun c => negb (Py.isspace c)) w = true ->
  Py.split_ws_from acc (w ++ s) = Py.split_ws_from (rev w ++ acc) s.
Proof.
  induction w as [| c w IH]; intros acc s Hw; [reflexivity |].
  cbn [forallb] in Hw. apply andb_true_iff in Hw as [Hc Hw].
  apply negb_true_iff in Hc.
  cbn [app Py.split_ws_from]. rewrite Hc. rewrite IH by exact Hw.
  cbn [rev]. rewrite <- app_assoc. reflexivity.
Qed.

Lemma split_ws_join (ws : list (list N)) :
  Forall (fun w => w <> [] /\ forallb (fun c => negb (Py.isspace c)) w = true) ws ->
  Py.split_ws (Py.join [32%N] ws) = ws.
Proof.
  induction 1 as [| w ws [Hne Hw] Hall IH]; [reflexivity |].
  assert (Hrev : rev w <> []).
  { intros Hnil. apply Hne. apply (f_equal (@rev N)) in Hnil.
    rewrite rev_involutive in Hnil. exact Hnil. }
  unfold Py.split_ws in *. destruct ws as [| w' ws].
  - cbn [Py.join]. rewrite <- (app_nil_r w) at 1.
    rewrite split_ws_from_word by exact Hw. rewrite app_nil_r.
    cbn [Py.split_ws_from]. destruct (rev w) eqn:Hr; [contradiction |].
    rewrite <- Hr, rev_involutive. reflexivity.
  - rewrite join_cons2 by discriminate.
    rewrite split_ws_from_word by exact Hw. rewrite app_nil_r.
    cbn [app Py.split_ws_from].
    change (Py.isspace 32) with true. cbv iota.
    destruct (rev w) eqn:Hr; [contradiction |].
    rewrite <- Hr, rev_involutive. f_equal. exact IH.
Qed.

(** X21: every keyword is a non-empty word without whitespace, so the
    keyword query that [process_query] builds by joining the keywords with
    single spaces splits back into exactly the keywords. *)
Theorem keyword_query_round_trip (lower : list N -> list N) (min_keyword_length : Z)
    (query : list N) :
  let keywords := QueryProcessor.extract_keywords lower min_keyword_length query in
  Forall (fun w => w <> [] /\ Forall (fun c => Py.isspace c = false) w) keywords /\
  Py.split_ws (Py.join (py " ") keywords) = keywords.
Proof.
  intros keywords.
  assert (Hwords : Forall (fun w => w <> [] /\
                             forallb (fun c => negb (Py.isspace c)) w = true) keywords).
  { subst keywords. unfold QueryProcessor.extract_keywords.
    destruct (Py.truthy query); [| apply Forall_nil_2].
    cbn [negb]. rewrite keywords_loop_filter.
    apply List.Forall_forall. intros w Hw. apply filter_In in Hw as [Hw _].
    pose proof (split_ws_from_words (lower query) [] eq_refl) as Hall.
    rewrite List.Forall_forall in Hall. exact (Hall w Hw). }
  split; [| exact (split_ws_join keywords Hwords)].
  eapply Forall_impl; [exact Hwords |].
  intros w [Hne Hw]. split; [exact Hne |].
  apply List.Forall_forall. intros c Hc. rewrite forallb_forall in Hw.
  apply negb_true_iff. exact (Hw c Hc).
Qed.

(** ** The configured thresholds in the assembled pipeline *)

(** C9: the validator of the pipeline is constructed with the configured
    retrieval threshold, whose default is 0.50, and the exact-match
    threshold defaults to 0.90.  In every run of an accepted query the
    first gates whether the RAG branch answers at all: when no retrieved
    document scores at least 0.50 the answer comes from the external
    branch (one generative call without context, one ingestion), and when
    some document does, the RAG branch answers from the documents scoring
    at least 0.50 and nothing is ingested.  The second gates the cached
    answer: the RAG branch returns a stored answer, without a generative
    call, exactly when one of those documents is a generated Q&A document
    scoring at least 0.90 with a non-empty stored answer (the first such
    document gives the answer); otherwise it makes one generative call
    with the retrieved context.  The stored answer is returned through
    the sanitation, which leaves a text without labels, blank runs and
    outer whitespace as it is. *)
Theorem configured_thresholds (env : Env) (q u s : list N) (st : Store) (docs : list Doc) :
  accepted q u s ->
  fst (Retriever.retrieve env (GraphNodes.retriever RAGChatbot.nodes) q None None st) = Ok docs ->
  let history :=
    Memory.get_formatted_history (memory st) (redis_ok env (S (redis_ops st))) u s in
  let acceptable := List.filter (fun d => Qle_bool (50 # 100) (similarity_score d)) docs in
  Settings.SIMILARITY_THRESHOLD = (50 # 100)%Q /\
  Settings.EXACT_MATCH_THRESHOLD = (90 # 100)%Q /\
  ScoreThreshold.threshold (GraphNodes.score_threshold RAGChatbot.nodes) = (50 # 100)%Q /\
  (exists (answer : list N) (st' : Store),
     RAGChatbot.query env q u s st = (Ok (Clean._clean_response env (Some answer)), st') /\
     match acceptable with
     | [] =>
         answer
         = GeminiLLM.response_text (http_post env (GeminiLLM.response_prompt env q history)) /\
         generated_prompts (new_calls st st') = [GeminiLLM.response_prompt env q history] /\
         ingest_invocations (new_calls st st') = [(q, answer)]
     | _ :: _ =>
         ingest_invocations (new_calls st st') = [] /\
         match GraphNodes.cached_answer acceptable with
         | Some cached =>
             answer = cached /\
             generated_prompts (new_calls st st') = [] /\
             (Clean.label_free cached = true ->
              Clean.has_blank_run cached = false ->
              Py.strip cached = cached ->
              Clean._clean_response env (Some answer) = Some cached)
         | None =>
             answer
             = GeminiLLM.response_text
                 (http_post env
                    (GeminiLLM.rag_prompt env
                       (Retriever.format_retrieved_context acceptable) q history)) /\
             generated_prompts (new_calls st st')
             = [GeminiLLM.rag_prompt env
                  (Retriever.format_retrieved_context acceptable) q history]
         end
     end) /\
  (forall cached,
     GraphNodes.cached_answer acceptable = Some cached <->
     exists before d after,
       acceptable = before ++ d :: after /\
       metadata d !! py "document_type" = Some (py "Generated Q&A") /\
       ((90 # 100) <= similarity_score d)%Q /\
       stored_answer d = cached /\
       cached <> [] /\
       Forall (fun d' => ~ (metadata d' !! py "document_type" = Some (py "Generated Q&A") /\
                            ((90 # 100) <= similarity_score d')%Q /\
                            stored_answer d' <> []))
         before).
Proof.
  intros Hacc Hdocs history acceptable.
  split; [reflexivity |]. split; [reflexivity |]. split; [reflexivity |].
  split.
  - destruct (query_run env q u s st docs Hacc Hdocs) as (st' & Hrun & _ & Hp & Hi).
    cbv zeta in Hrun, Hp, Hi. fold history in Hrun, Hp, Hi.
    unfold ScoreThreshold.validate_retrieval in Hrun, Hp, Hi.
    rewrite !filter_by_threshold_filter in Hrun, Hp, Hi.
    change (List.filter
              (fun doc => Qle_bool
                            (ScoreThreshold.threshold (GraphNodes.score_threshold RAGChatbot.nodes))
                            (similarity_score doc)) docs)
      with acceptable in Hrun, Hp, Hi.
    eexists _, st'. split; [exact Hrun |].
    destruct acceptable as [| d rest].
    + cbn [length Nat.ltb Nat.leb] in Hp, Hi |- *. split_and!; [reflexivity | exact Hp | exact Hi].
    + cbn [length Nat.ltb Nat.leb] in Hp, Hi |- *. split; [exact Hi |].
      destruct (GraphNodes.cached_answer (d :: rest)) as [cached |].
      * split; [reflexivity |]. split; [exact Hp |].
        intros Hfree Hrun' Hstrip. destruct cached as [| c cached]; [reflexivity |].
        unfold Clean._clean_response.
        rewrite filter_all.
        2: { intros line Hin. rewrite (label_free_lines _ _ Hfree Hin). reflexivity. }
        rewrite join_split, Hstrip.
        rewrite sub_labels_label_free by exact Hfree.
        rewrite (collapse_no_run _ O) by (auto; exact Hrun').
        rewrite Hstrip. reflexivity.
      * split; [reflexivity | exact Hp].
  - intros cached. rewrite cached_answer_first. unfold exact_qa. split.
    + intros (before & d & after & Heq & [Hty Hscore] & Hans & Hne & Hbefore).
      exists before, d, after. split_and!; try assumption.
      eapply Forall_impl; [exact Hbefore |].
      intros d' Hnot (H1 & H2 & H3). apply Hnot. split_and!; assumption.
    + intros (before & d & after & Heq & Hty & Hscore & Hans & Hne & Hbefore).
      exists before, d, after. split_and!; try assumption.
      eapply Forall_impl; [exact Hbefore |].
      intros d' Hnot ((H1 & H2) & H3). apply Hnot. split_and!; assumption.
Qed.

(** A cached pair with a tidy stored answer, scored 0.97. *)
Lemma configured_thresholds_witness :
  accepted Scenario.question Scenario.user Scenario.session /\
  fst (Retriever.retrieve Scenario.cache_env (GraphNodes.retriever RAGChatbot.nodes)
         Scenario.question None None (Scenario.store_of [Scenario.plain_cached_point]))
  = Ok [Cases.plain_cached_doc] /\
  let env := Scenario.cache_env in
  let q := Scenario.question in
  let st := Scenario.store_of [Scenario.plain_cached_point] in
  let history :=
    Memory.get_formatted_history (memory st) (redis_ok env (S (redis_ops st)))
      Scenario.user Scenario.session in
  let acceptable :=
    List.filter (fun d => Qle_bool (50 # 100) (similarity_score d)) [Cases.plain_cached_doc] in
  Settings.SIMILARITY_THRESHOLD = (50 # 100)%Q /\
  Settings.EXACT_MATCH_THRESHOLD = (90 # 100)%Q /\
  ScoreThreshold.threshold (GraphNodes.score_threshold RAGChatbot.nodes) = (50 # 100)%Q /\
  (exists (answer : list N) (st' : Store),
     RAGChatbot.query env q Scenario.user Scenario.session st
     = (Ok (Clean._clean_response env (Some answer)), st') /\
     match acceptable with
     | [] =>
         answer
         = GeminiLLM.response_text (http_post env (GeminiLLM.response_prompt env q history)) /\
         generated_prompts (new_calls st st') = [GeminiLLM.response_prompt env q history] /\
         ingest_invocations (new_calls st st') = [(q, answer)]
     | _ :: _ =>
         ingest_invocations (new_calls st st') = [] /\
         match GraphNodes.cached_answer acceptable with
         | Some cached =>
             answer = cached /\
             generated_prompts (new_calls st st') = [] /\
             (Clean.label_free cached = true ->
              Clean.has_blank_run cached = false ->
              Py.strip cached = cached ->
              Clean._clean_response env (Some answer) = Some cached)
         | None =>
             answer
             = GeminiLLM.response_text
                 (http_post env
                    (GeminiLLM.rag_prompt env
                       (Retriever.format_retrieved_context acceptable) q history)) /\
             generated_prompts (new_calls st st')
             = [GeminiLLM.rag_prompt env
                  (Retriever.format_retrieved_context acceptable) q history]
         end
     end) /\
  (forall cached,
     GraphNodes.cached_answer acceptable = Some cached <->
     exists before d after,
       acceptable = before ++ d :: after /\
       metadata d !! py "document_type" = Some (py "Generated Q&A") /\
       ((90 # 100) <= similarity_score d)%Q /\
       stored_answer d = cached /\
       cached <> [] /\
       Forall (fun d' => ~ (metadata d' !! py "document_type" = Some (py "Generated Q&A") /\
                            ((90 # 100) <= similarity_score d')%Q /\
                            stored_answer d' <> []))
         before).
Proof.
  assert (H1 : accepted Scenario.question Scenario.user Scenario.session)
    by (unfold accepted; split_and!; discriminate).
  assert (H2 : fst (Retriever.retrieve Scenario.cache_env
                      (GraphNodes.retriever RAGChatbot.nodes)
                      Scenario.question None None
                      (Scenario.store_of [Scenario.plain_cached_point]))
               = Ok [Cases.plain_cached_doc]) by (vm_compute; reflexivity).
  split; [exact H1 |]. split; [exact H2 |].
  exact (configured_thresholds Scenario.cache_env Scenario.question Scenario.user
           Scenario.session (Scenario.store_of [Scenario.plain_cached_point])
           [Cases.plain_cached_doc] H1 H2).
Defined.
